(** * alexa-skills-kit-for-go: request decoding, freshness and AudioPlayer directives

    A shallow embedding of [alexa/request.go] and [alexa/audioplayer.go].

    - [Json]: the JSON values that travel between [json.Marshal] and
      [json.Unmarshal], and the part of encoding/json the two files rely on
      (field lookup, decoding into strings, ints, bools, maps, structs).
    - [Request]: the envelope, the request variants, [getTypedRequest] and
      [verifyTimestamp] (with the part of [time.Parse] its layout uses).
    - [Audio]: the response, the three directives and their builders, over an
      explicit store for the objects the builders allocate and share. *)

From Stdlib Require Import ZArith QArith Lia Bool List Ascii String DecimalString.
From stdpp Require Import base option list gmap strings.

Set Warnings "-register-all".
Local Open Scope string_scope.
Local Open Scope list_scope.

(* ===================================================================== *)
(** ** JSON values and the decoder of encoding/json *)
(* ===================================================================== *)

Module Json.

(** A number literal as [json.Marshal] writes it: a plain run of decimal
    digits with an optional sign ([Int]), or a literal with a fraction or an
    exponent ([NonInt], kept as text). *)
Inductive Number :=
| Int (z : Z)
| NonInt (lit : string).

(** A JSON document. For a Go [interface{}] filled by [json.Unmarshal] this is
    also the dynamic value: nil, bool, float64, string, []interface{} and
    map[string]interface{}. The members of an object are listed in the order
    [json.Marshal] writes them. *)
Inductive JValue :=
| JNull
| JBool (b : bool)
| JNumber (n : Number)
| JString (s : string)
| JArray (l : list JValue)
| JObject (m : list (string * JValue)).

(** [UnmarshalTypeError]: the JSON kind that was found and the Go type it
    could not be stored in. Offsets and field paths are left out. *)
Record UnmarshalTypeError := mkTypeError { Value : string; GoType : string }.

Definition kindName (j : JValue) : string :=
  match j with
  | JNull => "null"
  | JBool _ => "bool"
  | JNumber _ => "number"
  | JString _ => "string"
  | JArray _ => "array"
  | JObject _ => "object"
  end.

(** [d.saveError]: only the earliest error is kept. *)
Definition saveError (saved new : option UnmarshalTypeError) : option UnmarshalTypeError :=
  match saved with
  | Some e => Some e
  | None => new
  end.

(** *** Field lookup *)

Definition byte (n : N) : ascii := ascii_of_N n.

(** [foldName]: ASCII letters go to upper case; the two runes outside ASCII
    whose simple fold is an ASCII letter, U+017F (bytes C5 BF) and U+212A
    (bytes E2 84 AA), go to S and K. Every other rune outside ASCII folds to
    a rune outside ASCII; its bytes are kept, which compares alike against
    the ASCII names of the structs here. *)
Fixpoint foldName (s : string) : string :=
  match s with
  | EmptyString => EmptyString
  | String c rest =>
      let n := N_of_ascii c in
      if ((97 <=? n) && (n <=? 122))%N then String (byte (n - 32)) (foldName rest)
      else
        match rest with
        | String c1 rest1 =>
            if Ascii.eqb c (byte 197) && Ascii.eqb c1 (byte 191)
            then String "S" (foldName rest1)
            else
              match rest1 with
              | String c2 rest2 =>
                  if Ascii.eqb c (byte 226) && Ascii.eqb c1 (byte 132) && Ascii.eqb c2 (byte 170)
                  then String "K" (foldName rest2)
                  else String c (foldName rest)
              | EmptyString => String c (foldName rest)
              end
        | EmptyString => String c EmptyString
        end
  end.

(** The field a key selects: the field with exactly that name, else the first
    field whose name equals the key under [foldName]. *)
Definition findField {A} (fs : list (string * A)) (key : string) : option A :=
  match List.find (fun f => String.eqb (fst f) key) fs with
  | Some f => Some (snd f)
  | None =>
      match List.find (fun f => String.eqb (foldName (fst f)) (foldName key)) fs with
      | Some f => Some (snd f)
      | None => None
      end
  end.

(** *** Decoders *)

(** Decoding a JSON value into a Go value of type [T] that already exists:
    the value afterwards and the first type error met, if any. Decoding goes
    on after a type error. *)
Definition Dec (T : Type) : Type := JValue -> T -> T * option UnmarshalTypeError.

Definition typeError {T} (j : JValue) (ty : string) (t : T) : T * option UnmarshalTypeError :=
  (t, Some (mkTypeError (kindName j) ty)).

Definition decString : Dec string := fun j t =>
  match j with
  | JNull => (t, None)
  | JString s => (s, None)
  | _ => typeError j "string" t
  end.

Definition minInt64 : Z := - 2 ^ 63.
Definition maxInt64 : Z := 2 ^ 63 - 1.

(** The literal of a number as it stands in the document. *)
Definition literal (n : Number) : string :=
  match n with
  | Int z => NilZero.string_of_int (Z.to_int z)
  | NonInt lit => lit
  end.

(** Go's [int] is 64 bits wide: [strconv.ParseInt(s, 10, 64)] on the literal.
    A number that is refused is reported with its literal. *)
Definition decInt : Dec Z := fun j t =>
  match j with
  | JNull => (t, None)
  | JNumber n =>
      let refused := (t, Some (mkTypeError ("number " ++ literal n)%string "int")) in
      match n with
      | Int z => if ((minInt64 <=? z) && (z <=? maxInt64))%Z then (z, None) else refused
      | NonInt _ => refused
      end
  | _ => typeError j "int" t
  end.

Definition decBool : Dec bool := fun j t =>
  match j with
  | JNull => (t, None)
  | JBool b => (b, None)
  | _ => typeError j "bool" t
  end.

(** An [interface{}] takes any value; null makes it nil. *)
Definition decAny : Dec JValue := fun j _ => (j, None).

(** A map with string keys: null makes the map nil, an object stores every
    member (each element starts from the zero value and is stored even when
    it met a type error), anything else is a type error. A nil map and an
    empty one read alike and are both [∅]. *)
Definition decMap {E} (ty : string) (zero : E) (d : Dec E) : Dec (gmap string E) := fun j t =>
  match j with
  | JNull => (∅, None)
  | JObject kvs =>
      fold_left (fun (acc : gmap string E * option UnmarshalTypeError) (kv : string * JValue) =>
                   let '(e, err) := d (snd kv) zero in
                   (<[fst kv := e]> (fst acc), saveError (snd acc) err))
                kvs (t, None)
  | _ => typeError j ty t
  end.

(** One member of an object, into the field it selects; a member that
    selects no field is skipped. *)
Definition step {T} (fs : list (string * Dec T)) (acc : T * option UnmarshalTypeError)
    (kv : string * JValue) : T * option UnmarshalTypeError :=
  match findField fs (fst kv) with
  | Some d => let '(t', err) := d (snd kv) (fst acc) in (t', saveError (snd acc) err)
  | None => acc
  end.

(** The members of an object, in order. *)
Definition decodeObject {T} (fs : list (string * Dec T)) (kvs : list (string * JValue)) (t : T)
  : T * option UnmarshalTypeError :=
  fold_left (step fs) kvs (t, None).

(** A struct: null leaves it alone, an object fills its fields, anything
    else is a type error. *)
Definition decStruct {T} (ty : string) (fs : list (string * Dec T)) : Dec T := fun j t =>
  match j with
  | JNull => (t, None)
  | JObject kvs => decodeObject fs kvs t
  | _ => typeError j ty t
  end.

(** The name of an anonymous struct type lists its fields with their tags,
    each tag quoted as [strconv.Quote] writes it. *)
Definition dquote : string := String (byte 34) EmptyString.

Definition tagged (decl tag : string) : string :=
  (decl ++ " " ++ dquote ++ "json:\" ++ dquote ++ tag ++ "\" ++ dquote ++ dquote)%string.

Definition structType (fields : list string) : string :=
  ("struct { " ++ String.concat "; " fields ++ " }")%string.

(** A field of a struct: its JSON name and its decoder, lifted to the struct. *)
Definition lift {T A} (get : T -> A) (set : A -> T -> T) (d : Dec A) : Dec T := fun j t =>
  let '(a, err) := d j (get t) in (set a t, err).

Definition field {T A} (name : string) (get : T -> A) (set : A -> T -> T) (d : Dec A)
  : string * Dec T := (name, lift get set d).

(** A field of a struct that is decoded next to a store [S]. *)
Definition objField {S T A} (name : string) (get : T -> A) (set : A -> T -> T) (d : Dec A)
  : string * Dec (S * T) :=
  field name (fun st => get (snd st)) (fun a st => (fst st, set a (snd st))) d.

(** The fields of an embedded struct are promoted to the struct around it. *)
Definition embed {T A} (get : T -> A) (set : A -> T -> T) (fs : list (string * Dec A))
  : list (string * Dec T) :=
  List.map (fun f => (fst f, lift get set (snd f))) fs.

(** *** Strings on the wire *)

Definition inRange (lo hi : N) (c : ascii) : bool :=
  ((lo <=? N_of_ascii c) && (N_of_ascii c <=? hi))%N.

Definition cont (c : ascii) : bool := inRange 128 191 c.

(** The well-formed UTF-8 sequences of two, three and four bytes. *)
Definition two (b0 b1 : ascii) : bool := inRange 194 223 b0 && cont b1.

Definition three (b0 b1 b2 : ascii) : bool :=
  ((inRange 224 224 b0 && inRange 160 191 b1)
   || ((inRange 225 236 b0 || inRange 238 239 b0) && cont b1)
   || (inRange 237 237 b0 && inRange 128 159 b1))
  && cont b2.

Definition four (b0 b1 b2 b3 : ascii) : bool :=
  ((inRange 240 240 b0 && inRange 144 191 b1)
   || (inRange 241 243 b0 && cont b1)
   || (inRange 244 244 b0 && inRange 128 143 b1))
  && cont b2 && cont b3.

(** U+FFFD, the replacement rune, in UTF-8. *)
Definition runeError (rest : string) : string :=
  String (byte 239) (String (byte 191) (String (byte 189) rest)).

(** What a Go string reads as after [json.Marshal] and a decode: Marshal
    coerces the string to valid UTF-8, writing the replacement rune for
    every byte that does not start a well-formed sequence. *)
Fixpoint toValidUTF8 (s : string) : string :=
  match s with
  | EmptyString => EmptyString
  | String b0 r0 =>
      if inRange 0 127 b0 then String b0 (toValidUTF8 r0)
      else
        match r0 with
        | String b1 r1 =>
            if two b0 b1 then String b0 (String b1 (toValidUTF8 r1))
            else
              match r1 with
              | String b2 r2 =>
                  if three b0 b1 b2 then String b0 (String b1 (String b2 (toValidUTF8 r2)))
                  else
                    match r2 with
                    | String b3 r3 =>
                        if four b0 b1 b2 b3
                        then String b0 (String b1 (String b2 (String b3 (toValidUTF8 r3))))
                        else runeError (toValidUTF8 r0)
                    | EmptyString => runeError (toValidUTF8 r0)
                    end
              | EmptyString => runeError (toValidUTF8 r0)
              end
        | EmptyString => runeError (toValidUTF8 r0)
        end
  end.

(** [utf8.ValidString]. *)
Fixpoint validString (s : string) : bool :=
  match s with
  | EmptyString => true
  | String b0 r0 =>
      if inRange 0 127 b0 then validString r0
      else
        match r0 with
        | String b1 r1 =>
            if two b0 b1 then validString r1
            else
              match r1 with
              | String b2 r2 =>
                  if three b0 b1 b2 then validString r2
                  else
                    match r2 with
                    | String b3 r3 => four b0 b1 b2 b3 && validString r3
                    | EmptyString => false
                    end
              | EmptyString => false
              end
        | EmptyString => false
        end
  end.

(** A string field as [json.Marshal] writes it. *)
Definition marshalString (s : string) : JValue := JString (toValidUTF8 s).

(** A string field tagged [omitempty]: left out when the string is empty. *)
Definition omitempty (name s : string) : list (string * JValue) :=
  match s with
  | EmptyString => []
  | _ => [(name, marshalString s)]
  end.

(** *** Shapes *)

(** What a Go type accepts on the wire. A pointer accepts what its target
    accepts (null fits every type). *)
Inductive Shape :=
| SString
| SInt
| SBool
| SAny
| SMap (elem : Shape)
| SStruct (fields : list (string * Shape)).

Fixpoint fits (sh : Shape) (j : JValue) {struct j} : bool :=
  match j with
  | JNull => true
  | JBool _ => match sh with SBool | SAny => true | _ => false end
  | JNumber n =>
      match sh with
      | SInt => match n with
                | Int z => ((minInt64 <=? z) && (z <=? maxInt64))%Z
                | NonInt _ => false
                end
      | SAny => true
      | _ => false
      end
  | JString _ => match sh with SString | SAny => true | _ => false end
  | JArray _ => match sh with SAny => true | _ => false end
  | JObject kvs =>
      match sh with
      | SAny => true
      | SMap e => forallb (fun kv => fits e (snd kv)) kvs
      | SStruct fs =>
          forallb (fun kv => match findField fs (fst kv) with
                             | Some s => fits s (snd kv)
                             | None => true
                             end) kvs
      | _ => false
      end
  end.

(** A decoder reports a type error exactly on the values that do not fit
    the shape. *)
Definition DecFits {T} (d : Dec T) (sh : Shape) : Prop :=
  forall j t, snd (d j t) = None <-> fits sh j = true.

(** Two tables agree on an entry: the same name, and related contents. *)
Definition sameField {A B} (R : A -> B -> Prop) (f : string * A) (s : string * B) : Prop :=
  fst f = fst s /\ R (snd f) (snd s).


(** Whether a member selects a field of a table. *)
Definition selectsField {A} (fs : list (string * A)) (kv : string * JValue) : bool :=
  match findField fs (fst kv) with
  | Some _ => true
  | None => false
  end.

End Json.

(* ===================================================================== *)
(** ** request.go *)
(* ===================================================================== *)

Module Request.
Import Json.

(** *** The envelope *)

Record Application := { Application_ApplicationID : string }.

Record User := { User_UserID : string; User_AccessToken : string }.

Record Session := {
  Session_New : bool;
  Session_SessionID : string;
  Session_Attributes : gmap string JValue;
  Session_Application : Application;
  Session_User : User }.

Record Device := {
  Device_DeviceID : string;
  Device_SupportedInterfaces : gmap string JValue }.

Record System := {
  System_APIAccessToken : string;
  System_APIEndpoint : string;
  System_Application : Application;
  System_Device : Device;
  System_User : User }.

Record AudioPlayer := {
  AudioPlayer_Token : string;
  AudioPlayer_OffsetInMilliseconds : Z;
  AudioPlayer_PlayerActivity : string }.

Record Context := {
  Context_System : System;
  Context_AudioPlayer : AudioPlayer }.

(** [Request] is the [interface{}] that decoding the posted JSON filled. *)
Record RequestEnvelope := {
  Envelope_Version : string;
  Envelope_Session : Session;
  Envelope_Request : JValue;
  Envelope_Context : Context }.

Definition Envelope_setSession (s : Session) (e : RequestEnvelope) : RequestEnvelope :=
  {| Envelope_Version := Envelope_Version e; Envelope_Session := s;
     Envelope_Request := Envelope_Request e; Envelope_Context := Envelope_Context e |}.

Definition Envelope_setContext (c : Context) (e : RequestEnvelope) : RequestEnvelope :=
  {| Envelope_Version := Envelope_Version e; Envelope_Session := Envelope_Session e;
     Envelope_Request := Envelope_Request e; Envelope_Context := c |}.

(** A [*Session] or [*Context] held by a request: nil, the address of the
    envelope's own field ([&requestEnvelope.Session], [&requestEnvelope.Context]),
    or the address of an object of its own that nothing else here refers to. *)
Inductive Ref (T : Type) :=
| Nil
| Env
| Own (v : T).
Arguments Nil {T}.
Arguments Env {T}.
Arguments Own {T} v.

(** *** The request variants *)

Record CommonRequest := {
  CommonRequest_Type : string;
  CommonRequest_RequestID : string;
  CommonRequest_Timestamp : string;
  CommonRequest_Locale : string;
  CommonRequest_Session : Ref Session;
  CommonRequest_Context : Ref Context }.

Record LaunchRequest := { LaunchRequest_CommonRequest : CommonRequest }.

Record IntentSlot := {
  IntentSlot_Name : string;
  IntentSlot_Value : string;
  IntentSlot_ConfirmationStatus : string;
  IntentSlot_Resolutions : JValue }.

Record Intent := {
  Intent_Name : string;
  Intent_Slots : gmap string IntentSlot;
  Intent_ConfirmationStatus : string }.

Record IntentRequest := {
  IntentRequest_CommonRequest : CommonRequest;
  IntentRequest_Intent : Intent;
  IntentRequest_DialogState : string }.

(** The anonymous [struct { Type string; Message string }] of the three
    [Error] fields. *)
Record ErrorStruct := { Error_Type : string; Error_Message : string }.

Record SessionEndedRequest := {
  SessionEndedRequest_CommonRequest : CommonRequest;
  SessionEndedRequest_Reason : string;
  SessionEndedRequest_Error : ErrorStruct }.

Record CauseStruct := { Cause_RequestID : string }.

Record SystemExceptionEncounteredRequest := {
  SystemExceptionEncounteredRequest_CommonRequest : CommonRequest;
  SystemExceptionEncounteredRequest_Error : ErrorStruct;
  SystemExceptionEncounteredRequest_Cause : CauseStruct }.

(** audioplayer.go *)
Record AudioPlayerRequest := {
  AudioPlayerRequest_CommonRequest : CommonRequest;
  AudioPlayerRequest_Token : string;
  AudioPlayerRequest_OffsetInMilliseconds : Z }.

Record CurrentPlaybackStateStruct := {
  CurrentPlaybackState_Token : string;
  CurrentPlaybackState_OffsetInMilliseconds : Z;
  CurrentPlaybackState_PlayerActivity : string }.

Record AudioPlayerPlaybackFailedRequest := {
  AudioPlayerPlaybackFailedRequest_AudioPlayerRequest : AudioPlayerRequest;
  AudioPlayerPlaybackFailedRequest_Error : ErrorStruct;
  AudioPlayerPlaybackFailedRequest_CurrentPlaybackState : CurrentPlaybackStateStruct }.

(** *** Zero values *)

Definition zeroApplication : Application := {| Application_ApplicationID := "" |}.
Definition zeroUser : User := {| User_UserID := ""; User_AccessToken := "" |}.
Definition zeroSession : Session :=
  {| Session_New := false; Session_SessionID := ""; Session_Attributes := ∅;
     Session_Application := zeroApplication; Session_User := zeroUser |}.
Definition zeroDevice : Device := {| Device_DeviceID := ""; Device_SupportedInterfaces := ∅ |}.
Definition zeroSystem : System :=
  {| System_APIAccessToken := ""; System_APIEndpoint := ""; System_Application := zeroApplication;
     System_Device := zeroDevice; System_User := zeroUser |}.
Definition zeroAudioPlayer : AudioPlayer :=
  {| AudioPlayer_Token := ""; AudioPlayer_OffsetInMilliseconds := 0; AudioPlayer_PlayerActivity := "" |}.
Definition zeroContext : Context :=
  {| Context_System := zeroSystem; Context_AudioPlayer := zeroAudioPlayer |}.
Definition zeroIntentSlot : IntentSlot :=
  {| IntentSlot_Name := ""; IntentSlot_Value := ""; IntentSlot_ConfirmationStatus := "";
     IntentSlot_Resolutions := JNull |}.
Definition zeroCommonRequest : CommonRequest :=
  {| CommonRequest_Type := ""; CommonRequest_RequestID := ""; CommonRequest_Timestamp := "";
     CommonRequest_Locale := ""; CommonRequest_Session := Nil; CommonRequest_Context := Nil |}.
Definition zeroLaunchRequest : LaunchRequest :=
  {| LaunchRequest_CommonRequest := zeroCommonRequest |}.

(** *** Field tables: the JSON name of every field, from the struct tags
    (an untagged exported field goes by its Go name) *)

Definition Application_fields : list (string * Dec Application) :=
  [ field "applicationId" Application_ApplicationID
      (fun v _ => {| Application_ApplicationID := v |}) decString ].
Definition decApplication : Dec Application := decStruct "alexa.Application" Application_fields.

Definition User_fields : list (string * Dec User) :=
  [ field "userId" User_UserID
      (fun v u => {| User_UserID := v; User_AccessToken := User_AccessToken u |}) decString;
    field "accessToken" User_AccessToken
      (fun v u => {| User_UserID := User_UserID u; User_AccessToken := v |}) decString ].
Definition decUser : Dec User := decStruct "alexa.User" User_fields.

Definition Session_fields : list (string * Dec Session) :=
  [ field "new" Session_New
      (fun v s => {| Session_New := v; Session_SessionID := Session_SessionID s;
                     Session_Attributes := Session_Attributes s;
                     Session_Application := Session_Application s; Session_User := Session_User s |})
      decBool;
    field "sessionId" Session_SessionID
      (fun v s => {| Session_New := Session_New s; Session_SessionID := v;
                     Session_Attributes := Session_Attributes s;
                     Session_Application := Session_Application s; Session_User := Session_User s |})
      decString;
    field "attributes" Session_Attributes
      (fun v s => {| Session_New := Session_New s; Session_SessionID := Session_SessionID s;
                     Session_Attributes := v;
                     Session_Application := Session_Application s; Session_User := Session_User s |})
      (decMap "map[string]interface {}" JNull decAny);
    field "application" Session_Application
      (fun v s => {| Session_New := Session_New s; Session_SessionID := Session_SessionID s;
                     Session_Attributes := Session_Attributes s;
                     Session_Application := v; Session_User := Session_User s |})
      decApplication;
    field "user" Session_User
      (fun v s => {| Session_New := Session_New s; Session_SessionID := Session_SessionID s;
                     Session_Attributes := Session_Attributes s;
                     Session_Application := Session_Application s; Session_User := v |})
      decUser ].
Definition decSession : Dec Session := decStruct "alexa.Session" Session_fields.

Definition Device_fields : list (string * Dec Device) :=
  [ field "deviceId" Device_DeviceID
      (fun v d => {| Device_DeviceID := v;
                     Device_SupportedInterfaces := Device_SupportedInterfaces d |}) decString;
    field "supportedInterfaces" Device_SupportedInterfaces
      (fun v d => {| Device_DeviceID := Device_DeviceID d; Device_SupportedInterfaces := v |})
      (decMap "map[string]interface {}" JNull decAny) ].
Definition decDevice : Dec Device := decStruct "alexa.Device" Device_fields.

Definition System_fields : list (string * Dec System) :=
  [ field "apiAccessToken" System_APIAccessToken
      (fun v s => {| System_APIAccessToken := v; System_APIEndpoint := System_APIEndpoint s;
                     System_Application := System_Application s; System_Device := System_Device s;
                     System_User := System_User s |}) decString;
    field "apiEndpoint" System_APIEndpoint
      (fun v s => {| System_APIAccessToken := System_APIAccessToken s; System_APIEndpoint := v;
                     System_Application := System_Application s; System_Device := System_Device s;
                     System_User := System_User s |}) decString;
    field "application" System_Application
      (fun v s => {| System_APIAccessToken := System_APIAccessToken s;
                     System_APIEndpoint := System_APIEndpoint s;
                     System_Application := v; System_Device := System_Device s;
                     System_User := System_User s |}) decApplication;
    field "device" System_Device
      (fun v s => {| System_APIAccessToken := System_APIAccessToken s;
                     System_APIEndpoint := System_APIEndpoint s;
                     System_Application := System_Application s; System_Device := v;
                     System_User := System_User s |}) decDevice;
    field "user" System_User
      (fun v s => {| System_APIAccessToken := System_APIAccessToken s;
                     System_APIEndpoint := System_APIEndpoint s;
                     System_Application := System_Application s; System_Device := System_Device s;
                     System_User := v |}) decUser ].
Definition decSystem : Dec System := decStruct "alexa.System" System_fields.

Definition AudioPlayer_fields : list (string * Dec AudioPlayer) :=
  [ field "token" AudioPlayer_Token
      (fun v a => {| AudioPlayer_Token := v;
                     AudioPlayer_OffsetInMilliseconds := AudioPlayer_OffsetInMilliseconds a;
                     AudioPlayer_PlayerActivity := AudioPlayer_PlayerActivity a |}) decString;
    field "offsetInMilliseconds" AudioPlayer_OffsetInMilliseconds
      (fun v a => {| AudioPlayer_Token := AudioPlayer_Token a;
                     AudioPlayer_OffsetInMilliseconds := v;
                     AudioPlayer_PlayerActivity := AudioPlayer_PlayerActivity a |}) decInt;
    field "playerActivity" AudioPlayer_PlayerActivity
      (fun v a => {| AudioPlayer_Token := AudioPlayer_Token a;
                     AudioPlayer_OffsetInMilliseconds := AudioPlayer_OffsetInMilliseconds a;
                     AudioPlayer_PlayerActivity := v |}) decString ].
Definition decAudioPlayer : Dec AudioPlayer := decStruct "alexa.AudioPlayer" AudioPlayer_fields.

Definition Context_fields : list (string * Dec Context) :=
  [ field "System" Context_System
      (fun v c => {| Context_System := v; Context_AudioPlayer := Context_AudioPlayer c |}) decSystem;
    field "audioPlayer" Context_AudioPlayer
      (fun v c => {| Context_System := Context_System c; Context_AudioPlayer := v |})
      decAudioPlayer ].
Definition decContext : Dec Context := decStruct "alexa.Context" Context_fields.

(** A pointer field, decoded next to the envelope it may point into: null
    makes the pointer nil; any other value is decoded into the object the
    pointer refers to, a new zero object when the pointer is nil. Through
    [Env] that object is the envelope's own field. *)
Definition decRef {T} (zero : T) (get : RequestEnvelope -> T)
    (set : T -> RequestEnvelope -> RequestEnvelope) (d : Dec T)
  : Dec (RequestEnvelope * Ref T) := fun j st =>
  match j with
  | JNull => ((fst st, Nil), None)
  | _ =>
      match snd st with
      | Nil => let '(v, err) := d j zero in ((fst st, Own v), err)
      | Own v0 => let '(v, err) := d j v0 in ((fst st, Own v), err)
      | Env => let '(v, err) := d j (get (fst st)) in ((set v (fst st), Env), err)
      end
  end.

(** [func (cr *CommonRequest) setContext(ctx *Context)] and [setSession]. *)
Definition setContext (cr : CommonRequest) (ctx : Ref Context) : CommonRequest :=
  {| CommonRequest_Type := CommonRequest_Type cr; CommonRequest_RequestID := CommonRequest_RequestID cr;
     CommonRequest_Timestamp := CommonRequest_Timestamp cr; CommonRequest_Locale := CommonRequest_Locale cr;
     CommonRequest_Session := CommonRequest_Session cr; CommonRequest_Context := ctx |}.

Definition setSession (cr : CommonRequest) (session : Ref Session) : CommonRequest :=
  {| CommonRequest_Type := CommonRequest_Type cr; CommonRequest_RequestID := CommonRequest_RequestID cr;
     CommonRequest_Timestamp := CommonRequest_Timestamp cr; CommonRequest_Locale := CommonRequest_Locale cr;
     CommonRequest_Session := session; CommonRequest_Context := CommonRequest_Context cr |}.

(** [Session] and [Context] carry no tag, so a member named Session or
    Context on the wire is decoded into them like any other field. *)
Definition CommonRequest_fields : list (string * Dec (RequestEnvelope * CommonRequest)) :=
  [ objField "type" CommonRequest_Type
      (fun v cr => {| CommonRequest_Type := v; CommonRequest_RequestID := CommonRequest_RequestID cr;
                      CommonRequest_Timestamp := CommonRequest_Timestamp cr;
                      CommonRequest_Locale := CommonRequest_Locale cr;
                      CommonRequest_Session := CommonRequest_Session cr;
                      CommonRequest_Context := CommonRequest_Context cr |}) decString;
    objField "requestId" CommonRequest_RequestID
      (fun v cr => {| CommonRequest_Type := CommonRequest_Type cr; CommonRequest_RequestID := v;
                      CommonRequest_Timestamp := CommonRequest_Timestamp cr;
                      CommonRequest_Locale := CommonRequest_Locale cr;
                      CommonRequest_Session := CommonRequest_Session cr;
                      CommonRequest_Context := CommonRequest_Context cr |}) decString;
    objField "timestamp" CommonRequest_Timestamp
      (fun v cr => {| CommonRequest_Type := CommonRequest_Type cr;
                      CommonRequest_RequestID := CommonRequest_RequestID cr;
                      CommonRequest_Timestamp := v;
                      CommonRequest_Locale := CommonRequest_Locale cr;
                      CommonRequest_Session := CommonRequest_Session cr;
                      CommonRequest_Context := CommonRequest_Context cr |}) decString;
    objField "locale" CommonRequest_Locale
      (fun v cr => {| CommonRequest_Type := CommonRequest_Type cr;
                      CommonRequest_RequestID := CommonRequest_RequestID cr;
                      CommonRequest_Timestamp := CommonRequest_Timestamp cr;
                      CommonRequest_Locale := v;
                      CommonRequest_Session := CommonRequest_Session cr;
                      CommonRequest_Context := CommonRequest_Context cr |}) decString;
    field "Session"
      (fun st => (fst st, CommonRequest_Session (snd st)))
      (fun v st => (fst v, setSession (snd st) (snd v)))
      (decRef zeroSession Envelope_Session Envelope_setSession decSession);
    field "Context"
      (fun st => (fst st, CommonRequest_Context (snd st)))
      (fun v st => (fst v, setContext (snd st) (snd v)))
      (decRef zeroContext Envelope_Context Envelope_setContext decContext) ].

Definition IntentSlot_fields : list (string * Dec IntentSlot) :=
  [ field "name" IntentSlot_Name
      (fun v s => {| IntentSlot_Name := v; IntentSlot_Value := IntentSlot_Value s;
                     IntentSlot_ConfirmationStatus := IntentSlot_ConfirmationStatus s;
                     IntentSlot_Resolutions := IntentSlot_Resolutions s |}) decString;
    field "value" IntentSlot_Value
      (fun v s => {| IntentSlot_Name := IntentSlot_Name s; IntentSlot_Value := v;
                     IntentSlot_ConfirmationStatus := IntentSlot_ConfirmationStatus s;
                     IntentSlot_Resolutions := IntentSlot_Resolutions s |}) decString;
    field "confirmationStatus" IntentSlot_ConfirmationStatus
      (fun v s => {| IntentSlot_Name := IntentSlot_Name s; IntentSlot_Value := IntentSlot_Value s;
                     IntentSlot_ConfirmationStatus := v;
                     IntentSlot_Resolutions := IntentSlot_Resolutions s |}) decString;
    field "resolutions" IntentSlot_Resolutions
      (fun v s => {| IntentSlot_Name := IntentSlot_Name s; IntentSlot_Value := IntentSlot_Value s;
                     IntentSlot_ConfirmationStatus := IntentSlot_ConfirmationStatus s;
                     IntentSlot_Resolutions := v |}) decAny ].
Definition decIntentSlot : Dec IntentSlot := decStruct "alexa.IntentSlot" IntentSlot_fields.

Definition Intent_fields : list (string * Dec Intent) :=
  [ field "name" Intent_Name
      (fun v i => {| Intent_Name := v; Intent_Slots := Intent_Slots i;
                     Intent_ConfirmationStatus := Intent_ConfirmationStatus i |}) decString;
    field "slots" Intent_Slots
      (fun v i => {| Intent_Name := Intent_Name i; Intent_Slots := v;
                     Intent_ConfirmationStatus := Intent_ConfirmationStatus i |})
      (decMap "map[string]alexa.IntentSlot" zeroIntentSlot decIntentSlot);
    field "confirmationStatus" Intent_ConfirmationStatus
      (fun v i => {| Intent_Name := Intent_Name i; Intent_Slots := Intent_Slots i;
                     Intent_ConfirmationStatus := v |}) decString ].
Definition decIntent : Dec Intent := decStruct "alexa.Intent" Intent_fields.

Definition ErrorStruct_fields : list (string * Dec ErrorStruct) :=
  [ field "type" Error_Type
      (fun v e => {| Error_Type := v; Error_Message := Error_Message e |}) decString;
    field "message" Error_Message
      (fun v e => {| Error_Type := Error_Type e; Error_Message := v |}) decString ].
Definition ErrorStruct_type : string :=
  structType [tagged "Type string" "type"; tagged "Message string" "message"].
Definition decErrorStruct : Dec ErrorStruct := decStruct ErrorStruct_type ErrorStruct_fields.

Definition CauseStruct_fields : list (string * Dec CauseStruct) :=
  [ field "requestId" Cause_RequestID (fun v _ => {| Cause_RequestID := v |}) decString ].
Definition CauseStruct_type : string := structType [tagged "RequestID string" "requestId"].
Definition decCauseStruct : Dec CauseStruct := decStruct CauseStruct_type CauseStruct_fields.

Definition CurrentPlaybackState_fields : list (string * Dec CurrentPlaybackStateStruct) :=
  [ field "token" CurrentPlaybackState_Token
      (fun v a => {| CurrentPlaybackState_Token := v;
                     CurrentPlaybackState_OffsetInMilliseconds := CurrentPlaybackState_OffsetInMilliseconds a;
                     CurrentPlaybackState_PlayerActivity := CurrentPlaybackState_PlayerActivity a |})
      decString;
    field "offsetInMilliseconds" CurrentPlaybackState_OffsetInMilliseconds
      (fun v a => {| CurrentPlaybackState_Token := CurrentPlaybackState_Token a;
                     CurrentPlaybackState_OffsetInMilliseconds := v;
                     CurrentPlaybackState_PlayerActivity := CurrentPlaybackState_PlayerActivity a |})
      decInt;
    field "playerActivity" CurrentPlaybackState_PlayerActivity
      (fun v a => {| CurrentPlaybackState_Token := CurrentPlaybackState_Token a;
                     CurrentPlaybackState_OffsetInMilliseconds := CurrentPlaybackState_OffsetInMilliseconds a;
                     CurrentPlaybackState_PlayerActivity := v |})
      decString ].
Definition CurrentPlaybackState_type : string :=
  structType [tagged "Token string" "token";
              tagged "OffsetInMilliseconds int" "offsetInMilliseconds";
              tagged "PlayerActivity string" "playerActivity"].
Definition decCurrentPlaybackState : Dec CurrentPlaybackStateStruct :=
  decStruct CurrentPlaybackState_type CurrentPlaybackState_fields.

(** *** The variants as structs that embed [CommonRequest] *)

(** A request struct: its Go type name, the [CommonRequest] it embeds
    (directly or through [AudioPlayerRequest]) and the fields it declares
    besides, with their wire shapes. *)
Class Variant (T : Type) := {
  typeName : string;
  getCommon : T -> CommonRequest;
  withCommon : CommonRequest -> T -> T;
  ownFields : list (string * Dec T);
  ownShape : list (string * Shape) }.

#[export] Instance CommonRequest_Variant : Variant CommonRequest := {|
  typeName := "alexa.CommonRequest";
  getCommon := fun cr => cr;
  withCommon := fun cr _ => cr;
  ownFields := [];
  ownShape := [] |}.

#[export] Instance LaunchRequest_Variant : Variant LaunchRequest := {|
  typeName := "alexa.LaunchRequest";
  getCommon := LaunchRequest_CommonRequest;
  withCommon := fun cr _ => {| LaunchRequest_CommonRequest := cr |};
  ownFields := [];
  ownShape := [] |}.

Definition ErrorStruct_shape : Shape := SStruct [("type", SString); ("message", SString)].
Definition IntentSlot_shape : Shape :=
  SStruct [("name", SString); ("value", SString); ("confirmationStatus", SString);
           ("resolutions", SAny)].
Definition Intent_shape : Shape :=
  SStruct [("name", SString); ("slots", SMap IntentSlot_shape); ("confirmationStatus", SString)].

#[export] Instance IntentRequest_Variant : Variant IntentRequest := {|
  typeName := "alexa.IntentRequest";
  getCommon := IntentRequest_CommonRequest;
  withCommon := fun cr r =>
    {| IntentRequest_CommonRequest := cr; IntentRequest_Intent := IntentRequest_Intent r;
       IntentRequest_DialogState := IntentRequest_DialogState r |};
  ownFields :=
    [ field "intent" IntentRequest_Intent
        (fun v r => {| IntentRequest_CommonRequest := IntentRequest_CommonRequest r;
                       IntentRequest_Intent := v;
                       IntentRequest_DialogState := IntentRequest_DialogState r |}) decIntent;
      field "dialogState" IntentRequest_DialogState
        (fun v r => {| IntentRequest_CommonRequest := IntentRequest_CommonRequest r;
                       IntentRequest_Intent := IntentRequest_Intent r;
                       IntentRequest_DialogState := v |}) decString ];
  ownShape := [("intent", Intent_shape); ("dialogState", SString)] |}.

#[export] Instance SessionEndedRequest_Variant : Variant SessionEndedRequest := {|
  typeName := "alexa.SessionEndedRequest";
  getCommon := SessionEndedRequest_CommonRequest;
  withCommon := fun cr r =>
    {| SessionEndedRequest_CommonRequest := cr;
       SessionEndedRequest_Reason := SessionEndedRequest_Reason r;
       SessionEndedRequest_Error := SessionEndedRequest_Error r |};
  ownFields :=
    [ field "reason" SessionEndedRequest_Reason
        (fun v r => {| SessionEndedRequest_CommonRequest := SessionEndedRequest_CommonRequest r;
                       SessionEndedRequest_Reason := v;
                       SessionEndedRequest_Error := SessionEndedRequest_Error r |}) decString;
      field "error" SessionEndedRequest_Error
        (fun v r => {| SessionEndedRequest_CommonRequest := SessionEndedRequest_CommonRequest r;
                       SessionEndedRequest_Reason := SessionEndedRequest_Reason r;
                       SessionEndedRequest_Error := v |}) decErrorStruct ];
  ownShape := [("reason", SString); ("error", ErrorStruct_shape)] |}.

#[export] Instance SystemExceptionEncounteredRequest_Variant
  : Variant SystemExceptionEncounteredRequest := {|
  typeName := "alexa.SystemExceptionEncounteredRequest";
  getCommon := SystemExceptionEncounteredRequest_CommonRequest;
  withCommon := fun cr r =>
    {| SystemExceptionEncounteredRequest_CommonRequest := cr;
       SystemExceptionEncounteredRequest_Error := SystemExceptionEncounteredRequest_Error r;
       SystemExceptionEncounteredRequest_Cause := SystemExceptionEncounteredRequest_Cause r |};
  ownFields :=
    [ field "error" SystemExceptionEncounteredRequest_Error
        (fun v r =>
           {| SystemExceptionEncounteredRequest_CommonRequest :=
                SystemExceptionEncounteredRequest_CommonRequest r;
              SystemExceptionEncounteredRequest_Error := v;
              SystemExceptionEncounteredRequest_Cause := SystemExceptionEncounteredRequest_Cause r |})
        decErrorStruct;
      field "cause" SystemExceptionEncounteredRequest_Cause
        (fun v r =>
           {| SystemExceptionEncounteredRequest_CommonRequest :=
                SystemExceptionEncounteredRequest_CommonRequest r;
              SystemExceptionEncounteredRequest_Error := SystemExceptionEncounteredRequest_Error r;
              SystemExceptionEncounteredRequest_Cause := v |})
        decCauseStruct ];
  ownShape := [("error", ErrorStruct_shape); ("cause", SStruct [("requestId", SString)])] |}.

Definition AudioPlayerRequest_withCommon (cr : CommonRequest) (r : AudioPlayerRequest)
  : AudioPlayerRequest :=
  {| AudioPlayerRequest_CommonRequest := cr; AudioPlayerRequest_Token := AudioPlayerRequest_Token r;
     AudioPlayerRequest_OffsetInMilliseconds := AudioPlayerRequest_OffsetInMilliseconds r |}.

Definition AudioPlayerRequest_fields : list (string * Dec AudioPlayerRequest) :=
  [ field "token" AudioPlayerRequest_Token
      (fun v r => {| AudioPlayerRequest_CommonRequest := AudioPlayerRequest_CommonRequest r;
                     AudioPlayerRequest_Token := v;
                     AudioPlayerRequest_OffsetInMilliseconds :=
                       AudioPlayerRequest_OffsetInMilliseconds r |}) decString;
    field "offsetInMilliseconds" AudioPlayerRequest_OffsetInMilliseconds
      (fun v r => {| AudioPlayerRequest_CommonRequest := AudioPlayerRequest_CommonRequest r;
                     AudioPlayerRequest_Token := AudioPlayerRequest_Token r;
                     AudioPlayerRequest_OffsetInMilliseconds := v |}) decInt ].

#[export] Instance AudioPlayerRequest_Variant : Variant AudioPlayerRequest := {|
  typeName := "alexa.AudioPlayerRequest";
  getCommon := AudioPlayerRequest_CommonRequest;
  withCommon := AudioPlayerRequest_withCommon;
  ownFields := AudioPlayerRequest_fields;
  ownShape := [("token", SString); ("offsetInMilliseconds", SInt)] |}.

Definition AudioPlayerPlaybackFailedRequest_withInner (a : AudioPlayerRequest)
    (r : AudioPlayerPlaybackFailedRequest) : AudioPlayerPlaybackFailedRequest :=
  {| AudioPlayerPlaybackFailedRequest_AudioPlayerRequest := a;
     AudioPlayerPlaybackFailedRequest_Error := AudioPlayerPlaybackFailedRequest_Error r;
     AudioPlayerPlaybackFailedRequest_CurrentPlaybackState :=
       AudioPlayerPlaybackFailedRequest_CurrentPlaybackState r |}.

#[export] Instance AudioPlayerPlaybackFailedRequest_Variant
  : Variant AudioPlayerPlaybackFailedRequest := {|
  typeName := "alexa.AudioPlayerPlaybackFailedRequest";
  getCommon := fun r =>
    AudioPlayerRequest_CommonRequest (AudioPlayerPlaybackFailedRequest_AudioPlayerRequest r);
  withCommon := fun cr r =>
    AudioPlayerPlaybackFailedRequest_withInner
      (AudioPlayerRequest_withCommon cr (AudioPlayerPlaybackFailedRequest_AudioPlayerRequest r)) r;
  ownFields :=
    embed AudioPlayerPlaybackFailedRequest_AudioPlayerRequest
          AudioPlayerPlaybackFailedRequest_withInner AudioPlayerRequest_fields
    ++ [ field "error" AudioPlayerPlaybackFailedRequest_Error
           (fun v r =>
              {| AudioPlayerPlaybackFailedRequest_AudioPlayerRequest :=
                   AudioPlayerPlaybackFailedRequest_AudioPlayerRequest r;
                 AudioPlayerPlaybackFailedRequest_Error := v;
                 AudioPlayerPlaybackFailedRequest_CurrentPlaybackState :=
                   AudioPlayerPlaybackFailedRequest_CurrentPlaybackState r |})
           decErrorStruct;
         field "currentPlaybackState" AudioPlayerPlaybackFailedRequest_CurrentPlaybackState
           (fun v r =>
              {| AudioPlayerPlaybackFailedRequest_AudioPlayerRequest :=
                   AudioPlayerPlaybackFailedRequest_AudioPlayerRequest r;
                 AudioPlayerPlaybackFailedRequest_Error := AudioPlayerPlaybackFailedRequest_Error r;
                 AudioPlayerPlaybackFailedRequest_CurrentPlaybackState := v |})
           decCurrentPlaybackState ];
  ownShape :=
    [("token", SString); ("offsetInMilliseconds", SInt); ("error", ErrorStruct_shape);
     ("currentPlaybackState",
      SStruct [("token", SString); ("offsetInMilliseconds", SInt); ("playerActivity", SString)])] |}.

(** The wire shapes of the envelope's structs, read off their declarations. *)
Definition Application_shape : Shape := SStruct [("applicationId", SString)].
Definition User_shape : Shape := SStruct [("userId", SString); ("accessToken", SString)].
Definition Session_shape : Shape :=
  SStruct [("new", SBool); ("sessionId", SString); ("attributes", SMap SAny);
           ("application", Application_shape); ("user", User_shape)].
Definition Device_shape : Shape :=
  SStruct [("deviceId", SString); ("supportedInterfaces", SMap SAny)].
Definition System_shape : Shape :=
  SStruct [("apiAccessToken", SString); ("apiEndpoint", SString);
           ("application", Application_shape); ("device", Device_shape); ("user", User_shape)].
Definition AudioPlayer_shape : Shape :=
  SStruct [("token", SString); ("offsetInMilliseconds", SInt); ("playerActivity", SString)].
Definition Context_shape : Shape :=
  SStruct [("System", System_shape); ("audioPlayer", AudioPlayer_shape)].

Definition CommonRequest_shape : list (string * Shape) :=
  [("type", SString); ("requestId", SString); ("timestamp", SString); ("locale", SString);
   ("Session", Session_shape); ("Context", Context_shape)].

(** All the fields [json.Unmarshal] sees in a variant: the promoted fields
    of [CommonRequest] and the variant's own. *)
Definition variantFields {T} `{Variant T} : list (string * Dec (RequestEnvelope * T)) :=
  embed (fun st => (fst st, getCommon (snd st)))
        (fun v st => (fst v, withCommon (snd v) (snd st)))
        CommonRequest_fields
  ++ embed snd (fun t st => (fst st, t)) ownFields.

Definition variantShape (T : Type) `{Variant T} : Shape :=
  SStruct (CommonRequest_shape ++ ownShape).

(** *** getTypedRequest *)

(** [requestEnvelopeDataProvider]: every pointer to a struct that embeds
    [CommonRequest] has the two promoted methods. *)
Class requestEnvelopeDataProvider (T : Type) := {
  provider_setContext : T -> Ref Context -> T;
  provider_setSession : T -> Ref Session -> T }.

#[export] Instance Variant_provider {T} `{Variant T} : requestEnvelopeDataProvider T := {|
  provider_setContext := fun t ctx => withCommon (setContext (getCommon t) ctx) t;
  provider_setSession := fun t session => withCommon (setSession (getCommon t) session) t |}.

(** [json.Marshal] of the request payload: the payload came out of a JSON
    decode, and is written back as the same document. *)
Definition Marshal (v : JValue) : JValue := v.

(** [json.Unmarshal(data, &requestObj)]: [requestObj] holds a pointer to a
    variant, and the document is decoded into the struct it points to. *)
Definition Unmarshal {T} `{Variant T} (data : JValue) (requestEnvelope : RequestEnvelope)
    (requestObj : T) : RequestEnvelope * T * option UnmarshalTypeError :=
  let '(st, err) := decStruct typeName variantFields data (requestEnvelope, requestObj) in
  (fst st, snd st, err).

(** The envelope and the target afterwards, and the error returned. Both
    pointers are set before the payload is decoded. [requestObj] is a
    pointer to a struct that embeds [CommonRequest], so the two type
    assertions to [requestEnvelopeDataProvider] hold; the error of
    [json.Marshal] is dropped by the source and does not arise for a
    payload that came out of a JSON decode. *)
Definition getTypedRequest {T} `{Variant T} (requestEnvelope : RequestEnvelope) (requestObj : T)
  : RequestEnvelope * T * option UnmarshalTypeError :=
  let data := Marshal (Envelope_Request requestEnvelope) in
  let requestObj := provider_setContext requestObj Env in
  let requestObj := provider_setSession requestObj Env in
  Unmarshal data requestEnvelope requestObj.

(** What a request's pointer refers to once the call is over. *)
Definition derefSession (requestEnvelope : RequestEnvelope) (p : Ref Session) : option Session :=
  match p with
  | Nil => None
  | Env => Some (Envelope_Session requestEnvelope)
  | Own v => Some v
  end.

Definition derefContext (requestEnvelope : RequestEnvelope) (p : Ref Context) : option Context :=
  match p with
  | Nil => None
  | Env => Some (Envelope_Context requestEnvelope)
  | Own v => Some v
  end.

(** A member name that selects one of the two untagged pointer fields. *)
Definition selectsInjected (key : string) : bool :=
  String.eqb (foldName key) "SESSION" || String.eqb (foldName key) "CONTEXT".

(** The payload carries wire fields only: no member selects [Session] or
    [Context], which the data model does not put on the wire. *)
Definition wireOnly (payload : JValue) : bool :=
  match payload with
  | JObject kvs => forallb (fun kv => negb (selectsInjected (fst kv))) kvs
  | _ => true
  end.

(** What the instances of [Variant] have in common: the own fields are
    decoded as their shapes say, and neither they nor [withCommon] change
    anything else of the embedded [CommonRequest]. *)
Class VariantLaws (T : Type) `{Variant T} : Prop := {
  own_fits : Forall2 (sameField DecFits) ownFields ownShape;
  get_with : forall cr t, getCommon (withCommon cr t) = cr;
  own_keeps : Forall (fun f : string * Dec T =>
                        forall j t, getCommon (fst (snd f j t)) = getCommon t) ownFields }.

(** The envelope and the two pointers of the object that is being decoded. *)
Definition view {T} `{Variant T} (st : RequestEnvelope * T)
  : RequestEnvelope * Ref Session * Ref Context :=
  (fst st, CommonRequest_Session (getCommon (snd st)), CommonRequest_Context (getCommon (snd st))).

(** An envelope around a payload, with an empty session and context. *)
Definition sampleEnvelope (request : JValue) : RequestEnvelope :=
  {| Envelope_Version := "1.0"; Envelope_Session := zeroSession;
     Envelope_Request := request; Envelope_Context := zeroContext |}.

(** *** time.Parse with the layout "2006-01-02T15:04:05Z" *)

(** A [time.Time] without a monotonic reading, as nanoseconds since
    January 1, year 1, 00:00:00 UTC; the zero [Time{}] is 0.
    A [time.Duration] is a count of nanoseconds held in an int64. *)
Definition Time : Type := Z.
Definition Duration : Type := Z.

Definition Second : Duration := 1000000000%Z.

Definition isDigit (c : ascii) : bool :=
  ((48 <=? N_of_ascii c) && (N_of_ascii c <=? 57))%N.

Definition digit (c : ascii) : Z := Z.of_N (N_of_ascii c) - 48.

(** [getnum]: one or two digits; exactly two when [fixed]. *)
Definition getnum (s : string) (fixed : bool) : option (Z * string) :=
  match s with
  | String c0 rest =>
      if isDigit c0 then
        match rest with
        | String c1 rest1 =>
            if isDigit c1 then Some (digit c0 * 10 + digit c1, rest1)%Z
            else if fixed then None else Some (digit c0, rest)
        | EmptyString => if fixed then None else Some (digit c0, rest)
        end
      else None
  | EmptyString => None
  end.

(** The year: four characters, all digits. *)
Definition getyear (s : string) : option (Z * string) :=
  match s with
  | String c0 (String c1 (String c2 (String c3 rest))) =>
      if isDigit c0 && isDigit c1 && isDigit c2 && isDigit c3
      then Some (digit c0 * 1000 + digit c1 * 100 + digit c2 * 10 + digit c3, rest)%Z
      else None
  | _ => None
  end.

(** [skip]: the literal text between two fields of the layout (none of the
    literals of this layout holds a space). *)
Fixpoint skip (value prefix : string) : option string :=
  match prefix with
  | EmptyString => Some value
  | String p prefix' =>
      match value with
      | String v value' => if Ascii.eqb v p then skip value' prefix' else None
      | EmptyString => None
      end
  end.

(** The run of digits a string starts with, and what follows it. *)
Fixpoint digits (s : string) : list Z * string :=
  match s with
  | String c rest =>
      if isDigit c then let '(ds, r) := digits rest in (digit c :: ds, r) else ([], s)
  | EmptyString => ([], s)
  end.

(** [parseNanoseconds]: at most nine digits of the fraction count, scaled
    to nanoseconds. *)
Definition parseNanoseconds (ds : list Z) : Z :=
  let ds9 := firstn 9 ds in
  (fold_left (fun acc d => acc * 10 + d) ds9 0 * 10 ^ Z.of_nat (9 - length ds9))%Z.

(** A fraction of a second is read after the seconds although the layout
    has none: a period or a comma followed by at least one digit. *)
Definition fraction (value : string) : Z * string :=
  match value with
  | String c rest =>
      if (Ascii.eqb c "." || Ascii.eqb c ",") && (match rest with
                                                   | String c1 _ => isDigit c1
                                                   | EmptyString => false
                                                   end)
      then let '(ds, r) := digits rest in (parseNanoseconds ds, r)
      else (0%Z, value)
  | EmptyString => (0%Z, value)
  end.

Definition isLeap (year : Z) : bool :=
  ((year mod 4 =? 0) && (negb (year mod 100 =? 0) || (year mod 400 =? 0)))%Z.

(** [daysBefore[m]]: the days of a common year before month [m+1]. *)
Definition daysBefore (m : Z) : Z :=
  nth (Z.to_nat m) [0; 31; 59; 90; 120; 151; 181; 212; 243; 273; 304; 334; 365]%Z 0%Z.

Definition daysIn (month year : Z) : Z :=
  if ((month =? 2) && isLeap year)%Z then 29%Z
  else (daysBefore month - daysBefore (month - 1))%Z.

(** [time.Date] in UTC for fields that are in range: days of the proleptic
    Gregorian calendar since January 1, year 1. *)
Definition Date (year month day hour min sec nsec : Z) : Time :=
  let y := (year - 1)%Z in
  let days := (365 * y + y / 4 - y / 100 + y / 400
               + daysBefore (month - 1) + (if isLeap year && (2 <? month)%Z then 1 else 0)
               + (day - 1))%Z in
  (((days * 86400 + hour * 3600 + min * 60 + sec) * Second) + nsec)%Z.

(** [time.Parse("2006-01-02T15:04:05Z", value)]: [None] stands for every
    error; the time returned with an error is the zero [Time{}]. *)
Definition Parse (value : string) : option Time :=
  '(year, value) ← getyear value;
  value ← skip value "-";
  '(month, value) ← getnum value true;
  if negb ((1 <=? month) && (month <=? 12))%Z then None else
  value ← skip value "-";
  '(day, value) ← getnum value true;
  value ← skip value "T";
  '(hour, value) ← getnum value false;
  if negb (hour <? 24)%Z then None else
  value ← skip value ":";
  '(min, value) ← getnum value true;
  if negb (min <? 60)%Z then None else
  value ← skip value ":";
  '(sec, value) ← getnum value true;
  if negb (sec <? 60)%Z then None else
  let '(nsec, value) := fraction value in
  value ← skip value "Z";
  match value with
  | String _ _ => None
  | EmptyString =>
      if ((1 <=? day) && (day <=? daysIn month year))%Z
      then Some (Date year month day hour min sec nsec)
      else None
  end.

(** [t.Sub(u)]: the difference, held at the largest or smallest [Duration]
    when it does not fit. *)
Definition Sub (t u : Time) : Duration :=
  let d := (t - u)%Z in
  if (d <? minInt64)%Z then minInt64
  else if (maxInt64 <? d)%Z then maxInt64
  else d.

(** [time.Since(t)] at the instant [now]. *)
Definition Since (now t : Time) : Duration := Sub now t.

(** [d.Seconds()]: whole seconds plus the rest as a fraction, both taken
    with Go's truncating division. The float64 is read as the exact
    rational: against 30 the rounding never changes the order, because the
    nearest other value is a nanosecond away. *)
Definition Seconds (d : Duration) : Q :=
  (inject_Z (Z.quot d Second) + inject_Z (Z.rem d Second) / inject_Z 1000000000)%Q.

Definition Qltb (x y : Q) : bool := negb (Qle_bool y x).

(** *** verifyTimestamp *)

Inductive Outcome (A : Type) :=
| Returns (a : A)
| Panics.
Arguments Returns {A} a.
Arguments Panics {A}.

(** [m["timestamp"]] on a [map[string]interface{}]: nil for a missing key. *)
Fixpoint mapIndex (m : list (string * JValue)) (key : string) : JValue :=
  match m with
  | [] => JNull
  | (k, v) :: m' => if String.eqb k key then v else mapIndex m' key
  end.

(** What [log.Println] was called with. *)
Inductive LogLine :=
| ErrorParsingTimestamp (timestampStr : string) (request : JValue).

(** The result and the lines logged; the two type assertions of the first
    statement have no comma-ok form and panic when they fail. *)
Definition verifyTimestamp (now : Time) (requestEnvelope : RequestEnvelope)
  : Outcome (bool * list LogLine) :=
  match Envelope_Request requestEnvelope with
  | JObject m =>
      match mapIndex m "timestamp" with
      | JString timestampStr =>
          let '(requestTimestamp, logged) :=
            match Parse timestampStr with
            | Some t => (t, [])
            | None => (0%Z, [ErrorParsingTimestamp timestampStr (Envelope_Request requestEnvelope)])
            end in
          if Qltb (Seconds (Since now requestTimestamp)) (Seconds (30 * Second)%Z)
          then Returns (true, logged)
          else Returns (false, logged)
      | _ => Panics
      end
  | _ => Panics
  end.


(** No field the variant declares besides [CommonRequest] has a name that
    folds to [folded]. *)
Definition ownFieldsAvoid (T : Type) `{Variant T} (folded : string) : bool :=
  forallb (fun f : string * Dec T => negb (String.eqb (foldName (fst f)) folded)) ownFields.

(** The target once both pointers are injected. *)
Definition injected {T} `{Variant T} (requestObj : T) : T :=
  provider_setSession (provider_setContext requestObj Env) Env.

Definition withTimestamp (v : string) (cr : CommonRequest) : CommonRequest :=
  {| CommonRequest_Type := CommonRequest_Type cr;
     CommonRequest_RequestID := CommonRequest_RequestID cr;
     CommonRequest_Timestamp := v;
     CommonRequest_Locale := CommonRequest_Locale cr;
     CommonRequest_Session := CommonRequest_Session cr;
     CommonRequest_Context := CommonRequest_Context cr |}.

(** A timestamp in the form the platform sends, from its fourteen digits. *)
Definition timestampOf (y1 y2 y3 y4 m1 m2 d1 d2 h1 h2 n1 n2 s1 s2 : ascii) : string :=
  String y1 (String y2 (String y3 (String y4 (String "-"
  (String m1 (String m2 (String "-"
  (String d1 (String d2 (String "T"
  (String h1 (String h2 (String ":"
  (String n1 (String n2 (String ":"
  (String s1 (String s2 (String "Z" EmptyString))))))))))))))))))).

Definition twoDigits (a b : ascii) : Z := (digit a * 10 + digit b)%Z.

Definition fourDigits (a b c d : ascii) : Z :=
  (digit a * 1000 + digit b * 100 + digit c * 10 + digit d)%Z.


(** *** The wire strings of [CommonRequest], and members by name *)

Definition withType (v : string) (cr : CommonRequest) : CommonRequest :=
  {| CommonRequest_Type := v;
     CommonRequest_RequestID := CommonRequest_RequestID cr;
     CommonRequest_Timestamp := CommonRequest_Timestamp cr;
     CommonRequest_Locale := CommonRequest_Locale cr;
     CommonRequest_Session := CommonRequest_Session cr;
     CommonRequest_Context := CommonRequest_Context cr |}.

Definition withRequestID (v : string) (cr : CommonRequest) : CommonRequest :=
  {| CommonRequest_Type := CommonRequest_Type cr;
     CommonRequest_RequestID := v;
     CommonRequest_Timestamp := CommonRequest_Timestamp cr;
     CommonRequest_Locale := CommonRequest_Locale cr;
     CommonRequest_Session := CommonRequest_Session cr;
     CommonRequest_Context := CommonRequest_Context cr |}.

Definition withLocale (v : string) (cr : CommonRequest) : CommonRequest :=
  {| CommonRequest_Type := CommonRequest_Type cr;
     CommonRequest_RequestID := CommonRequest_RequestID cr;
     CommonRequest_Timestamp := CommonRequest_Timestamp cr;
     CommonRequest_Locale := v;
     CommonRequest_Session := CommonRequest_Session cr;
     CommonRequest_Context := CommonRequest_Context cr |}.

(** The four strings of [CommonRequest] that come from the wire, by the
    name of their field as [foldName] gives it. *)
Definition wireString (folded : string) : option (CommonRequest -> string) :=
  if String.eqb folded "TYPE" then Some CommonRequest_Type
  else if String.eqb folded "REQUESTID" then Some CommonRequest_RequestID
  else if String.eqb folded "TIMESTAMP" then Some CommonRequest_Timestamp
  else if String.eqb folded "LOCALE" then Some CommonRequest_Locale
  else None.

(** The spec's wire format, for comparison with [fits]: every request
    carries type, requestId, timestamp and locale, none of them marked
    optional. *)
Definition carriesRequired (payload : JValue) : bool :=
  match payload with
  | JObject kvs =>
      forallb (fun name => existsb (fun kv => String.eqb (fst kv) name) kvs)
              ["type"; "requestId"; "timestamp"; "locale"]
  | _ => false
  end.

(** The values of the members whose name folds to [folded], in order. *)
Definition membersNamed (folded : string) (kvs : list (string * JValue)) : list JValue :=
  List.map snd (List.filter (fun kv => String.eqb (foldName (fst kv)) folded) kvs).

(** The last member of an object under a key, compared exactly. *)
Definition lastMember (k : string) (kvs : list (string * JValue)) : option JValue :=
  snd <$> List.find (fun kv => String.eqb (fst kv) k) (rev kvs).

End Request.

(* ===================================================================== *)
(** ** audioplayer.go *)
(* ===================================================================== *)

Module Audio.
Import Json.
Export Request(Outcome, Returns, Panics).

(** *** Directives *)

(** A pointer is nil ([None]) or a location in the store of its type. *)
Abbreviation ptr := (option nat).

Record StreamStruct := {
  Stream_URL : string;
  Stream_Token : string;
  Stream_ExpectedPreviousToken : string;
  Stream_OffsetInMilliseconds : Z }.

Record AudioItemStruct := {
  AudioItem_Stream : StreamStruct;
  AudioItem_Metadata : ptr }.

Record AudioPlayerPlayDirective := {
  Play_Type : string;
  Play_PlayBehavior : string;
  Play_AudioItem : AudioItemStruct }.

Record AudioItemMetadata := {
  Metadata_Title : string;
  Metadata_Subtitle : string;
  Metadata_Art : ptr;
  Metadata_BackgroundImage : ptr }.

Record AudioPlayerStopDirective := { Stop_Type : string }.

Record AudioPlayerClearQueueDirective := {
  ClearQueue_Type : string;
  ClearQueue_ClearBehavior : string }.

(** Modelled from the spec: the type [DisplayImageObject] is declared in a
    file that is not part of the sources. The spec describes it as an image
    descriptor with a content description, written on the wire as
    [contentDescription]; the image sources a caller attaches later are not
    set by any function here and are left out. *)
Record DisplayImageObject := { Image_ContentDescription : string }.

(** A directive as the response holds it: an [interface{}] around a pointer
    to one of the three directive structs. *)
Inductive Directive :=
| PlayDirective (l : nat)
| StopDirective (l : nat)
| ClearQueueDirective (l : nat).

(** Modelled from the spec: the type [Response] is declared in a file that
    is not part of the sources. The spec describes it as the outbound
    container holding an ordered sequence of directive objects. *)
Record Response := { Response_Directives : list Directive }.

(** Modelled from the spec: the method [AddDirective] is defined in a file
    that is not part of the sources. The spec has every builder append its
    directive to the response's directive sequence. *)
Definition AddDirective (r : Response) (directive : Directive) : Response :=
  {| Response_Directives := Response_Directives r ++ [directive] |}.

(** The objects the builders allocate, by type, each at the location of its
    allocation, and the lines written by [log.Println]. *)
Record Store := {
  plays : list AudioPlayerPlayDirective;
  stops : list AudioPlayerStopDirective;
  clears : list AudioPlayerClearQueueDirective;
  metadatas : list AudioItemMetadata;
  images : list DisplayImageObject;
  logged : list string }.

Definition withPlays (v : list AudioPlayerPlayDirective) (st : Store) : Store :=
  {| plays := v; stops := stops st; clears := clears st; metadatas := metadatas st;
     images := images st; logged := logged st |}.
Definition withStops (v : list AudioPlayerStopDirective) (st : Store) : Store :=
  {| plays := plays st; stops := v; clears := clears st; metadatas := metadatas st;
     images := images st; logged := logged st |}.
Definition withClears (v : list AudioPlayerClearQueueDirective) (st : Store) : Store :=
  {| plays := plays st; stops := stops st; clears := v; metadatas := metadatas st;
     images := images st; logged := logged st |}.
Definition withMetadatas (v : list AudioItemMetadata) (st : Store) : Store :=
  {| plays := plays st; stops := stops st; clears := clears st; metadatas := v;
     images := images st; logged := logged st |}.
Definition withImages (v : list DisplayImageObject) (st : Store) : Store :=
  {| plays := plays st; stops := stops st; clears := clears st; metadatas := metadatas st;
     images := v; logged := logged st |}.
Definition Println (line : string) (st : Store) : Store :=
  {| plays := plays st; stops := stops st; clears := clears st; metadatas := metadatas st;
     images := images st; logged := logged st ++ [line] |}.

Definition zeroStream : StreamStruct :=
  {| Stream_URL := ""; Stream_Token := ""; Stream_ExpectedPreviousToken := "";
     Stream_OffsetInMilliseconds := 0 |}.
Definition zeroAudioItem : AudioItemStruct :=
  {| AudioItem_Stream := zeroStream; AudioItem_Metadata := None |}.
Definition zeroPlayDirective : AudioPlayerPlayDirective :=
  {| Play_Type := ""; Play_PlayBehavior := ""; Play_AudioItem := zeroAudioItem |}.
Definition zeroMetadata : AudioItemMetadata :=
  {| Metadata_Title := ""; Metadata_Subtitle := ""; Metadata_Art := None;
     Metadata_BackgroundImage := None |}.
Definition zeroImage : DisplayImageObject := {| Image_ContentDescription := "" |}.

(** *** Builders *)

Definition AddAudioPlayerPlayDirective (st : Store) (r : Response) (playBehavior : string)
  : Store * Response * nat :=
  let playDirective :=
    {| Play_Type := "AudioPlayer.Play"; Play_PlayBehavior := playBehavior;
       Play_AudioItem := zeroAudioItem |} in
  let l := length (plays st) in
  (withPlays (plays st ++ [playDirective]) st, AddDirective r (PlayDirective l), l).

Definition withStream (v : StreamStruct) (d : AudioPlayerPlayDirective) : AudioPlayerPlayDirective :=
  {| Play_Type := Play_Type d; Play_PlayBehavior := Play_PlayBehavior d;
     Play_AudioItem := {| AudioItem_Stream := v;
                          AudioItem_Metadata := AudioItem_Metadata (Play_AudioItem d) |} |}.

Definition withMetadata (v : ptr) (d : AudioPlayerPlayDirective) : AudioPlayerPlayDirective :=
  {| Play_Type := Play_Type d; Play_PlayBehavior := Play_PlayBehavior d;
     Play_AudioItem := {| AudioItem_Stream := AudioItem_Stream (Play_AudioItem d);
                          AudioItem_Metadata := v |} |}.

(** The receiver [d] is a pointer; writing a field through nil panics. *)
Definition SetAudioItemStream (st : Store) (d : ptr)
    (url token expectedPreviousToken : string) (offsetInMilliseconds : Z) : Outcome Store :=
  match d with
  | None => Panics
  | Some l =>
      match plays st !! l with
      | None => Panics
      | Some dir =>
          let stream :=
            {| Stream_URL := url; Stream_Token := token;
               Stream_ExpectedPreviousToken := expectedPreviousToken;
               Stream_OffsetInMilliseconds := offsetInMilliseconds |} in
          Returns (withPlays (<[l := withStream stream dir]> (plays st)) st)
      end
  end.

Definition SetAudioItemMetadata (st : Store) (d : ptr) (title subtitle : string)
  : Outcome (Store * ptr) :=
  match d with
  | None => Panics
  | Some l =>
      match plays st !! l with
      | None => Panics
      | Some dir =>
          let m := length (metadatas st) in
          let meta := {| Metadata_Title := title; Metadata_Subtitle := subtitle;
                         Metadata_Art := None; Metadata_BackgroundImage := None |} in
          let st := withMetadatas (metadatas st ++ [meta]) st in
          let st := withPlays (<[l := withMetadata (Some m) dir]> (plays st)) st in
          Returns (st, Some m)
      end
  end.

Definition SetArtImage (st : Store) (m : ptr) (contentDescription : string)
  : Outcome (Store * ptr) :=
  match m with
  | None => Panics
  | Some l =>
      match metadatas st !! l with
      | None => Panics
      | Some meta =>
          let i := length (images st) in
          let st := withImages (images st ++ [{| Image_ContentDescription := contentDescription |}]) st in
          let meta := {| Metadata_Title := Metadata_Title meta;
                         Metadata_Subtitle := Metadata_Subtitle meta;
                         Metadata_Art := Some i;
                         Metadata_BackgroundImage := Metadata_BackgroundImage meta |} in
          Returns (withMetadatas (<[l := meta]> (metadatas st)) st, Some i)
      end
  end.

Definition SetBackgroundImage (st : Store) (m : ptr) (contentDescription : string)
  : Outcome (Store * ptr) :=
  match m with
  | None => Panics
  | Some l =>
      match metadatas st !! l with
      | None => Panics
      | Some meta =>
          let i := length (images st) in
          let st := withImages (images st ++ [{| Image_ContentDescription := contentDescription |}]) st in
          let meta := {| Metadata_Title := Metadata_Title meta;
                         Metadata_Subtitle := Metadata_Subtitle meta;
                         Metadata_Art := Metadata_Art meta;
                         Metadata_BackgroundImage := Some i |} in
          Returns (withMetadatas (<[l := meta]> (metadatas st)) st, Some i)
      end
  end.

Definition AddAudioPlayerStopDirective (st : Store) (r : Response) : Store * Response * nat :=
  let stopDirective := {| Stop_Type := "AudioPlayer.Stop" |} in
  let l := length (stops st) in
  (withStops (stops st ++ [stopDirective]) st, AddDirective r (StopDirective l), l).

Definition invalidClearBehaviorStr : string :=
  "Invalid/ Unknown clearBehavior for ClearQueue directive!".

Definition AddAudioPlayerClearQueueDirective (st : Store) (r : Response) (clearBehavior : string)
  : Store * Response * nat :=
  let st :=
    if negb (String.eqb clearBehavior "CLEAR_ENQUEUED") && negb (String.eqb clearBehavior "CLEAR_ALL")
    then Println invalidClearBehaviorStr st
    else st in
  let clearQueueDirective :=
    {| ClearQueue_Type := "AudioPlayer.ClearQueue"; ClearQueue_ClearBehavior := clearBehavior |} in
  let l := length (clears st) in
  (withClears (clears st ++ [clearQueueDirective]) st, AddDirective r (ClearQueueDirective l), l).

(** The [Type] a directive of the response carries. *)
Definition directiveType (st : Store) (d : Directive) : option string :=
  match d with
  | PlayDirective l => Play_Type <$> plays st !! l
  | StopDirective l => Stop_Type <$> stops st !! l
  | ClearQueueDirective l => ClearQueue_Type <$> clears st !! l
  end.

(** Reading through the pointers: the metadata of the Play directive at a
    location, and the art image of a metadata object. *)
Definition playMetadata (st : Store) (l : nat) : option AudioItemMetadata :=
  dir ← plays st !! l;
  m ← AudioItem_Metadata (Play_AudioItem dir);
  metadatas st !! m.

Definition metadataArt (st : Store) (meta : AudioItemMetadata) : option DisplayImageObject :=
  a ← Metadata_Art meta;
  images st !! a.

(** *** The Play directive on the wire *)

Definition MarshalImagePtr (st : Store) (name : string) (p : ptr)
  : option (list (string * JValue)) :=
  match p with
  | None => Some []
  | Some l =>
      i ← images st !! l;
      Some [(name, JObject [("contentDescription", marshalString (Image_ContentDescription i))])]
  end.

Definition MarshalMetadata (st : Store) (m : AudioItemMetadata) : option JValue :=
  art ← MarshalImagePtr st "art" (Metadata_Art m);
  backgroundImage ← MarshalImagePtr st "backgroundImage" (Metadata_BackgroundImage m);
  Some (JObject (omitempty "title" (Metadata_Title m) ++ omitempty "subtitle" (Metadata_Subtitle m)
                 ++ art ++ backgroundImage)).

Definition MarshalStream (s : StreamStruct) : JValue :=
  JObject ([("url", marshalString (Stream_URL s)); ("token", marshalString (Stream_Token s))]
           ++ omitempty "expectedPreviousToken" (Stream_ExpectedPreviousToken s)
           ++ [("offsetInMilliseconds", JNumber (Int (Stream_OffsetInMilliseconds s)))]).

(** [json.Marshal] of a Play directive: the fields in declaration order
    under their tags, nil pointers and empty strings tagged [omitempty]
    left out. [None] only for a location that was never allocated. *)
Definition MarshalPlay (st : Store) (d : AudioPlayerPlayDirective) : option JValue :=
  metadata ← match AudioItem_Metadata (Play_AudioItem d) with
             | None => Some []
             | Some l =>
                 m ← metadatas st !! l;
                 j ← MarshalMetadata st m;
                 Some [("metadata", j)]
             end;
  Some (JObject [("type", marshalString (Play_Type d));
                 ("playBehavior", marshalString (Play_PlayBehavior d));
                 ("audioItem",
                  JObject ([("stream", MarshalStream (AudioItem_Stream (Play_AudioItem d)))]
                           ++ metadata))]).

(** A pointer field decoded next to the store: null makes it nil; another
    value is decoded into the object it points to, allocated first when
    the pointer is nil. *)
Definition decPtr {T} (zero : T) (heap : Store -> list T) (withHeap : list T -> Store -> Store)
    (d : Dec (Store * T)) : Dec (Store * ptr) := fun j st =>
  match j with
  | JNull => ((fst st, None), None)
  | _ =>
      let '(s0, l) := match snd st with
                      | Some l => (fst st, l)
                      | None => (withHeap (heap (fst st) ++ [zero]) (fst st), length (heap (fst st)))
                      end in
      match heap s0 !! l with
      | Some v =>
          let '(sv, err) := d j (s0, v) in
          ((withHeap (<[l := snd sv]> (heap (fst sv))) (fst sv), Some l), err)
      | None => ((s0, Some l), None)
      end
  end.

Definition Image_fields : list (string * Dec (Store * DisplayImageObject)) :=
  [ objField "contentDescription" Image_ContentDescription
      (fun v _ => {| Image_ContentDescription := v |}) decString ].

Definition decImagePtr : Dec (Store * ptr) :=
  decPtr zeroImage images withImages (decStruct "alexa.DisplayImageObject" Image_fields).

Definition Metadata_fields : list (string * Dec (Store * AudioItemMetadata)) :=
  [ objField "title" Metadata_Title
      (fun v m => {| Metadata_Title := v; Metadata_Subtitle := Metadata_Subtitle m;
                     Metadata_Art := Metadata_Art m;
                     Metadata_BackgroundImage := Metadata_BackgroundImage m |}) decString;
    objField "subtitle" Metadata_Subtitle
      (fun v m => {| Metadata_Title := Metadata_Title m; Metadata_Subtitle := v;
                     Metadata_Art := Metadata_Art m;
                     Metadata_BackgroundImage := Metadata_BackgroundImage m |}) decString;
    field "art"
      (fun st => (fst st, Metadata_Art (snd st)))
      (fun v st => (fst v, {| Metadata_Title := Metadata_Title (snd st);
                              Metadata_Subtitle := Metadata_Subtitle (snd st);
                              Metadata_Art := snd v;
                              Metadata_BackgroundImage := Metadata_BackgroundImage (snd st) |}))
      decImagePtr;
    field "backgroundImage"
      (fun st => (fst st, Metadata_BackgroundImage (snd st)))
      (fun v st => (fst v, {| Metadata_Title := Metadata_Title (snd st);
                              Metadata_Subtitle := Metadata_Subtitle (snd st);
                              Metadata_Art := Metadata_Art (snd st);
                              Metadata_BackgroundImage := snd v |}))
      decImagePtr ].

Definition decMetadataPtr : Dec (Store * ptr) :=
  decPtr zeroMetadata metadatas withMetadatas (decStruct "alexa.AudioItemMetadata" Metadata_fields).

Definition Stream_fields : list (string * Dec StreamStruct) :=
  [ field "url" Stream_URL
      (fun v s => {| Stream_URL := v; Stream_Token := Stream_Token s;
                     Stream_ExpectedPreviousToken := Stream_ExpectedPreviousToken s;
                     Stream_OffsetInMilliseconds := Stream_OffsetInMilliseconds s |}) decString;
    field "token" Stream_Token
      (fun v s => {| Stream_URL := Stream_URL s; Stream_Token := v;
                     Stream_ExpectedPreviousToken := Stream_ExpectedPreviousToken s;
                     Stream_OffsetInMilliseconds := Stream_OffsetInMilliseconds s |}) decString;
    field "expectedPreviousToken" Stream_ExpectedPreviousToken
      (fun v s => {| Stream_URL := Stream_URL s; Stream_Token := Stream_Token s;
                     Stream_ExpectedPreviousToken := v;
                     Stream_OffsetInMilliseconds := Stream_OffsetInMilliseconds s |}) decString;
    field "offsetInMilliseconds" Stream_OffsetInMilliseconds
      (fun v s => {| Stream_URL := Stream_URL s; Stream_Token := Stream_Token s;
                     Stream_ExpectedPreviousToken := Stream_ExpectedPreviousToken s;
                     Stream_OffsetInMilliseconds := v |}) decInt ].

Definition Stream_type : string :=
  structType [tagged "URL string" "url"; tagged "Token string" "token";
              tagged "ExpectedPreviousToken string" "expectedPreviousToken,omitempty";
              tagged "OffsetInMilliseconds int" "offsetInMilliseconds"].

Definition AudioItem_type : string :=
  structType [tagged ("Stream " ++ Stream_type)%string "stream";
              tagged "Metadata *alexa.AudioItemMetadata" "metadata,omitempty"].

Definition AudioItem_fields : list (string * Dec (Store * AudioItemStruct)) :=
  [ objField "stream" AudioItem_Stream
      (fun v a => {| AudioItem_Stream := v; AudioItem_Metadata := AudioItem_Metadata a |})
      (decStruct Stream_type Stream_fields);
    field "metadata"
      (fun st => (fst st, AudioItem_Metadata (snd st)))
      (fun v st => (fst v, {| AudioItem_Stream := AudioItem_Stream (snd st);
                              AudioItem_Metadata := snd v |}))
      decMetadataPtr ].

Definition Play_fields : list (string * Dec (Store * AudioPlayerPlayDirective)) :=
  [ objField "type" Play_Type
      (fun v d => {| Play_Type := v; Play_PlayBehavior := Play_PlayBehavior d;
                     Play_AudioItem := Play_AudioItem d |}) decString;
    objField "playBehavior" Play_PlayBehavior
      (fun v d => {| Play_Type := Play_Type d; Play_PlayBehavior := v;
                     Play_AudioItem := Play_AudioItem d |}) decString;
    field "audioItem"
      (fun st => (fst st, Play_AudioItem (snd st)))
      (fun v st => (fst v, {| Play_Type := Play_Type (snd st);
                              Play_PlayBehavior := Play_PlayBehavior (snd st);
                              Play_AudioItem := snd v |}))
      (decStruct AudioItem_type AudioItem_fields) ].

(** [json.Unmarshal(data, &d)] for a new [var d AudioPlayerPlayDirective]. *)
Definition UnmarshalPlay (data : JValue) (st : Store)
  : Store * AudioPlayerPlayDirective * option UnmarshalTypeError :=
  let '(sd, err) := decStruct "alexa.AudioPlayerPlayDirective" Play_fields data (st, zeroPlayDirective) in
  (fst sd, snd sd, err).

(** A stream as it reads after [json.Marshal] and a decode. *)
Definition coerced (s : StreamStruct) : StreamStruct :=
  {| Stream_URL := toValidUTF8 (Stream_URL s); Stream_Token := toValidUTF8 (Stream_Token s);
     Stream_ExpectedPreviousToken := toValidUTF8 (Stream_ExpectedPreviousToken s);
     Stream_OffsetInMilliseconds := Stream_OffsetInMilliseconds s |}.

Definition emptyStore : Store :=
  {| plays := []; stops := []; clears := []; metadatas := []; images := []; logged := [] |}.

Definition emptyResponse : Response := {| Response_Directives := [] |}.


(** *** Stores in which every pointer refers to an object *)

Definition resolves {A} (heap : list A) (p : ptr) : bool :=
  match p with
  | Some l => Nat.ltb l (length heap)
  | None => true
  end.

(** Every metadata pointer of a Play directive and every image pointer of
    a metadata object is nil or a location of the store. *)
Definition closed (st : Store) : bool :=
  forallb (fun d => resolves (metadatas st) (AudioItem_Metadata (Play_AudioItem d))) (plays st)
  && forallb (fun m => resolves (images st) (Metadata_Art m)
                       && resolves (images st) (Metadata_BackgroundImage m)) (metadatas st).

(** Every directive of the response is an object of the store. *)
Definition held (st : Store) (r : Response) : bool :=
  forallb (fun d => match directiveType st d with Some _ => true | None => false end)
          (Response_Directives r).

(** The background image of a metadata object, read through its pointer. *)
Definition metadataBackgroundImage (st : Store) (meta : AudioItemMetadata)
  : option DisplayImageObject :=
  a ← Metadata_BackgroundImage meta;
  images st !! a.

(** *** A directive read through its pointers *)

(** What a Play directive says, with the content descriptions of the
    images in place of the pointers to them. *)
Record MetadataView := {
  View_Title : string;
  View_Subtitle : string;
  View_Art : option string;
  View_BackgroundImage : option string }.

Record PlayView := {
  View_Type : string;
  View_PlayBehavior : string;
  View_Stream : StreamStruct;
  View_Metadata : option MetadataView }.

(** [None] for a location that was never allocated. *)
Definition viewImage (st : Store) (p : ptr) : option (option string) :=
  match p with
  | None => Some None
  | Some l => i ← images st !! l; Some (Some (Image_ContentDescription i))
  end.

Definition viewMetadata (st : Store) (p : ptr) : option (option MetadataView) :=
  match p with
  | None => Some None
  | Some l =>
      m ← metadatas st !! l;
      art ← viewImage st (Metadata_Art m);
      backgroundImage ← viewImage st (Metadata_BackgroundImage m);
      Some (Some {| View_Title := Metadata_Title m; View_Subtitle := Metadata_Subtitle m;
                    View_Art := art; View_BackgroundImage := backgroundImage |})
  end.

Definition viewPlay (st : Store) (d : AudioPlayerPlayDirective) : option PlayView :=
  metadata ← viewMetadata st (AudioItem_Metadata (Play_AudioItem d));
  Some {| View_Type := Play_Type d; View_PlayBehavior := Play_PlayBehavior d;
          View_Stream := AudioItem_Stream (Play_AudioItem d); View_Metadata := metadata |}.

(** A view as it reads after [json.Marshal] and a decode. *)
Definition coercedMetadata (m : MetadataView) : MetadataView :=
  {| View_Title := toValidUTF8 (View_Title m); View_Subtitle := toValidUTF8 (View_Subtitle m);
     View_Art := toValidUTF8 <$> View_Art m;
     View_BackgroundImage := toValidUTF8 <$> View_BackgroundImage m |}.

Definition coercedPlay (v : PlayView) : PlayView :=
  {| View_Type := toValidUTF8 (View_Type v);
     View_PlayBehavior := toValidUTF8 (View_PlayBehavior v);
     View_Stream := coerced (View_Stream v);
     View_Metadata := coercedMetadata <$> View_Metadata v |}.

End Audio.

(* ===================================================================== *)
(** ** Facts about the decoder *)
(* ===================================================================== *)

Module JsonFacts.
Import Json.

Lemma saveError_None (e1 e2 : option UnmarshalTypeError) :
  saveError e1 e2 = None <-> e1 = None /\ e2 = None.
Proof.
  destruct e1, e2; cbn; split; intros; try tauto; try discriminate; destruct H; discriminate.
Qed.

(** An object decodes without error exactly when each member does, given
    a test [okb] that tells for every member whether its field accepts it. *)
Lemma fold_step_error {T} (fs : list (string * Dec T)) (okb : string * JValue -> bool) kvs :
  Forall (fun kv => match findField fs (fst kv) with
                    | Some d => forall t, snd (d (snd kv) t) = None <-> okb kv = true
                    | None => okb kv = true
                    end) kvs ->
  forall acc, snd (fold_left (step fs) kvs acc) = None <-> snd acc = None /\ forallb okb kvs = true.
Proof.
  induction 1 as [|kv kvs Hkv _ IH]; intros acc; cbn [fold_left forallb].
  - tauto.
  - rewrite IH, andb_true_iff. unfold step at 1.
    destruct (findField fs (fst kv)) as [d|].
    + specialize (Hkv (fst acc)). destruct (d (snd kv) (fst acc)) as [t' err]. cbn [snd] in *.
      rewrite saveError_None. tauto.
    + tauto.
Qed.

Lemma decodeObject_error {T} (fs : list (string * Dec T)) (okb : string * JValue -> bool) kvs t :
  Forall (fun kv => match findField fs (fst kv) with
                    | Some d => forall t, snd (d (snd kv) t) = None <-> okb kv = true
                    | None => okb kv = true
                    end) kvs ->
  snd (decodeObject fs kvs t) = None <-> forallb okb kvs = true.
Proof.
  intros H. unfold decodeObject. rewrite (fold_step_error fs okb kvs H). cbn. tauto.
Qed.

(** What holds before an object is decoded, and is kept by every field a
    member of it selects, holds afterwards. *)
Lemma decodeObject_inv {T} (P : T -> Prop) (fs : list (string * Dec T)) kvs (t : T) :
  Forall (fun kv => forall d, findField fs (fst kv) = Some d ->
                    forall t', P t' -> P (fst (d (snd kv) t'))) kvs ->
  P t -> P (fst (decodeObject fs kvs t)).
Proof.
  unfold decodeObject. generalize (@None UnmarshalTypeError) as e.
  intros e H. revert t e. induction H as [|kv kvs Hkv _ IH]; intros t e Ht; cbn [fold_left].
  - exact Ht.
  - unfold step at 2. destruct (findField fs (fst kv)) as [d|]; cbn [fst snd].
    + specialize (Hkv d eq_refl t Ht). destruct (d (snd kv) t) as [t' err]. apply IH, Hkv.
    + apply IH, Ht.
Qed.

(** *** Field lookup *)

Lemma findField_In {A} (fs : list (string * A)) (key : string) (a : A) :
  findField fs key = Some a ->
  exists name, In (name, a) fs /\ foldName name = foldName key.
Proof.
  unfold findField.
  destruct (List.find (fun f => String.eqb (fst f) key) fs) as [[n x]|] eqn:E1.
  - cbn. intros [= <-]. apply find_some in E1 as [Hin Heq]. cbn in Heq.
    apply String.eqb_eq in Heq. subst. eauto.
  - destruct (List.find (fun f => String.eqb (foldName (fst f)) (foldName key)) fs)
      as [[n x]|] eqn:E2; [|discriminate].
    cbn. intros [= <-]. apply find_some in E2 as [Hin Heq]. cbn in Heq.
    apply String.eqb_eq in Heq. eauto.
Qed.

Section Tables.
Context {A B : Type} (R : A -> B -> Prop).

Lemma find_tables (p : string -> bool) (fs : list (string * A)) (shs : list (string * B)) :
  Forall2 (sameField R) fs shs ->
  match List.find (fun f => p (fst f)) fs, List.find (fun s => p (fst s)) shs with
  | Some f, Some s => sameField R f s
  | None, None => True
  | _, _ => False
  end.
Proof.
  induction 1 as [|f s fs shs [Hn Hr] _ IH]; cbn; [exact I|].
  rewrite <- Hn. destruct (p (fst f)); [split; assumption | exact IH].
Qed.

(** Two tables with the same names select alike. *)
Lemma findField_tables (fs : list (string * A)) (shs : list (string * B)) (key : string) :
  Forall2 (sameField R) fs shs ->
  match findField fs key, findField shs key with
  | Some a, Some b => R a b
  | None, None => True
  | _, _ => False
  end.
Proof.
  intros H. unfold findField.
  pose proof (find_tables (fun n => String.eqb n key) fs shs H) as H1.
  pose proof (find_tables (fun n => String.eqb (foldName n) (foldName key)) fs shs H) as H2.
  cbn beta in H1, H2.
  destruct (List.find (fun f => String.eqb (fst f) key) fs) as [f|],
           (List.find (fun s => String.eqb (fst s) key) shs) as [s|]; try contradiction.
  - apply H1.
  - destruct (List.find (fun f => String.eqb (foldName (fst f)) (foldName key)) fs) as [f|],
             (List.find (fun s => String.eqb (foldName (fst s)) (foldName key)) shs) as [s|];
      try contradiction; [apply H2 | exact I].
Qed.
End Tables.

(** *** Decoders against shapes *)

Lemma decString_fits : DecFits decString SString.
Proof. intros [| | | | |] t; cbn; split; congruence. Qed.

Lemma decBool_fits : DecFits decBool SBool.
Proof. intros [| | | | |] t; cbn; split; congruence. Qed.

Lemma decAny_fits : DecFits decAny SAny.
Proof. intros [| | | | |] t; cbn; split; congruence. Qed.

Lemma decInt_fits : DecFits decInt SInt.
Proof.
  intros [| |[z|lit]| | |] t; cbn -[minInt64 maxInt64 literal]; try (split; congruence).
  destruct (_ && _); cbn -[literal]; split; congruence.
Qed.

Lemma lift_fits {T A} (get : T -> A) (set : A -> T -> T) (d : Dec A) (sh : Shape) :
  DecFits d sh -> DecFits (lift get set d) sh.
Proof.
  intros H j t. unfold lift. specialize (H j (get t)).
  destruct (d j (get t)) as [a err]. exact H.
Qed.

Lemma decStruct_fits {T} (ty : string) (fs : list (string * Dec T)) (shs : list (string * Shape)) :
  Forall2 (sameField DecFits) fs shs -> DecFits (decStruct ty fs) (SStruct shs).
Proof.
  intros H j t.
  destruct j as [| | | | |kvs]; cbn [decStruct fits typeError snd]; try (split; congruence).
  apply decodeObject_error. apply List.Forall_forall. intros kv _.
  pose proof (findField_tables DecFits fs shs (fst kv) H) as Hf.
  destruct (findField fs (fst kv)) as [d|], (findField shs (fst kv)) as [s|]; try contradiction.
  - intros t'. apply Hf.
  - reflexivity.
Qed.

Lemma decMap_fits {E} (ty : string) (zero : E) (d : Dec E) (sh : Shape) :
  DecFits d sh -> DecFits (decMap ty zero d) (SMap sh).
Proof.
  intros H j t.
  destruct j as [| | | | |kvs]; cbn [decMap fits typeError snd]; try (split; congruence).
  assert (G : forall e m, snd (fold_left
            (fun (acc : gmap string E * option UnmarshalTypeError) (kv : string * JValue) =>
               let '(x, err) := d (snd kv) zero in
               (<[fst kv := x]> (fst acc), saveError (snd acc) err)) kvs (m, e)) = None
            <-> e = None /\ forallb (fun kv => fits sh (snd kv)) kvs = true).
  { induction kvs as [|kv kvs IH]; intros e m; cbn [fold_left forallb].
    - cbn. tauto.
    - specialize (H (snd kv) zero). destruct (d (snd kv) zero) as [x err]. cbn [fst snd] in *.
      rewrite IH, saveError_None, andb_true_iff. tauto. }
  rewrite G. tauto.
Qed.

Lemma embed_tables {T A} (get : T -> A) (set : A -> T -> T) (fs : list (string * Dec A))
    (shs : list (string * Shape)) :
  Forall2 (sameField DecFits) fs shs -> Forall2 (sameField DecFits) (embed get set fs) shs.
Proof.
  induction 1 as [|f s fs shs [Hn Hr] _ IH]; cbn; constructor; [|exact IH].
  split; [exact Hn | apply lift_fits, Hr].
Qed.

Lemma field_table {T A} (name : string) (get : T -> A) (set : A -> T -> T) (d : Dec A) (sh : Shape) :
  DecFits d sh -> sameField DecFits (field name get set d) (name, sh).
Proof. intros H. split; [reflexivity | apply lift_fits, H]. Qed.

Lemma objField_table {S T A} (name : string) (get : T -> A) (set : A -> T -> T) (d : Dec A)
    (sh : Shape) :
  DecFits d sh -> sameField DecFits (@objField S T A name get set d) (name, sh).
Proof. intros H. split; [reflexivity | apply lift_fits, H]. Qed.

Create HintDb fits discriminated.
#[export] Hint Resolve decString_fits decBool_fits decAny_fits decInt_fits decMap_fits lift_fits
  : fits.

(** A field table against a shape table, entry by entry. *)
Ltac table :=
  repeat (constructor;
          [ first [ apply field_table | apply objField_table
                  | split; [reflexivity | apply lift_fits] ];
            solve [eauto 4 with fits] | ]);
  try constructor.

(** *** Strings on the wire *)

Lemma toValidUTF8_valid_bounded (n : nat) :
  forall s, String.length s <= n -> validString s = true -> toValidUTF8 s = s.
Proof.
  induction n as [|n IH]; intros s Hn Hv.
  - destruct s; [reflexivity | cbn in Hn; lia].
  - destruct s as [|b0 r0]; [reflexivity|].
    cbn [String.length] in Hn. cbn [validString] in Hv. cbn [toValidUTF8].
    destruct (inRange 0 127 b0).
    { f_equal. apply IH; [lia | assumption]. }
    destruct r0 as [|b1 r1]; [discriminate|]. cbn [String.length] in Hn.
    destruct (two b0 b1).
    { do 2 f_equal. apply IH; [lia | assumption]. }
    destruct r1 as [|b2 r2]; [discriminate|]. cbn [String.length] in Hn.
    destruct (three b0 b1 b2).
    { do 3 f_equal. apply IH; [lia | assumption]. }
    destruct r2 as [|b3 r3]; [discriminate|]. cbn [String.length] in Hn.
    apply andb_prop in Hv as [H4 Hv]. rewrite H4.
    do 4 f_equal. apply IH; [lia | assumption].
Qed.

(** Valid UTF-8 goes over the wire unchanged. *)
Lemma toValidUTF8_valid (s : string) : validString s = true -> toValidUTF8 s = s.
Proof. apply (toValidUTF8_valid_bounded (String.length s)). lia. Qed.

Lemma omitempty_cases (name s : string) :
  (s = "" /\ omitempty name s = []) \/ omitempty name s = [(name, JString (toValidUTF8 s))].
Proof. destruct s; [left | right]; auto. Qed.

(** *** Which field a key selects *)

Lemma eqb_fold_false (name key : string) :
  foldName name <> foldName key -> String.eqb name key = false.
Proof. intros Hne. apply String.eqb_neq. intros ->. by apply Hne. Qed.

Lemma find_none {A} (p : A -> bool) (l : list A) :
  Forall (fun x => p x = false) l -> List.find p l = None.
Proof. induction 1 as [|x l Hx _ IH]; [reflexivity|]. cbn. by rewrite Hx. Qed.

Lemma find_skip {A} (p : A -> bool) (pre l : list A) :
  Forall (fun x => p x = false) pre -> List.find p (pre ++ l) = List.find p l.
Proof. induction 1 as [|x pre Hx _ IH]; [reflexivity|]. cbn. by rewrite Hx. Qed.

(** A key selects the one field whose name folds like it. *)
Lemma findField_only {A} (pre post : list (string * A)) (name key : string) (a : A) :
  foldName name = foldName key ->
  Forall (fun f => foldName (fst f) <> foldName key) pre ->
  Forall (fun f => foldName (fst f) <> foldName key) post ->
  findField (pre ++ (name, a) :: post) key = Some a.
Proof.
  intros Hn Hpre Hpost. unfold findField.
  assert (Hex : forall l, Forall (fun f : string * A => foldName (fst f) <> foldName key) l ->
                          Forall (fun f : string * A => String.eqb (fst f) key = false) l).
  { intros l. apply List.Forall_impl. intros f. apply eqb_fold_false. }
  assert (Hfo : forall l, Forall (fun f : string * A => foldName (fst f) <> foldName key) l ->
                          Forall (fun f : string * A =>
                                    String.eqb (foldName (fst f)) (foldName key) = false) l).
  { intros l. apply List.Forall_impl. intros f. apply String.eqb_neq. }
  rewrite (find_skip _ pre _ (Hex pre Hpre)). cbn [List.find fst snd].
  destruct (String.eqb name key); [reflexivity|].
  rewrite (find_none _ post (Hex post Hpost)).
  rewrite (find_skip _ pre _ (Hfo pre Hpre)). cbn [List.find fst snd].
  by rewrite Hn, String.eqb_refl.
Qed.

(** *** What a run of members keeps *)

(** What every field keeps is kept by a run of members. *)
Lemma fold_step_inv {T} (P : T -> Prop) (fs : list (string * Dec T))
    (kvs : list (string * JValue)) (acc : T * option UnmarshalTypeError) :
  Forall (fun kv => forall d, findField fs (fst kv) = Some d ->
                    forall t', P t' -> P (fst (d (snd kv) t'))) kvs ->
  P (fst acc) -> P (fst (fold_left (step fs) kvs acc)).
Proof.
  intros H. revert acc. induction H as [|kv kvs Hkv _ IH]; intros acc Hacc; [exact Hacc|].
  cbn [fold_left]. apply IH. unfold step.
  destruct (findField fs (fst kv)) as [d|] eqn:E; [|exact Hacc].
  specialize (Hkv d eq_refl (fst acc) Hacc).
  destruct (d (snd kv) (fst acc)) as [t' err]. exact Hkv.
Qed.

(** What every field keeps, but for those of one name, is kept by the
    members of other names. *)
Lemma fold_step_keeps {T} (P : T -> Prop) (folded : string) (fs : list (string * Dec T))
    (kvs : list (string * JValue)) (acc : T * option UnmarshalTypeError) :
  Forall (fun f => foldName (fst f) = folded \/ forall j t, P t -> P (fst (snd f j t))) fs ->
  Forall (fun kv => foldName (fst kv) <> folded) kvs ->
  P (fst acc) -> P (fst (fold_left (step fs) kvs acc)).
Proof.
  intros Hfs Hkvs. apply fold_step_inv.
  rewrite List.Forall_forall in Hfs. eapply List.Forall_impl; [|exact Hkvs].
  intros kv Hkv d Hd t' Ht'. apply findField_In in Hd as (name & Hin & Hfold).
  destruct (Hfs _ Hin) as [Hn | Hk]; cbn [fst snd] in *.
  - rewrite Hfold in Hn. by destruct Hkv.
  - by apply Hk.
Qed.

(** A number that an int field refuses is reported with its literal. *)
Example decInt_refused :
  decInt (JNumber (NonInt "1.5")) 7%Z = (7%Z, Some {| Value := "number 1.5"; GoType := "int" |})
  /\ decInt (JNumber (Int 9223372036854775808)) 7%Z
     = (7%Z, Some {| Value := "number 9223372036854775808"; GoType := "int" |})
  /\ decInt (JString "8") 7%Z = (7%Z, Some {| Value := "string"; GoType := "int" |})
  /\ decString (JNumber (Int 8)) "" = ("", Some {| Value := "number"; GoType := "string" |}).
Proof. repeat split. Qed.

End JsonFacts.

(* ===================================================================== *)
(** ** Facts about request.go *)
(* ===================================================================== *)

Module RequestFacts.
Import Json Request JsonFacts.

(** *** The structs decode as their declarations say *)

Lemma decApplication_fits : DecFits decApplication Application_shape.
Proof. apply decStruct_fits. table. Qed.

Lemma decUser_fits : DecFits decUser User_shape.
Proof. apply decStruct_fits. table. Qed.
#[export] Hint Resolve decApplication_fits decUser_fits : fits.

Lemma decSession_fits : DecFits decSession Session_shape.
Proof. apply decStruct_fits. table. Qed.

Lemma decDevice_fits : DecFits decDevice Device_shape.
Proof. apply decStruct_fits. table. Qed.
#[export] Hint Resolve decDevice_fits : fits.

Lemma decSystem_fits : DecFits decSystem System_shape.
Proof. apply decStruct_fits. table. Qed.

Lemma decAudioPlayer_fits : DecFits decAudioPlayer AudioPlayer_shape.
Proof. apply decStruct_fits. table. Qed.
#[export] Hint Resolve decSystem_fits decAudioPlayer_fits : fits.

Lemma decContext_fits : DecFits decContext Context_shape.
Proof. apply decStruct_fits. table. Qed.

Lemma decRef_fits {T} (zero : T) get set (d : Dec T) (sh : Shape) :
  DecFits d sh -> DecFits (decRef zero get set d) sh.
Proof.
  intros H j [env p]. unfold decRef. cbn [fst snd].
  assert (Hd : forall v, snd (let '(x, err) := d j v in ((env, @Own T x), err)) = None
                         <-> fits sh j = true)
    by (intros v; specialize (H j v); destruct (d j v); exact H).
  pose proof (H j (get env)) as He.
  destruct j; try (cbn; tauto); destruct p as [| |v0];
    try apply Hd; destruct (d _ (get env)); exact He.
Qed.
#[export] Hint Resolve decSession_fits decContext_fits decRef_fits : fits.

Lemma CommonRequest_table :
  Forall2 (sameField DecFits) CommonRequest_fields CommonRequest_shape.
Proof. table. Qed.

Lemma decIntentSlot_fits : DecFits decIntentSlot IntentSlot_shape.
Proof. apply decStruct_fits. table. Qed.
#[export] Hint Resolve decIntentSlot_fits : fits.

Lemma decIntent_fits : DecFits decIntent Intent_shape.
Proof. apply decStruct_fits. table. Qed.

Lemma decErrorStruct_fits : DecFits decErrorStruct ErrorStruct_shape.
Proof. apply decStruct_fits. table. Qed.

Lemma decCauseStruct_fits : DecFits decCauseStruct (SStruct [("requestId", SString)]).
Proof. apply decStruct_fits. table. Qed.

Lemma decCurrentPlaybackState_fits :
  DecFits decCurrentPlaybackState
    (SStruct [("token", SString); ("offsetInMilliseconds", SInt); ("playerActivity", SString)]).
Proof. apply decStruct_fits. table. Qed.
#[export] Hint Resolve decIntent_fits decErrorStruct_fits decCauseStruct_fits
  decCurrentPlaybackState_fits : fits.

(** *** The variants obey the laws *)

Ltac keeps :=
  repeat (constructor;
          [ intros j t; unfold field, lift; cbn [snd fst];
            repeat match goal with
                   | |- context [let '(_, _) := ?d j ?x in _] => destruct (d j x)
                   end;
            reflexivity | ]);
  try constructor.

#[export] Instance CommonRequest_Laws : VariantLaws CommonRequest.
Proof. split; [constructor | reflexivity | constructor]. Qed.

#[export] Instance LaunchRequest_Laws : VariantLaws LaunchRequest.
Proof. split; [constructor | reflexivity | constructor]. Qed.

#[export] Instance IntentRequest_Laws : VariantLaws IntentRequest.
Proof. split; [cbn; table | reflexivity | cbn; keeps]. Qed.

#[export] Instance SessionEndedRequest_Laws : VariantLaws SessionEndedRequest.
Proof. split; [cbn; table | reflexivity | cbn; keeps]. Qed.

#[export] Instance SystemExceptionEncounteredRequest_Laws
  : VariantLaws SystemExceptionEncounteredRequest.
Proof. split; [cbn; table | reflexivity | cbn; keeps]. Qed.

#[export] Instance AudioPlayerRequest_Laws : VariantLaws AudioPlayerRequest.
Proof. split; [cbn; table | reflexivity | cbn; keeps]. Qed.

#[export] Instance AudioPlayerPlaybackFailedRequest_Laws
  : VariantLaws AudioPlayerPlaybackFailedRequest.
Proof.
  split; [| reflexivity |]; cbn [ownFields ownShape AudioPlayerPlaybackFailedRequest_Variant];
    unfold AudioPlayerRequest_fields, embed, field; cbn [List.map app fst snd]; [table | keeps].
Qed.

(** *** Names the own fields of a variant leave free *)

Lemma ownFieldsAvoid_embed {T S} `{Variant T} (folded key : string)
    (get : S -> T) (set : T -> S -> S) :
  ownFieldsAvoid T folded = true -> foldName key = folded ->
  Forall (fun f : string * Dec S => foldName (fst f) <> foldName key) (embed get set ownFields).
Proof.
  unfold ownFieldsAvoid, embed. intros Ha <-. rewrite List.forallb_forall in Ha.
  apply List.Forall_forall. intros f Hf. apply in_map_iff in Hf as (f0 & <- & Hf0). cbn [fst].
  specialize (Ha f0 Hf0). apply negb_true_iff, String.eqb_neq in Ha. exact Ha.
Qed.

(** The entries of a table of literal names do not fold like a key whose
    fold is known. *)
Ltac others Hkey :=
  repeat (constructor; [cbn [fst]; rewrite Hkey; vm_compute; discriminate|]); try constructor.

(** None of the seven variants declares a field under one of the names of
    [CommonRequest]. *)
Example own_fields_avoid_common :
  forallb (fun folded =>
             ownFieldsAvoid CommonRequest folded && ownFieldsAvoid LaunchRequest folded
             && ownFieldsAvoid IntentRequest folded && ownFieldsAvoid SessionEndedRequest folded
             && ownFieldsAvoid SystemExceptionEncounteredRequest folded
             && ownFieldsAvoid AudioPlayerRequest folded
             && ownFieldsAvoid AudioPlayerPlaybackFailedRequest folded)
          ["TYPE"; "REQUESTID"; "TIMESTAMP"; "LOCALE"; "SESSION"; "CONTEXT"] = true.
Proof. reflexivity. Qed.

(** One field of [CommonRequest] after the other: it has the name that is
    set apart, or it keeps what is claimed. *)
Ltac keeps_common :=
  let j := fresh "j" in
  let e := fresh "e" in
  let cr := fresh "cr" in
  let Hst := fresh "Hst" in
  intros j [e cr] Hst; unfold lift, decRef; cbn [fst snd] in *;
  first [ match goal with
          | |- context [decString j ?x] => destruct (decString j x)
          end; cbn in *; exact Hst
        | destruct j; try exact Hst;
          match goal with
          | |- context [match ?p with Nil => _ | Env => _ | Own _ => _ end] => destruct p
          end;
          match goal with
          | |- context [let '(_, _) := ?d ?j ?x in _] => destruct (d j x)
          end; cbn in *; exact Hst ].

Ltac common_fields :=
  unfold CommonRequest_fields, objField, field;
  repeat (constructor; [first [left; reflexivity | right; keeps_common] |]);
  try constructor.

(** The place of a field in the table of [CommonRequest], by a key that
    folds like its name. *)
Ltac find_common Hkey Hown folded :=
  unfold variantFields, CommonRequest_fields, embed at 1, objField, field;
  cbn [List.map fst snd app];
  first [ match goal with
          | |- findField ((?n, ?a) :: ?post) ?key = _ =>
              apply (findField_only [] post n key a)
          end
        | match goal with
          | |- findField (?e1 :: (?n, ?a) :: ?post) ?key = _ =>
              apply (findField_only [e1] post n key a)
          end
        | match goal with
          | |- findField (?e1 :: ?e2 :: (?n, ?a) :: ?post) ?key = _ =>
              apply (findField_only [e1; e2] post n key a)
          end
        | match goal with
          | |- findField (?e1 :: ?e2 :: ?e3 :: (?n, ?a) :: ?post) ?key = _ =>
              apply (findField_only [e1; e2; e3] post n key a)
          end ];
  [ by rewrite Hkey
  | others Hkey
  | repeat (constructor; [cbn [fst]; rewrite Hkey; vm_compute; discriminate|]);
    by apply (ownFieldsAvoid_embed folded) ].

(** *** getTypedRequest *)

Section GetTypedRequest.
Context {T : Type} `{VariantLaws T}.

Lemma variant_table :
  Forall2 (sameField DecFits) (@variantFields T _) (CommonRequest_shape ++ ownShape).
Proof.
  unfold variantFields. apply Forall2_app.
  - apply embed_tables, CommonRequest_table.
  - apply embed_tables, own_fits.
Qed.

(** The decode reports an error exactly when the document does not fit. *)
Lemma Unmarshal_error (data : JValue) (env : RequestEnvelope) (obj : T) :
  snd (Unmarshal data env obj) = None <-> fits (variantShape T) data = true.
Proof.
  unfold Unmarshal, variantShape.
  pose proof (decStruct_fits typeName variantFields _ variant_table data (env, obj)) as Hd.
  destruct (decStruct typeName variantFields data (env, obj)) as [st err]. exact Hd.
Qed.

(** Every field but the two untagged pointers leaves the envelope and the
    two pointers as they are. *)
Lemma wire_fields_keep :
  Forall (fun f : string * Dec (RequestEnvelope * T) =>
            selectsInjected (fst f) = true \/ forall j st, view (fst (snd f j st)) = view st)
         variantFields.
Proof.
  unfold variantFields. apply List.Forall_app. split.
  - unfold CommonRequest_fields, embed, objField, field. cbn [List.map fst snd].
    repeat (constructor;
            [ first [ left; reflexivity
                    | right; intros j [env t]; unfold lift, view; cbn [fst snd];
                      match goal with
                      | |- context [decString j ?x] => destruct (decString j x)
                      end;
                      cbn [fst snd]; rewrite !get_with; reflexivity ] | ]).
    constructor.
  - unfold embed. apply List.Forall_forall. intros f Hf. right.
    apply in_map_iff in Hf as (f0 & <- & Hf0). cbn [fst snd].
    pose proof own_keeps as Hk. rewrite List.Forall_forall in Hk. specialize (Hk f0 Hf0).
    intros j [env t]. unfold lift, view. cbn [fst snd].
    specialize (Hk j t). destruct (snd f0 j t) as [t' err]. cbn [fst snd] in *.
    by rewrite Hk.
Qed.

Lemma Unmarshal_wireOnly (data : JValue) (env : RequestEnvelope) (obj : T) :
  wireOnly data = true ->
  view (fst (Unmarshal data env obj)) = view (env, obj).
Proof.
  intros Hw. unfold Unmarshal.
  assert (G : view (fst (decStruct typeName variantFields data (env, obj))) = view (env, obj)).
  { destruct data as [| | | | |kvs]; try reflexivity.
    cbn [decStruct]. apply (decodeObject_inv (fun st => view st = view (env, obj))); [|reflexivity].
    cbn [wireOnly] in Hw. rewrite List.forallb_forall in Hw.
    apply List.Forall_forall. intros kv Hkv d Hd st Hst.
    apply findField_In in Hd as (name & Hin & Hfold).
    pose proof wire_fields_keep as Hk. rewrite List.Forall_forall in Hk.
    destruct (Hk _ Hin) as [Hinj | Hkeep]; cbn [fst snd] in *.
    - specialize (Hw kv Hkv). unfold selectsInjected in *. rewrite <- Hfold, Hinj in Hw.
      discriminate.
    - by rewrite Hkeep. }
  destruct (decStruct typeName variantFields data (env, obj)) as [[env' obj'] err]. exact G.
Qed.

(** The two pointers go in first, and wire fields do not take them out. *)
Lemma getTypedRequest_wireOnly (env : RequestEnvelope) (obj : T) :
  wireOnly (Envelope_Request env) = true ->
  exists obj' err,
    getTypedRequest env obj = (env, obj', err)
    /\ CommonRequest_Session (getCommon obj') = Env
    /\ CommonRequest_Context (getCommon obj') = Env.
Proof.
  intros Hw. unfold getTypedRequest, Marshal.
  pose proof (Unmarshal_wireOnly (Envelope_Request env) env
                (provider_setSession (provider_setContext obj Env) Env) Hw) as Hv.
  destruct (Unmarshal _ _ _) as [[env' obj'] err]. unfold view in Hv. cbn [fst snd] in Hv.
  cbn [provider_setSession provider_setContext Variant_provider] in Hv.
  rewrite !get_with in Hv. cbn in Hv. injection Hv as He Hs Hc. subst env'.
  eauto.
Qed.

Lemma injected_common (obj : T) :
  getCommon (injected obj) = setSession (setContext (getCommon obj) Env) Env.
Proof.
  unfold injected. cbn [provider_setSession provider_setContext Variant_provider].
  by rewrite !get_with.
Qed.

(** The field a key selects when it folds like one of the names of
    [CommonRequest] and no own field does. *)
Lemma findField_Session (key : string) :
  foldName key = "SESSION" -> ownFieldsAvoid T "SESSION" = true ->
  findField (@variantFields T _) key
  = Some (lift (fun st : RequestEnvelope * T => (fst st, getCommon (snd st)))
               (fun v st => (fst v, withCommon (snd v) (snd st)))
               (lift (fun st : RequestEnvelope * CommonRequest =>
                        (fst st, CommonRequest_Session (snd st)))
                     (fun v st => (fst v, setSession (snd st) (snd v)))
                     (decRef zeroSession Envelope_Session Envelope_setSession decSession))).
Proof.
  intros Hkey Hown. unfold variantFields, CommonRequest_fields, embed at 1, objField, field.
  cbn [List.map fst snd app].
  match goal with
  | |- findField (?e1 :: ?e2 :: ?e3 :: ?e4 :: (?n, ?a) :: ?post) _ = _ =>
      apply (findField_only [e1; e2; e3; e4] post n key a)
  end.
  - by rewrite Hkey.
  - others Hkey.
  - constructor; [cbn [fst]; rewrite Hkey; vm_compute; discriminate|].
    by apply (ownFieldsAvoid_embed "SESSION").
Qed.

Lemma findField_timestamp (key : string) :
  foldName key = "TIMESTAMP" -> ownFieldsAvoid T "TIMESTAMP" = true ->
  findField (@variantFields T _) key
  = Some (lift (fun st : RequestEnvelope * T => (fst st, getCommon (snd st)))
               (fun v st => (fst v, withCommon (snd v) (snd st)))
               (lift (fun st : RequestEnvelope * CommonRequest => CommonRequest_Timestamp (snd st))
                     (fun a st => (fst st, withTimestamp a (snd st)))
                     decString)).
Proof.
  intros Hkey Hown. unfold variantFields, CommonRequest_fields, embed at 1, objField, field.
  cbn [List.map fst snd app].
  match goal with
  | |- findField (?e1 :: ?e2 :: (?n, ?a) :: ?post) _ = _ =>
      apply (findField_only [e1; e2] post n key a)
  end.
  - by rewrite Hkey.
  - others Hkey.
  - repeat (constructor; [cbn [fst]; rewrite Hkey; vm_compute; discriminate|]).
    by apply (ownFieldsAvoid_embed "TIMESTAMP").
Qed.

(** A property of the envelope and the embedded [CommonRequest] that the
    fields of [CommonRequest] keep is kept by the fields of the variant. *)
Lemma variant_keeps (Q : RequestEnvelope * CommonRequest -> Prop) (folded : string) :
  Forall (fun f => foldName (fst f) = folded \/ forall j st, Q st -> Q (fst (snd f j st)))
         CommonRequest_fields ->
  Forall (fun f : string * Dec (RequestEnvelope * T) =>
            foldName (fst f) = folded
            \/ forall j st, Q (fst st, getCommon (snd st))
                            -> Q (fst (fst (snd f j st)), getCommon (snd (fst (snd f j st)))))
         variantFields.
Proof.
  intros Hc. unfold variantFields. apply List.Forall_app. split.
  - unfold embed. apply List.Forall_forall. intros f Hf.
    apply in_map_iff in Hf as (f0 & <- & Hf0). cbn [fst snd].
    rewrite List.Forall_forall in Hc. destruct (Hc f0 Hf0) as [Hn | Hk]; [by left | right].
    intros j [e t] Hst. unfold lift. cbn [fst snd] in *.
    specialize (Hk j (e, getCommon t) Hst). unfold Dec in *.
    destruct (snd f0 j (e, getCommon t)) as [[e' cr'] err]. cbn [fst snd] in *.
    by rewrite get_with.
  - unfold embed. apply List.Forall_forall. intros f Hf. right.
    apply in_map_iff in Hf as (f0 & <- & Hf0). cbn [fst snd].
    pose proof own_keeps as Hk. rewrite List.Forall_forall in Hk. specialize (Hk f0 Hf0).
    intros j [e t] Hst. unfold lift. cbn [fst snd] in *.
    specialize (Hk j t). unfold Dec in *. destruct (snd f0 j t) as [t' err]. cbn [fst snd] in *.
    by rewrite Hk.
Qed.

Lemma findField_wireString (folded : string) (get : CommonRequest -> string) (key : string) :
  wireString folded = Some get -> ownFieldsAvoid T folded = true -> foldName key = folded ->
  exists set : string -> CommonRequest -> CommonRequest,
    (forall v cr, get (set v cr) = v)
    /\ findField (@variantFields T _) key
       = Some (lift (fun st : RequestEnvelope * T => (fst st, getCommon (snd st)))
                    (fun v st => (fst v, withCommon (snd v) (snd st)))
                    (lift (fun st : RequestEnvelope * CommonRequest => get (snd st))
                          (fun a st => (fst st, set a (snd st)))
                          decString)).
Proof.
  unfold wireString. intros Hw Hown Hkey.
  destruct (String.eqb folded "TYPE") eqn:E1;
    [|destruct (String.eqb folded "REQUESTID") eqn:E2;
      [|destruct (String.eqb folded "TIMESTAMP") eqn:E3;
        [|destruct (String.eqb folded "LOCALE") eqn:E4; [|discriminate]]]];
    injection Hw as <-;
    match goal with
    | E : String.eqb folded _ = true |- _ => apply String.eqb_eq in E; subst folded
    end.
  - exists withType. split; [reflexivity|]. find_common Hkey Hown "TYPE".
  - exists withRequestID. split; [reflexivity|]. find_common Hkey Hown "REQUESTID".
  - exists withTimestamp. split; [reflexivity|]. find_common Hkey Hown "TIMESTAMP".
  - exists withLocale. split; [reflexivity|]. find_common Hkey Hown "LOCALE".
Qed.

Lemma wireString_kept (folded : string) (get : CommonRequest -> string) (s : string) :
  wireString folded = Some get ->
  Forall (fun f => foldName (fst f) = folded
                   \/ forall j st, get (snd st) = s -> get (snd (fst (snd f j st))) = s)
         CommonRequest_fields.
Proof.
  unfold wireString. intros Hw.
  destruct (String.eqb folded "TYPE") eqn:E1;
    [|destruct (String.eqb folded "REQUESTID") eqn:E2;
      [|destruct (String.eqb folded "TIMESTAMP") eqn:E3;
        [|destruct (String.eqb folded "LOCALE") eqn:E4; [|discriminate]]]];
    injection Hw as <-;
    match goal with
    | E : String.eqb folded _ = true |- _ => apply String.eqb_eq in E; subst folded
    end; common_fields.
Qed.

(** The last member under the name of one of the four strings, when it
    holds a string, is what the field holds at the end. *)
Lemma wireString_member (folded : string) (get : CommonRequest -> string) (key s : string)
    (after : list (string * JValue))
    (acc : RequestEnvelope * T * option UnmarshalTypeError) :
  wireString folded = Some get -> ownFieldsAvoid T folded = true -> foldName key = folded ->
  Forall (fun kv => foldName (fst kv) <> folded) after ->
  get (getCommon (snd (fst (fold_left (step variantFields) ((key, JString s) :: after) acc)))) = s.
Proof.
  intros Hw Hown Hkey Hafter. cbn [fold_left].
  apply (fold_step_keeps (fun st : RequestEnvelope * T => get (getCommon (snd st)) = s) folded).
  - apply (variant_keeps (fun st => get (snd st) = s) folded), wireString_kept, Hw.
  - exact Hafter.
  - destruct (findField_wireString folded get key Hw Hown Hkey) as (set & Hset & Hfind).
    unfold step. cbn [fst snd]. rewrite Hfind. unfold lift. cbn [fst snd decString].
    by rewrite get_with.
Qed.

(** Members of other names leave the Session pointer and the Session of
    the envelope alone. *)
Lemma session_kept (s : Session) :
  Forall (fun f => foldName (fst f) = "SESSION"
                   \/ forall j st,
                        CommonRequest_Session (snd st) = Env /\ Envelope_Session (fst st) = s ->
                        CommonRequest_Session (snd (fst (snd f j st))) = Env
                        /\ Envelope_Session (fst (fst (snd f j st))) = s)
         CommonRequest_fields.
Proof. common_fields. Qed.

(** The members named Session, one after the other, through the pointer. *)
Lemma session_members (kvs : list (string * JValue)) :
  ownFieldsAvoid T "SESSION" = true ->
  forall acc : RequestEnvelope * T * option UnmarshalTypeError,
    CommonRequest_Session (getCommon (snd (fst acc))) = Env ->
    Forall (fun v => v <> JNull) (membersNamed "SESSION" kvs) ->
    CommonRequest_Session (getCommon (snd (fst (fold_left (step variantFields) kvs acc)))) = Env
    /\ Envelope_Session (fst (fst (fold_left (step variantFields) kvs acc)))
       = fold_left (fun s v => fst (decSession v s)) (membersNamed "SESSION" kvs)
                   (Envelope_Session (fst (fst acc))).
Proof.
  intros Hown. induction kvs as [|[key v] kvs IH]; intros acc Hptr Hnn; [by split|].
  cbn [fold_left]. unfold membersNamed in *. cbn [List.filter fst] in *.
  destruct (String.eqb (foldName key) "SESSION") eqn:E.
  - apply String.eqb_eq in E. cbn [List.map snd fold_left] in *.
    apply List.Forall_cons_iff in Hnn as [Hv Hnn].
    assert (Hstep : CommonRequest_Session (getCommon (snd (fst (step variantFields acc (key, v)))))
                    = Env
                    /\ Envelope_Session (fst (fst (step variantFields acc (key, v))))
                       = fst (decSession v (Envelope_Session (fst (fst acc))))).
    { unfold step. cbn [fst snd]. rewrite (findField_Session key E Hown).
      destruct acc as [[e t] err0]. cbn [fst snd] in *.
      unfold lift, decRef. cbn [fst snd]. rewrite Hptr.
      destruct v as [|b|n|s|l|m]; try (by destruct Hv);
        destruct (decSession _ (Envelope_Session e)) as [s' err]; cbn [fst snd];
        rewrite get_with; split; reflexivity. }
    destruct Hstep as [Hp Hs]. destruct (IH _ Hp Hnn) as [IHp IHs].
    split; [exact IHp|]. by rewrite IHs, Hs.
  - apply String.eqb_neq in E.
    assert (Hone : Forall (fun kv : string * JValue => foldName (fst kv) <> "SESSION") [(key, v)])
      by (constructor; [exact E | constructor]).
    pose proof (fold_step_keeps
                  (fun st : RequestEnvelope * T =>
                     CommonRequest_Session (getCommon (snd st)) = Env
                     /\ Envelope_Session (fst st) = Envelope_Session (fst (fst acc)))
                  "SESSION" variantFields [(key, v)] acc
                  (variant_keeps
                     (fun st => CommonRequest_Session (snd st) = Env
                                /\ Envelope_Session (fst st) = Envelope_Session (fst (fst acc)))
                     "SESSION" (session_kept _))
                  Hone
                  (conj Hptr eq_refl)) as [Hp Hs].
    cbn [fold_left] in Hp, Hs.
    destruct (IH _ Hp Hnn) as [IHp IHs]. split; [exact IHp|]. by rewrite IHs, Hs.
Qed.

Lemma getTypedRequest_error (env : RequestEnvelope) (obj : T) :
  snd (getTypedRequest env obj) = None <-> fits (variantShape T) (Envelope_Request env) = true.
Proof. apply Unmarshal_error. Qed.
End GetTypedRequest.

(** C1 (as amended): for every envelope whose Request payload does not fit
    the field shapes of the target variant, getTypedRequest returns an
    error. The target is not restored to what it was. When the payload has
    no member named Session or Context, the target's Session and Context
    are the envelope's, whatever they were before, and the envelope is
    unchanged. Each of type, requestId, timestamp and locale holds the
    string of the last member of the payload of that name (in any letter
    case), when that member holds a string. *)
Theorem getTypedRequest_mismatch {T : Type} `{VariantLaws T}
    (env : RequestEnvelope) (obj : T) :
  fits (variantShape T) (Envelope_Request env) = false ->
  exists env' obj' e,
    getTypedRequest env obj = (env', obj', Some e)
    /\ (wireOnly (Envelope_Request env) = true ->
        env' = env
        /\ CommonRequest_Session (getCommon obj') = Env
        /\ CommonRequest_Context (getCommon obj') = Env)
    /\ (forall folded get before key s after,
          wireString folded = Some get ->
          ownFieldsAvoid T folded = true ->
          Envelope_Request env = JObject (before ++ (key, JString s) :: after) ->
          foldName key = folded ->
          Forall (fun kv => foldName (fst kv) <> folded) after ->
          get (getCommon obj') = s).
Proof.
  intros Hf. pose proof (getTypedRequest_error env obj) as He.
  pose proof (getTypedRequest_wireOnly env obj) as Hw.
  destruct (getTypedRequest env obj) as [[env' obj'] [e|]] eqn:Heq; cbn [snd] in He.
  - exists env', obj', e. split; [reflexivity|]. split.
    + intros Hwire. destruct (Hw Hwire) as (o & err & Heq' & Hs & Hc).
      injection Heq' as -> -> _. auto.
    + intros folded get before key s after Hstr Hown Hr Hkey Hafter.
      unfold getTypedRequest, Marshal, Unmarshal in Heq. rewrite Hr in Heq.
      cbn [decStruct] in Heq. unfold decodeObject in Heq. rewrite fold_left_app in Heq.
      pose proof (wireString_member folded get key s after
                    (fold_left (step variantFields) before
                       (env, provider_setSession (provider_setContext obj Env) Env, None))
                    Hstr Hown Hkey Hafter) as Hm.
      destruct (fold_left (step variantFields) ((key, JString s) :: after) _) as [st err].
      cbn [fst snd] in *. injection Heq as _ <- _. exact Hm.
  - destruct He as [He _]. rewrite (He eq_refl) in Hf. discriminate.
Qed.

(** A payload whose type member is a number, for a LaunchRequest that held
    another requestId and no pointers. *)
Lemma getTypedRequest_mismatch_witness :
  let payload := JObject [("requestId", JString "r1"); ("type", JNumber (Int 5))] in
  let target :=
    {| LaunchRequest_CommonRequest :=
         {| CommonRequest_Type := "LaunchRequest"; CommonRequest_RequestID := "r0";
            CommonRequest_Timestamp := ""; CommonRequest_Locale := "";
            CommonRequest_Session := Nil; CommonRequest_Context := Nil |} |} in
  fits (variantShape LaunchRequest) payload = false
  /\ exists env' obj' e,
       getTypedRequest (sampleEnvelope payload) target = (env', obj', Some e)
       /\ env' = sampleEnvelope payload
       /\ CommonRequest_Session (getCommon obj') = Env
       /\ CommonRequest_Context (getCommon obj') = Env
       /\ CommonRequest_RequestID (getCommon obj') = "r1".
Proof.
  intros payload target.
  assert (Hfits : fits (variantShape LaunchRequest) payload = false) by reflexivity.
  assert (Hown : ownFieldsAvoid LaunchRequest "REQUESTID" = true) by reflexivity.
  assert (Hafter : Forall (fun kv : string * JValue => foldName (fst kv) <> "REQUESTID")
                          [("type", JNumber (Int 5))])
    by (constructor; [discriminate | constructor]).
  split; [exact Hfits|].
  destruct (getTypedRequest_mismatch (T := LaunchRequest) (sampleEnvelope payload) target Hfits)
    as (env' & obj' & e & Heq & Hwire & Hstr).
  exists env', obj', e. split; [exact Heq|].
  destruct (Hwire eq_refl) as (He & Hs & Hc).
  split; [exact He|]. split; [exact Hs|]. split; [exact Hc|].
  exact (Hstr "REQUESTID" CommonRequest_RequestID [] "requestId" "r1" [("type", JNumber (Int 5))]
           eq_refl Hown eq_refl eq_refl Hafter).
Defined.

(** C1 as stated fails. With a number under type, the call returns an
    error and yet the target has its requestId filled and both pointers
    set. A payload that lacks every field the wire format requires, or all
    but one, is decoded without any error. *)
Lemma getTypedRequest_mismatch_modifies_target :
  (fits (variantShape LaunchRequest)
        (JObject [("requestId", JString "r1"); ("type", JNumber (Int 5))]) = false
   /\ getTypedRequest
        (sampleEnvelope (JObject [("requestId", JString "r1"); ("type", JNumber (Int 5))]))
        zeroLaunchRequest
      = (sampleEnvelope (JObject [("requestId", JString "r1"); ("type", JNumber (Int 5))]),
         {| LaunchRequest_CommonRequest :=
              {| CommonRequest_Type := ""; CommonRequest_RequestID := "r1";
                 CommonRequest_Timestamp := ""; CommonRequest_Locale := "";
                 CommonRequest_Session := Env; CommonRequest_Context := Env |} |},
         Some {| Value := "number"; GoType := "string" |})
   /\ {| LaunchRequest_CommonRequest :=
           {| CommonRequest_Type := ""; CommonRequest_RequestID := "r1";
              CommonRequest_Timestamp := ""; CommonRequest_Locale := "";
              CommonRequest_Session := Env; CommonRequest_Context := Env |} |}
      <> zeroLaunchRequest)
  /\ (carriesRequired (JObject []) = false
      /\ getTypedRequest (sampleEnvelope (JObject [])) zeroLaunchRequest
         = (sampleEnvelope (JObject []),
            {| LaunchRequest_CommonRequest :=
                 {| CommonRequest_Type := ""; CommonRequest_RequestID := "";
                    CommonRequest_Timestamp := ""; CommonRequest_Locale := "";
                    CommonRequest_Session := Env; CommonRequest_Context := Env |} |},
            None))
  /\ (carriesRequired (JObject [("type", JString "LaunchRequest")]) = false
      /\ snd (getTypedRequest (sampleEnvelope (JObject [("type", JString "LaunchRequest")]))
                zeroLaunchRequest) = None).
Proof.
  split; [split; [reflexivity|]; split; [reflexivity | discriminate]|].
  split; split; reflexivity.
Qed.

(** Where the injection does hold: when every member of the payload fits
    the field it selects and no member is named Session or Context,
    getTypedRequest succeeds, leaves the envelope as it was, and leaves the
    target's Session and Context pointing at the envelope's Session and
    Context: they are not nil and read as the envelope's values. *)
Lemma getTypedRequest_injects {T : Type} `{VariantLaws T}
    (env : RequestEnvelope) (obj : T) :
  fits (variantShape T) (Envelope_Request env) = true ->
  wireOnly (Envelope_Request env) = true ->
  exists obj',
    getTypedRequest env obj = (env, obj', None)
    /\ CommonRequest_Session (getCommon obj') = Env
    /\ CommonRequest_Context (getCommon obj') = Env
    /\ derefSession env (CommonRequest_Session (getCommon obj')) = Some (Envelope_Session env)
    /\ derefContext env (CommonRequest_Context (getCommon obj')) = Some (Envelope_Context env).
Proof.
  intros Hf Hw. destruct (getTypedRequest_wireOnly env obj Hw) as (obj' & err & Heq & Hs & Hc).
  apply (getTypedRequest_error env obj) in Hf. rewrite Heq in Hf. cbn in Hf. subst err.
  exists obj'. rewrite Hs, Hc. auto.
Qed.

Example getTypedRequest_injects_IntentRequest :
  fits (variantShape IntentRequest)
       (JObject [("dialogState", JString "STARTED");
                 ("intent", JObject [("name", JString "PlayIntent")]);
                 ("locale", JString "en-US"); ("requestId", JString "r1");
                 ("timestamp", JString "2018-01-01T00:00:01Z");
                 ("type", JString "IntentRequest")]) = true
  /\ exists obj',
       getTypedRequest
         (sampleEnvelope
            (JObject [("dialogState", JString "STARTED");
                      ("intent", JObject [("name", JString "PlayIntent")]);
                      ("locale", JString "en-US"); ("requestId", JString "r1");
                      ("timestamp", JString "2018-01-01T00:00:01Z");
                      ("type", JString "IntentRequest")]))
         {| IntentRequest_CommonRequest := zeroCommonRequest;
            IntentRequest_Intent := {| Intent_Name := ""; Intent_Slots := ∅;
                                       Intent_ConfirmationStatus := "" |};
            IntentRequest_DialogState := "" |}
       = (sampleEnvelope
            (JObject [("dialogState", JString "STARTED");
                      ("intent", JObject [("name", JString "PlayIntent")]);
                      ("locale", JString "en-US"); ("requestId", JString "r1");
                      ("timestamp", JString "2018-01-01T00:00:01Z");
                      ("type", JString "IntentRequest")]), obj', None)
       /\ CommonRequest_Session (getCommon obj') = Env
       /\ CommonRequest_Context (getCommon obj') = Env
       /\ derefSession
            (sampleEnvelope
               (JObject [("dialogState", JString "STARTED");
                         ("intent", JObject [("name", JString "PlayIntent")]);
                         ("locale", JString "en-US"); ("requestId", JString "r1");
                         ("timestamp", JString "2018-01-01T00:00:01Z");
                         ("type", JString "IntentRequest")]))
            (CommonRequest_Session (getCommon obj')) = Some zeroSession
       /\ derefContext
            (sampleEnvelope
               (JObject [("dialogState", JString "STARTED");
                         ("intent", JObject [("name", JString "PlayIntent")]);
                         ("locale", JString "en-US"); ("requestId", JString "r1");
                         ("timestamp", JString "2018-01-01T00:00:01Z");
                         ("type", JString "IntentRequest")]))
            (CommonRequest_Context (getCommon obj')) = Some zeroContext.
Proof.
  split; [reflexivity|].
  apply (getTypedRequest_injects (T := IntentRequest)); reflexivity.
Qed.

(** C3 (the code where the claim fails): a payload that matches the shape
    of an IntentRequest, with every wire field of the variant and a null
    member named context beside them, is decoded without error and leaves
    the target's Context nil: it does not read as the envelope's Context.
    The Session, which the payload does not name, is the envelope's. *)
Theorem getTypedRequest_injection_lost :
  let payload :=
    JObject [("context", JNull); ("dialogState", JString "STARTED");
             ("intent", JObject [("name", JString "PlayIntent")]);
             ("locale", JString "en-US"); ("requestId", JString "r1");
             ("timestamp", JString "2018-01-01T00:00:01Z");
             ("type", JString "IntentRequest")] in
  let target :=
    {| IntentRequest_CommonRequest := zeroCommonRequest;
       IntentRequest_Intent := {| Intent_Name := ""; Intent_Slots := ∅;
                                  Intent_ConfirmationStatus := "" |};
       IntentRequest_DialogState := "" |} in
  fits (variantShape IntentRequest) payload = true
  /\ exists obj',
       getTypedRequest (sampleEnvelope payload) target = (sampleEnvelope payload, obj', None)
       /\ CommonRequest_Context (getCommon obj') = Nil
       /\ derefContext (sampleEnvelope payload) (CommonRequest_Context (getCommon obj')) = None
       /\ derefContext (sampleEnvelope payload) (CommonRequest_Context (getCommon obj'))
          <> Some (Envelope_Context (sampleEnvelope payload))
       /\ derefSession (sampleEnvelope payload) (CommonRequest_Session (getCommon obj'))
          = Some (Envelope_Session (sampleEnvelope payload)).
Proof.
  intros payload target. split; [vm_compute; reflexivity|].
  exists {| IntentRequest_CommonRequest :=
              {| CommonRequest_Type := "IntentRequest"; CommonRequest_RequestID := "r1";
                 CommonRequest_Timestamp := "2018-01-01T00:00:01Z";
                 CommonRequest_Locale := "en-US";
                 CommonRequest_Session := Env; CommonRequest_Context := Nil |};
            IntentRequest_Intent := {| Intent_Name := "PlayIntent"; Intent_Slots := ∅;
                                       Intent_ConfirmationStatus := "" |};
            IntentRequest_DialogState := "STARTED" |}.
  split; [vm_compute; reflexivity|].
  split; [reflexivity|]. split; [reflexivity|]. split; [discriminate | reflexivity].
Qed.

(** The two pointers are set before the payload is decoded, so a payload
    without a member named Session or Context (names compared as the
    decoder compares them, without regard to case) leaves both in place and
    the envelope unchanged, whether or not it decodes. *)
Lemma getTypedRequest_injects_first {T : Type} `{VariantLaws T}
    (env : RequestEnvelope) (obj : T) :
  getTypedRequest env obj
  = Unmarshal (Marshal (Envelope_Request env)) env
              (provider_setSession (provider_setContext obj Env) Env)
  /\ (wireOnly (Envelope_Request env) = true ->
      exists obj' err,
        getTypedRequest env obj = (env, obj', err)
        /\ CommonRequest_Session (getCommon obj') = Env
        /\ CommonRequest_Context (getCommon obj') = Env).
Proof. split; [reflexivity | apply getTypedRequest_wireOnly]. Qed.

(** C5 (the code where the claim fails): the pointers are injected before
    the payload is decoded, not after, so they are not always present in
    the final object: a payload that carries a null member named Session
    decodes without error and leaves the target's Session nil. *)
Theorem getTypedRequest_wire_session_wins :
  getTypedRequest
    (sampleEnvelope (JObject [("Session", JNull); ("type", JString "LaunchRequest")]))
    zeroLaunchRequest
  = (sampleEnvelope (JObject [("Session", JNull); ("type", JString "LaunchRequest")]),
     {| LaunchRequest_CommonRequest :=
          {| CommonRequest_Type := "LaunchRequest"; CommonRequest_RequestID := "";
             CommonRequest_Timestamp := ""; CommonRequest_Locale := "";
             CommonRequest_Session := Nil; CommonRequest_Context := Env |} |},
     None).
Proof. reflexivity. Qed.

(** A member named session that holds an object is decoded through the
    injected pointer into the envelope's own Session. *)
Example getTypedRequest_wire_session_overwrites :
  let '(env', obj', err) :=
    getTypedRequest
      (sampleEnvelope (JObject [("session", JObject [("sessionId", JString "other")])]))
      zeroLaunchRequest in
  Session_SessionID (Envelope_Session env') = "other"
  /\ CommonRequest_Session (getCommon obj') = Env /\ err = None.
Proof. vm_compute. auto. Qed.

(** *** verifyTimestamp *)

Section VerifyTimestamp.
Local Open Scope Z_scope.

(** The rational the float stands for. *)
Lemma Seconds_exact (d : Duration) : (Seconds d == d # 1000000000)%Q.
Proof.
  unfold Seconds, Second.
  pose proof (Z.quot_rem' d 1000000000) as Hd.
  set (q := Z.quot d 1000000000) in *. set (r := Z.rem d 1000000000) in *.
  unfold Qeq, Qplus, Qdiv, Qmult, Qinv, inject_Z. cbn. lia.
Qed.

Lemma Seconds_lt_30 (d : Duration) :
  Qltb (Seconds d) (Seconds (30 * Second)) = (d <? 30 * Second).
Proof.
  unfold Qltb. apply eq_true_iff_eq. rewrite negb_true_iff, Z.ltb_lt.
  rewrite <- not_true_iff_false, Qle_bool_iff, !Seconds_exact.
  unfold Qle, Second. cbn. lia.
Qed.

(** Holding the difference at the ends of int64 does not move it across
    30 seconds. *)
Lemma Since_lt_30 (now t : Time) :
  (Since now t <? 30 * Second) = (now - t <? 30 * Second).
Proof.
  unfold Since, Sub, minInt64, maxInt64, Second.
  change (2 ^ 63) with 9223372036854775808.
  generalize (now - t) as d; intros d.
  destruct (Z.ltb_spec d (Z.opp 9223372036854775808));
    [| destruct (Z.ltb_spec (9223372036854775808 - 1) d)];
    repeat match goal with |- context [?a <? ?b] => destruct (Z.ltb_spec a b) end;
    try reflexivity; exfalso; lia.
Qed.

Lemma verifyTimestamp_parsed (now : Time) (env : RequestEnvelope) m ts t :
  Envelope_Request env = JObject m -> mapIndex m "timestamp" = JString ts ->
  Parse ts = Some t ->
  verifyTimestamp now env = Returns (now - t <? 30 * Second, []).
Proof.
  intros Hm Hts Hp. unfold verifyTimestamp. rewrite Hm, Hts, Hp.
  rewrite Seconds_lt_30, Since_lt_30. destruct (now - t <? 30 * Second); reflexivity.
Qed.

Lemma verifyTimestamp_unparsed (now : Time) (env : RequestEnvelope) m ts :
  Envelope_Request env = JObject m -> mapIndex m "timestamp" = JString ts ->
  Parse ts = None ->
  verifyTimestamp now env
  = Returns (now <? 30 * Second, [ErrorParsingTimestamp ts (JObject m)]).
Proof.
  intros Hm Hts Hp. unfold verifyTimestamp. rewrite Hm, Hts, Hp.
  rewrite Seconds_lt_30, Since_lt_30, Z.sub_0_r. destruct (now <? 30 * Second); reflexivity.
Qed.
End VerifyTimestamp.

(** C2 (the code at the inputs the claim names): verifyTimestamp does not
    return false there, it panics: when the Request payload is not a JSON
    object, when it has no timestamp member, and when the timestamp is not
    a string. *)
Theorem verifyTimestamp_panics (now : Time) (version : string) (session : Session)
    (context : Context) :
  let envelope request :=
    {| Envelope_Version := version; Envelope_Session := session;
       Envelope_Request := request; Envelope_Context := context |} in
  verifyTimestamp now (envelope (JString "LaunchRequest")) = Panics
  /\ verifyTimestamp now (envelope JNull) = Panics
  /\ verifyTimestamp now (envelope (JObject [("type", JString "LaunchRequest")])) = Panics
  /\ verifyTimestamp now (envelope (JObject [("timestamp", JNumber (Int 1514764801))])) = Panics.
Proof. repeat split. Qed.

(** The layout on a timestamp of the platform: fourteen digits that name a
    day of the calendar and a time of day parse as that instant. *)
Lemma Parse_timestampOf (y1 y2 y3 y4 m1 m2 d1 d2 h1 h2 n1 n2 s1 s2 : ascii) :
  forallb isDigit [y1; y2; y3; y4; m1; m2; d1; d2; h1; h2; n1; n2; s1; s2] = true ->
  (1 <= twoDigits m1 m2 <= 12)%Z ->
  (1 <= twoDigits d1 d2 <= daysIn (twoDigits m1 m2) (fourDigits y1 y2 y3 y4))%Z ->
  (twoDigits h1 h2 < 24)%Z -> (twoDigits n1 n2 < 60)%Z -> (twoDigits s1 s2 < 60)%Z ->
  Parse (timestampOf y1 y2 y3 y4 m1 m2 d1 d2 h1 h2 n1 n2 s1 s2)
  = Some (Date (fourDigits y1 y2 y3 y4) (twoDigits m1 m2) (twoDigits d1 d2)
               (twoDigits h1 h2) (twoDigits n1 n2) (twoDigits s1 s2) 0).
Proof.
  intros Hd [Hm1 Hm2] [Hd1 Hd2] Hh Hn Hs. unfold twoDigits, fourDigits in *.
  cbn [forallb] in Hd.
  repeat match type of Hd with
         | _ && _ = true => let H := fresh "Hdig" in apply andb_prop in Hd as [H Hd]
         end.
  apply Z.leb_le in Hm1, Hm2, Hd1, Hd2. apply Z.ltb_lt in Hh, Hn, Hs.
  unfold Parse, timestampOf, getyear, getnum.
  repeat first [ progress cbn -[isDigit digit Date daysIn Z.mul Z.add Z.leb Z.ltb]
               | match goal with
                 | Hc : isDigit ?c = true |- context [isDigit ?c] => rewrite Hc
                 end
               | rewrite Hm1 | rewrite Hm2 | rewrite Hd1 | rewrite Hd2
               | rewrite Hh | rewrite Hn | rewrite Hs ].
  reflexivity.
Qed.

(** C4: for every envelope whose Request payload carries a string
    timestamp, verifyTimestamp returns. A timestamp of the form
    YYYY-MM-DDTHH:MM:SSZ that names a day of the calendar and a time of day
    parses as that instant in UTC, and the result is true exactly when now
    minus that instant is less than 30 seconds: true 29 seconds later,
    false 31 seconds later. The same holds of whatever else the layout
    2006-01-02T15:04:05Z accepts. A timestamp that does not parse yields
    false (the clock reading at least 30 seconds after the zero time). *)
Theorem verifyTimestamp_fresh (now : Time) (env : RequestEnvelope)
    (m : list (string * JValue)) (ts : string) :
  Envelope_Request env = JObject m ->
  mapIndex m "timestamp" = JString ts ->
  (exists b log, verifyTimestamp now env = Returns (b, log))
  /\ (forall y1 y2 y3 y4 m1 m2 d1 d2 h1 h2 n1 n2 s1 s2 : ascii,
        ts = timestampOf y1 y2 y3 y4 m1 m2 d1 d2 h1 h2 n1 n2 s1 s2 ->
        forallb isDigit [y1; y2; y3; y4; m1; m2; d1; d2; h1; h2; n1; n2; s1; s2] = true ->
        (1 <= twoDigits m1 m2 <= 12)%Z ->
        (1 <= twoDigits d1 d2 <= daysIn (twoDigits m1 m2) (fourDigits y1 y2 y3 y4))%Z ->
        (twoDigits h1 h2 < 24)%Z -> (twoDigits n1 n2 < 60)%Z -> (twoDigits s1 s2 < 60)%Z ->
        let t := Date (fourDigits y1 y2 y3 y4) (twoDigits m1 m2) (twoDigits d1 d2)
                      (twoDigits h1 h2) (twoDigits n1 n2) (twoDigits s1 s2) 0 in
        Parse ts = Some t
        /\ verifyTimestamp now env = Returns ((now - t <? 30 * Second)%Z, [])
        /\ (now = (t + 29 * Second)%Z -> verifyTimestamp now env = Returns (true, []))
        /\ (now = (t + 31 * Second)%Z -> verifyTimestamp now env = Returns (false, [])))
  /\ (forall t, Parse ts = Some t ->
        exists b, verifyTimestamp now env = Returns (b, [])
                  /\ (b = true <-> (now - t < 30 * Second)%Z))
  /\ (forall t, Parse ts = Some t -> now = (t + 29 * Second)%Z ->
        verifyTimestamp now env = Returns (true, []))
  /\ (forall t, Parse ts = Some t -> now = (t + 31 * Second)%Z ->
        verifyTimestamp now env = Returns (false, []))
  /\ (Parse ts = None -> (30 * Second <= now)%Z ->
        verifyTimestamp now env = Returns (false, [ErrorParsingTimestamp ts (JObject m)])).
Proof.
  intros Hm Hts.
  assert (H29 : forall t, Parse ts = Some t -> now = (t + 29 * Second)%Z ->
                          verifyTimestamp now env = Returns (true, [])).
  { intros t Hp ->. rewrite (verifyTimestamp_parsed _ env m ts t Hm Hts Hp).
    do 2 f_equal. apply Z.ltb_lt. unfold Second. lia. }
  assert (H31 : forall t, Parse ts = Some t -> now = (t + 31 * Second)%Z ->
                          verifyTimestamp now env = Returns (false, [])).
  { intros t Hp ->. rewrite (verifyTimestamp_parsed _ env m ts t Hm Hts Hp).
    do 2 f_equal. apply Z.ltb_ge. unfold Second. lia. }
  split; [|split; [|split; [|split; [|split]]]].
  - destruct (Parse ts) as [t|] eqn:Hp.
    + rewrite (verifyTimestamp_parsed now env m ts t Hm Hts Hp). by eexists _, _.
    + rewrite (verifyTimestamp_unparsed now env m ts Hm Hts Hp). by eexists _, _.
  - intros y1 y2 y3 y4 m1 m2 d1 d2 h1 h2 n1 n2 s1 s2 Hform Hdig Hmonth Hday Hh Hn Hs t.
    assert (Hp : Parse ts = Some t)
      by (rewrite Hform; by apply Parse_timestampOf).
    split; [exact Hp|]. split; [exact (verifyTimestamp_parsed now env m ts t Hm Hts Hp)|].
    split; [exact (H29 t Hp) | exact (H31 t Hp)].
  - intros t Hp. exists (now - t <? 30 * Second)%Z.
    split; [exact (verifyTimestamp_parsed now env m ts t Hm Hts Hp) | apply Z.ltb_lt].
  - exact H29.
  - exact H31.
  - intros Hp Hnow. rewrite (verifyTimestamp_unparsed now env m ts Hm Hts Hp).
    do 2 f_equal. by apply Z.ltb_ge.
Qed.

(** At 2018-01-01T00:00:01Z, which is 63650361601 seconds after the zero
    time (1514764801 seconds after the Unix epoch): fresh 29 seconds
    later, stale 31 seconds later; and at a timestamp that does not
    parse. *)
Lemma verifyTimestamp_fresh_witness :
  let env ts := sampleEnvelope (JObject [("timestamp", JString ts); ("type", JString "LaunchRequest")]) in
  let ts := "2018-01-01T00:00:01Z" in
  ts = timestampOf "2" "0" "1" "8" "0" "1" "0" "1" "0" "0" "0" "0" "0" "1"
  /\ Parse ts = Some 63650361601000000000%Z
  /\ verifyTimestamp 63650361630000000000%Z (env ts) = Returns (true, [])
  /\ verifyTimestamp 63650361632000000000%Z (env ts) = Returns (false, [])
  /\ Parse "yesterday" = None
  /\ verifyTimestamp 63650361630000000000%Z (env "yesterday")
     = Returns (false, [ErrorParsingTimestamp "yesterday"
                          (JObject [("timestamp", JString "yesterday");
                                    ("type", JString "LaunchRequest")])]).
Proof.
  intros env ts.
  assert (Hmonth : (1 <= twoDigits "0" "1" <= 12)%Z) by (vm_compute; split; discriminate).
  assert (Hday : (1 <= twoDigits "0" "1"
                  <= daysIn (twoDigits "0" "1") (fourDigits "2" "0" "1" "8"))%Z)
    by (vm_compute; split; discriminate).
  assert (Hnow : (30 * Second <= 63650361630000000000)%Z) by (vm_compute; discriminate).
  pose proof (fun now =>
                proj1 (proj2 (verifyTimestamp_fresh now (env ts) _ ts eq_refl eq_refl))
                  "2"%char "0"%char "1"%char "8"%char "0"%char "1"%char "0"%char "1"%char
                  "0"%char "0"%char "0"%char "0"%char "0"%char "1"%char
                  eq_refl eq_refl Hmonth Hday eq_refl eq_refl eq_refl) as Hfresh.
  split; [reflexivity|].
  split; [exact (proj1 (Hfresh 0%Z))|].
  split; [exact (proj1 (proj2 (proj2 (Hfresh 63650361630000000000%Z))) eq_refl)|].
  split; [exact (proj2 (proj2 (proj2 (Hfresh 63650361632000000000%Z))) eq_refl)|].
  split; [reflexivity|].
  exact (proj2 (proj2 (proj2 (proj2 (proj2
           (verifyTimestamp_fresh 63650361630000000000%Z (env "yesterday") _ "yesterday"
              eq_refl eq_refl))))) eq_refl Hnow).
Defined.

(** The layout read on a timestamp of the platform, and on forms it does
    not take. *)
Example Parse_platform_timestamp :
  Parse "2018-01-01T00:00:01Z" = Some (Date 2018 1 1 0 0 1 0).
Proof. reflexivity. Qed.

Example Parse_rejects :
  Parse "2018-01-01T00:00:01+00:00" = None /\ Parse "2018-02-29T00:00:01Z" = None
  /\ Parse "yesterday" = None.
Proof. repeat split. Qed.

Example verifyTimestamp_29_31_unparseable :
  let env ts := sampleEnvelope (JObject [("timestamp", JString ts)]) in
  verifyTimestamp (Date 2018 1 1 0 0 30 0) (env "2018-01-01T00:00:01Z") = Returns (true, [])
  /\ verifyTimestamp (Date 2018 1 1 0 0 32 0) (env "2018-01-01T00:00:01Z") = Returns (false, [])
  /\ verifyTimestamp (Date 2018 1 1 0 0 32 0) (env "yesterday")
     = Returns (false, [ErrorParsingTimestamp "yesterday"
                          (JObject [("timestamp", JString "yesterday")])]).
Proof. repeat split. Qed.

(** C10: for every envelope whose request timestamp parses and lies in the
    future, however far, verifyTimestamp returns true: only the age of a
    timestamp is bounded. *)
Theorem verifyTimestamp_future (now : Time) (env : RequestEnvelope)
    (m : list (string * JValue)) (ts : string) (t : Time) :
  Envelope_Request env = JObject m ->
  mapIndex m "timestamp" = JString ts ->
  Parse ts = Some t ->
  (now < t)%Z ->
  verifyTimestamp now env = Returns (true, []).
Proof.
  intros Hm Hts Hp Hlt. rewrite (verifyTimestamp_parsed now env m ts t Hm Hts Hp).
  do 2 f_equal. apply Z.ltb_lt. unfold Second. lia.
Qed.

Lemma verifyTimestamp_future_witness :
  let m := [("timestamp", JString "9999-12-31T23:59:59Z")] in
  Envelope_Request (sampleEnvelope (JObject m)) = JObject m
  /\ mapIndex m "timestamp" = JString "9999-12-31T23:59:59Z"
  /\ Parse "9999-12-31T23:59:59Z" = Some (Date 9999 12 31 23 59 59 0)
  /\ (Date 2018 1 1 0 0 30 0 < Date 9999 12 31 23 59 59 0)%Z
  /\ verifyTimestamp (Date 2018 1 1 0 0 30 0) (sampleEnvelope (JObject m)) = Returns (true, []).
Proof.
  intros m. split; [reflexivity|]. split; [reflexivity|]. split; [reflexivity|].
  split; [reflexivity|].
  apply (verifyTimestamp_future (Date 2018 1 1 0 0 30 0) (sampleEnvelope (JObject m)) m
           "9999-12-31T23:59:59Z" (Date 9999 12 31 23 59 59 0)); reflexivity.
Defined.

End RequestFacts.

(* ===================================================================== *)
(** ** Facts about audioplayer.go *)
(* ===================================================================== *)

Module AudioFacts.
Import Json Audio JsonFacts.

(** *** The store *)

Lemma lookup_alloc {A} (h : list A) (x : A) : (h ++ [x]) !! length h = Some x.
Proof. rewrite lookup_app_r by lia. by rewrite Nat.sub_diag. Qed.

Lemma lookup_update {A} (h : list A) (l : nat) (x y : A) :
  h !! l = Some x -> <[l := y]> h !! l = Some y.
Proof. intros Hl. apply list_lookup_insert_eq. by eapply lookup_lt_Some. Qed.

(** *** The builders *)

(** C6: for every clearBehavior, AddAudioPlayerClearQueueDirective allocates
    a directive with Type AudioPlayer.ClearQueue and the clearBehavior it
    was given, appends it to the response and returns it; it logs one line
    exactly when clearBehavior is neither CLEAR_ENQUEUED nor CLEAR_ALL, and
    nothing else of the store changes. It is a total function: it never
    fails. *)
Theorem AddAudioPlayerClearQueueDirective_advisory (st : Store) (r : Response)
    (clearBehavior : string) :
  exists st' r' l,
    AddAudioPlayerClearQueueDirective st r clearBehavior = (st', r', l)
    /\ Response_Directives r' = Response_Directives r ++ [ClearQueueDirective l]
    /\ clears st' = clears st ++ [{| ClearQueue_Type := "AudioPlayer.ClearQueue";
                                    ClearQueue_ClearBehavior := clearBehavior |}]
    /\ clears st' !! l = Some {| ClearQueue_Type := "AudioPlayer.ClearQueue";
                                 ClearQueue_ClearBehavior := clearBehavior |}
    /\ logged st' = logged st ++
         (if decide (clearBehavior = "CLEAR_ENQUEUED" \/ clearBehavior = "CLEAR_ALL")
          then [] else [invalidClearBehaviorStr])
    /\ plays st' = plays st /\ stops st' = stops st
    /\ metadatas st' = metadatas st /\ images st' = images st.
Proof.
  unfold AddAudioPlayerClearQueueDirective.
  destruct (String.eqb_spec clearBehavior "CLEAR_ENQUEUED") as [He|He];
    destruct (String.eqb_spec clearBehavior "CLEAR_ALL") as [Ha|Ha]; cbn [negb andb];
    eexists _, _, _; (split; [reflexivity|]); cbn;
    repeat split; try apply lookup_alloc;
    case_decide as Hd; try reflexivity; try (by rewrite app_nil_r); tauto.
Qed.

Example ClearQueue_CLEAR_ALL_BOGUS (st : Store) (r : Response) :
  logged (fst (fst (AddAudioPlayerClearQueueDirective st r "CLEAR_ALL"))) = logged st
  /\ logged (fst (fst (AddAudioPlayerClearQueueDirective st r "BOGUS")))
     = logged st ++ [invalidClearBehaviorStr]
  /\ clears (fst (fst (AddAudioPlayerClearQueueDirective st r "BOGUS")))
     = clears st ++ [{| ClearQueue_Type := "AudioPlayer.ClearQueue";
                        ClearQueue_ClearBehavior := "BOGUS" |}].
Proof. repeat split. Qed.

(** The three builders one after the other. *)
Lemma three_builders (st : Store) (r : Response) (playBehavior clearBehavior : string) :
  exists st1 r1 p st2 r2 c st3 r3 s,
    AddAudioPlayerPlayDirective st r playBehavior = (st1, r1, p)
    /\ AddAudioPlayerClearQueueDirective st1 r1 clearBehavior = (st2, r2, c)
    /\ AddAudioPlayerStopDirective st2 r2 = (st3, r3, s)
    /\ Response_Directives r3
       = Response_Directives r ++ [PlayDirective p; ClearQueueDirective c; StopDirective s]
    /\ plays st3 = plays st ++ [{| Play_Type := "AudioPlayer.Play";
                                  Play_PlayBehavior := playBehavior;
                                  Play_AudioItem := zeroAudioItem |}]
    /\ clears st3 = clears st ++ [{| ClearQueue_Type := "AudioPlayer.ClearQueue";
                                    ClearQueue_ClearBehavior := clearBehavior |}]
    /\ stops st3 = stops st ++ [{| Stop_Type := "AudioPlayer.Stop" |}]
    /\ p = length (plays st) /\ c = length (clears st) /\ s = length (stops st).
Proof.
  unfold AddAudioPlayerClearQueueDirective, AddAudioPlayerPlayDirective,
    AddAudioPlayerStopDirective.
  destruct (negb (String.eqb clearBehavior "CLEAR_ENQUEUED")
            && negb (String.eqb clearBehavior "CLEAR_ALL"));
    eexists _, _, _, _, _, _, _, _, _; repeat (split; [reflexivity|]); cbn;
    rewrite <- ?app_assoc; repeat split.
Qed.

(** C7: for every response, calling AddAudioPlayerPlayDirective, then
    AddAudioPlayerClearQueueDirective, then AddAudioPlayerStopDirective
    leaves the directive sequence as it was, followed by exactly a Play
    (Type AudioPlayer.Play), a ClearQueue (Type AudioPlayer.ClearQueue) and
    a Stop (Type AudioPlayer.Stop) directive, in this order; the directives
    that were there keep their types. *)
Theorem Play_ClearQueue_Stop_order (st : Store) (r : Response)
    (playBehavior clearBehavior : string) :
  exists st1 r1 p st2 r2 c st3 r3 s,
    AddAudioPlayerPlayDirective st r playBehavior = (st1, r1, p)
    /\ AddAudioPlayerClearQueueDirective st1 r1 clearBehavior = (st2, r2, c)
    /\ AddAudioPlayerStopDirective st2 r2 = (st3, r3, s)
    /\ Response_Directives r3
       = Response_Directives r ++ [PlayDirective p; ClearQueueDirective c; StopDirective s]
    /\ directiveType st3 (PlayDirective p) = Some "AudioPlayer.Play"
    /\ directiveType st3 (ClearQueueDirective c) = Some "AudioPlayer.ClearQueue"
    /\ directiveType st3 (StopDirective s) = Some "AudioPlayer.Stop"
    /\ (forall d ty, directiveType st d = Some ty -> directiveType st3 d = Some ty).
Proof.
  destruct (three_builders st r playBehavior clearBehavior)
    as (st1 & r1 & p & st2 & r2 & c & st3 & r3 & s & H1 & H2 & H3 & Hr & Hp & Hc & Hs & -> & -> & ->).
  exists st1, r1, (length (plays st)), st2, r2, (length (clears st)), st3, r3, (length (stops st)).
  repeat (split; [assumption|]). unfold directiveType. rewrite Hp, Hc, Hs.
  rewrite !lookup_alloc. repeat split.
  intros [l|l|l] ty Hl; destruct (_ !! l) as [x|] eqn:E in Hl; try discriminate;
    erewrite lookup_app_l_Some by exact E; exact Hl.
Qed.

(** C9: for every Play directive, SetAudioItemMetadata(title, subtitle)
    followed by SetArtImage(contentDescription) on the metadata it returned
    leaves the directive's audioItem.metadata with that title and subtitle
    and with an art image of that content description. *)
Theorem metadata_chaining (st : Store) (l : nat) (dir : AudioPlayerPlayDirective)
    (title subtitle contentDescription : string) :
  plays st !! l = Some dir ->
  exists st1 m st2 a meta img,
    SetAudioItemMetadata st (Some l) title subtitle = Returns (st1, Some m)
    /\ SetArtImage st1 (Some m) contentDescription = Returns (st2, Some a)
    /\ playMetadata st2 l = Some meta
    /\ Metadata_Title meta = title
    /\ Metadata_Subtitle meta = subtitle
    /\ metadataArt st2 meta = Some img
    /\ Image_ContentDescription img = contentDescription.
Proof.
  intros Hl. unfold SetAudioItemMetadata. rewrite Hl.
  set (meta0 := {| Metadata_Title := title; Metadata_Subtitle := subtitle;
                   Metadata_Art := None; Metadata_BackgroundImage := None |}).
  set (m := length (metadatas st)).
  set (st1 := withPlays _ _).
  assert (Hm : metadatas st1 !! m = Some meta0) by apply lookup_alloc.
  assert (Hp : plays st1 !! l = Some (withMetadata (Some m) dir))
    by apply (lookup_update _ _ _ _ Hl).
  exists st1, m. unfold SetArtImage. rewrite Hm.
  eexists _, _, _, _. split; [reflexivity|]. split; [reflexivity|].
  unfold playMetadata, metadataArt. cbn [plays withMetadatas withImages metadatas images].
  rewrite Hp. cbn [mbind option_bind withMetadata AudioItem_Metadata Play_AudioItem].
  rewrite (lookup_update _ _ _ _ Hm). cbn.
  split; [reflexivity|]. cbn. rewrite lookup_alloc. repeat split; reflexivity.
Qed.

Lemma metadata_chaining_witness :
  plays (fst (fst (AddAudioPlayerPlayDirective emptyStore emptyResponse "REPLACE_ALL"))) !! 0%nat
  = Some {| Play_Type := "AudioPlayer.Play"; Play_PlayBehavior := "REPLACE_ALL";
            Play_AudioItem := zeroAudioItem |}
  /\ exists st1 m st2 a meta img,
       SetAudioItemMetadata
         (fst (fst (AddAudioPlayerPlayDirective emptyStore emptyResponse "REPLACE_ALL")))
         (Some 0%nat) "T" "S" = Returns (st1, Some m)
       /\ SetArtImage st1 (Some m) "desc" = Returns (st2, Some a)
       /\ playMetadata st2 0 = Some meta
       /\ Metadata_Title meta = "T"
       /\ Metadata_Subtitle meta = "S"
       /\ metadataArt st2 meta = Some img
       /\ Image_ContentDescription img = "desc".
Proof.
  split; [reflexivity|].
  eapply (metadata_chaining _ 0%nat). reflexivity.
Defined.

(** *** The Play directive on the wire *)

Lemma decStream_marshalled (s : StreamStruct) :
  (minInt64 <= Stream_OffsetInMilliseconds s <= maxInt64)%Z ->
  decStruct Stream_type Stream_fields (MarshalStream s) zeroStream = (coerced s, None).
Proof.
  intros [Hlo Hhi]. destruct s as [url token prev off]. cbn in Hlo, Hhi.
  unfold MarshalStream, coerced.
  cbn [Stream_URL Stream_Token Stream_ExpectedPreviousToken Stream_OffsetInMilliseconds].
  assert (Hr : ((minInt64 <=? off) && (off <=? maxInt64))%Z = true).
  { apply andb_true_intro; split; apply Z.leb_le; assumption. }
  destruct (omitempty_cases "expectedPreviousToken" prev) as [[-> ->] | ->];
    cbn -[minInt64 maxInt64 Z.leb]; unfold lift, decInt; rewrite Hr; reflexivity.
Qed.

Lemma MarshalImagePtr_cases (st : Store) (name : string) (p : ptr) l :
  MarshalImagePtr st name p = Some l ->
  l = [] \/ exists i, l = [(name, JObject [("contentDescription", marshalString i)])].
Proof.
  unfold MarshalImagePtr. destruct p as [a|]; [|intros [= <-]; by left].
  destruct (images st !! a) as [i|]; [|discriminate]. cbn. intros [= <-]. right; eauto.
Qed.

Ltac decode :=
  repeat progress (cbn -[toValidUTF8]; try unfold decImagePtr; try unfold decPtr; try unfold lift;
                   rewrite ?lookup_alloc).

(** Metadata written by MarshalMetadata decodes without error. *)
Lemma decMetadataPtr_marshalled (st : Store) (m : AudioItemMetadata) (j : JValue) (s : Store) :
  MarshalMetadata st m = Some j ->
  exists s' p, decMetadataPtr j (s, None) = ((s', p), None).
Proof.
  unfold MarshalMetadata.
  destruct (MarshalImagePtr st "art" _) as [art|] eqn:Ea; [|discriminate].
  destruct (MarshalImagePtr st "backgroundImage" _) as [bg|] eqn:Eb; [|discriminate].
  cbn [mbind option_bind]. intros [= <-].
  apply MarshalImagePtr_cases in Ea as [-> | [ia ->]];
    apply MarshalImagePtr_cases in Eb as [-> | [ib ->]];
    destruct (omitempty_cases "title" (Metadata_Title m)) as [[_ ->] | ->];
    destruct (omitempty_cases "subtitle" (Metadata_Subtitle m)) as [[_ ->] | ->];
    unfold decMetadataPtr, decImagePtr, decPtr, marshalString; decode; eauto.
Qed.

Lemma decAudioItem_marshalled (st : Store) (a : AudioItemStruct) (metadata : list (string * JValue))
    (st' : Store) :
  (minInt64 <= Stream_OffsetInMilliseconds (AudioItem_Stream a) <= maxInt64)%Z ->
  (metadata = [] \/ exists m j, metadata = [("metadata", j)] /\ MarshalMetadata st m = Some j) ->
  exists s' p,
    decStruct AudioItem_type AudioItem_fields
              (JObject ([("stream", MarshalStream (AudioItem_Stream a))] ++ metadata))
              (st', zeroAudioItem)
    = ((s', {| AudioItem_Stream := coerced (AudioItem_Stream a); AudioItem_Metadata := p |}), None).
Proof.
  intros Hr [-> | (m & j & -> & Hj)].
  - cbn -[MarshalStream decMetadataPtr toValidUTF8]. unfold lift.
    cbn [fst snd AudioItem_Stream zeroAudioItem].
    rewrite (decStream_marshalled _ Hr). cbn. eauto.
  - destruct (decMetadataPtr_marshalled st m j st' Hj) as (s' & p & Hd).
    cbn -[MarshalStream decMetadataPtr toValidUTF8]. unfold lift.
    cbn [fst snd AudioItem_Stream zeroAudioItem].
    rewrite (decStream_marshalled _ Hr). cbn -[decMetadataPtr]. rewrite Hd. cbn. eauto.
Qed.

(** A Play directive written by MarshalPlay decodes without error, and its
    stream reads as the stream written, strings coerced to valid UTF-8. *)
Lemma UnmarshalPlay_MarshalPlay (st : Store) (d : AudioPlayerPlayDirective) (data : JValue)
    (st' : Store) :
  (minInt64 <= Stream_OffsetInMilliseconds (AudioItem_Stream (Play_AudioItem d)) <= maxInt64)%Z ->
  MarshalPlay st d = Some data ->
  exists st2 d2,
    UnmarshalPlay data st' = (st2, d2, None)
    /\ AudioItem_Stream (Play_AudioItem d2) = coerced (AudioItem_Stream (Play_AudioItem d)).
Proof.
  intros Hr. unfold MarshalPlay.
  destruct (match AudioItem_Metadata (Play_AudioItem d) with
            | Some l => _
            | None => _
            end) as [metadata|] eqn:Em; [|discriminate].
  cbn [mbind option_bind]. intros [= <-].
  assert (Hm : metadata = []
               \/ exists m j, metadata = [("metadata", j)] /\ MarshalMetadata st m = Some j).
  { destruct (AudioItem_Metadata (Play_AudioItem d)) as [l|]; [|injection Em as <-; by left].
    destruct (metadatas st !! l) as [m|]; [|discriminate]. cbn in Em.
    destruct (MarshalMetadata st m) as [j|] eqn:Ej; [|discriminate]. cbn in Em.
    injection Em as <-. right; eauto. }
  destruct (decAudioItem_marshalled st (Play_AudioItem d) metadata st' Hr Hm) as (s' & p & Hd).
  cbn [app] in Hd.
  unfold UnmarshalPlay, marshalString. unfold decStruct at 1.
  cbn -[MarshalStream decStruct toValidUTF8]. unfold lift.
  cbn [fst snd Play_AudioItem zeroPlayDirective]. rewrite Hd. cbn. eauto.
Qed.

(** Setting the stream leaves the directive serializable. *)
Lemma MarshalPlay_withStream (st : Store) (l : nat) (dir : AudioPlayerPlayDirective)
    (stream : StreamStruct) :
  is_Some (MarshalPlay st dir) ->
  is_Some (MarshalPlay (withPlays (<[l := withStream stream dir]> (plays st)) st)
                       (withStream stream dir)).
Proof.
  intros [data Hd]. unfold MarshalPlay in *.
  cbn [withStream Play_AudioItem AudioItem_Metadata].
  change (metadatas (withPlays (<[l := withStream stream dir]> (plays st)) st))
    with (metadatas st).
  destruct (AudioItem_Metadata (Play_AudioItem dir)) as [ml|]; [|by eexists].
  destruct (metadatas st !! ml) as [m|]; [|discriminate]. cbn in Hd |- *.
  change (MarshalMetadata (withPlays (<[l := withStream stream dir]> (plays st)) st) m)
    with (MarshalMetadata st m).
  destruct (MarshalMetadata st m) as [j|]; [|discriminate]. by eexists.
Qed.

(** C8 (as amended): for every url, token and expectedPreviousToken that
    are valid UTF-8 and every offset (a Go int), a Play directive whose
    stream was set by SetAudioItemStream, serialized to JSON and parsed
    again into a new Play directive, decodes without error and has the same
    url, token, expectedPreviousToken and offsetInMilliseconds in
    audioItem.stream. The directive is one of the store whose metadata and
    image pointers resolve, so that it can be serialized; the store the
    new directive is parsed into is any store. *)
Theorem stream_round_trip (st st' : Store) (l : nat) (dir : AudioPlayerPlayDirective)
    (url token expectedPreviousToken : string) (offsetInMilliseconds : Z) :
  plays st !! l = Some dir ->
  is_Some (MarshalPlay st dir) ->
  validString url = true ->
  validString token = true ->
  validString expectedPreviousToken = true ->
  (minInt64 <= offsetInMilliseconds <= maxInt64)%Z ->
  exists st1 dir1 data st2 dir2,
    SetAudioItemStream st (Some l) url token expectedPreviousToken offsetInMilliseconds
    = Returns st1
    /\ plays st1 !! l = Some dir1
    /\ MarshalPlay st1 dir1 = Some data
    /\ UnmarshalPlay data st' = (st2, dir2, None)
    /\ AudioItem_Stream (Play_AudioItem dir2)
       = {| Stream_URL := url; Stream_Token := token;
            Stream_ExpectedPreviousToken := expectedPreviousToken;
            Stream_OffsetInMilliseconds := offsetInMilliseconds |}.
Proof.
  intros Hl Hser Hu Ht Hp Hr. unfold SetAudioItemStream. rewrite Hl.
  set (stream := {| Stream_URL := url; Stream_Token := token;
                    Stream_ExpectedPreviousToken := expectedPreviousToken;
                    Stream_OffsetInMilliseconds := offsetInMilliseconds |}).
  destruct (MarshalPlay_withStream st l dir stream Hser) as [data Hdata].
  destruct (UnmarshalPlay_MarshalPlay _ (withStream stream dir) data st' Hr Hdata)
    as (st2 & dir2 & Hu2 & Hs2).
  exists (withPlays (<[l := withStream stream dir]> (plays st)) st), (withStream stream dir),
    data, st2, dir2.
  split; [reflexivity|]. split; [exact (lookup_update _ _ _ _ Hl)|].
  split; [exact Hdata|]. split; [exact Hu2|].
  rewrite Hs2. unfold coerced. cbn. by rewrite !toValidUTF8_valid.
Qed.

Lemma stream_round_trip_witness :
  let st := fst (fst (AddAudioPlayerPlayDirective emptyStore emptyResponse "REPLACE_ALL")) in
  let dir := {| Play_Type := "AudioPlayer.Play"; Play_PlayBehavior := "REPLACE_ALL";
                Play_AudioItem := zeroAudioItem |} in
  plays st !! 0%nat = Some dir
  /\ is_Some (MarshalPlay st dir)
  /\ validString "https://x/a.mp3" = true /\ validString "tok1" = true
  /\ validString "tok0" = true
  /\ (minInt64 <= 1500 <= maxInt64)%Z
  /\ exists st1 dir1 data st2 dir2,
       SetAudioItemStream st (Some 0%nat) "https://x/a.mp3" "tok1" "tok0" 1500 = Returns st1
       /\ plays st1 !! 0%nat = Some dir1
       /\ MarshalPlay st1 dir1 = Some data
       /\ UnmarshalPlay data emptyStore = (st2, dir2, None)
       /\ AudioItem_Stream (Play_AudioItem dir2)
          = {| Stream_URL := "https://x/a.mp3"; Stream_Token := "tok1";
               Stream_ExpectedPreviousToken := "tok0";
               Stream_OffsetInMilliseconds := 1500 |}.
Proof.
  intros st dir.
  assert (H1 : plays st !! 0%nat = Some dir) by reflexivity.
  assert (H2 : is_Some (MarshalPlay st dir)) by (eexists; reflexivity).
  assert (H3 : (minInt64 <= 1500 <= maxInt64)%Z) by (vm_compute; split; discriminate).
  repeat (split; [first [assumption | reflexivity]|]).
  apply (stream_round_trip st emptyStore 0%nat dir "https://x/a.mp3" "tok1" "tok0" 1500 H1 H2
           eq_refl eq_refl eq_refl H3).
Defined.

(** C8 as stated fails: a url that is not valid UTF-8 (the single byte FF)
    comes back as the replacement rune U+FFFD. *)
Lemma stream_round_trip_invalid_utf8 :
  exists st1 dir1 data st2 dir2,
    SetAudioItemStream
      (fst (fst (AddAudioPlayerPlayDirective emptyStore emptyResponse "REPLACE_ALL")))
      (Some 0%nat) (String (byte 255) "") "tok1" "tok0" 1500 = Returns st1
    /\ plays st1 !! 0%nat = Some dir1
    /\ MarshalPlay st1 dir1 = Some data
    /\ UnmarshalPlay data emptyStore = (st2, dir2, None)
    /\ Stream_URL (AudioItem_Stream (Play_AudioItem dir2)) = runeError ""
    /\ Stream_URL (AudioItem_Stream (Play_AudioItem dir2)) <> String (byte 255) "".
Proof.
  eexists _, _, _, _, _.
  split; [reflexivity|]. split; [reflexivity|]. split; [reflexivity|].
  split; [reflexivity|]. split; [reflexivity|]. discriminate.
Qed.

End AudioFacts.

(* ===================================================================== *)
(** ** More about strings on the wire *)
(* ===================================================================== *)

Module JsonMore.
Import Json JsonFacts.

Lemma validString_runeError (s : string) : validString (runeError s) = validString s.
Proof. reflexivity. Qed.

Lemma toValidUTF8_is_valid_bounded (n : nat) :
  forall s, String.length s <= n -> validString (toValidUTF8 s) = true.
Proof.
  induction n as [|n IH]; intros s Hn.
  - destruct s; [reflexivity | cbn in Hn; lia].
  - destruct s as [|b0 r0]; [reflexivity|].
    cbn [String.length] in Hn. cbn [toValidUTF8].
    assert (Hbad : validString (runeError (toValidUTF8 r0)) = true)
      by (rewrite validString_runeError; apply IH; lia).
    destruct (inRange 0 127 b0) eqn:E0.
    { cbn [validString]. rewrite E0. apply IH. lia. }
    destruct r0 as [|b1 r1]; [exact Hbad|]. cbn [String.length] in Hn.
    destruct (two b0 b1) eqn:E1.
    { cbn [validString]. rewrite E0, E1. apply IH. lia. }
    destruct r1 as [|b2 r2]; [exact Hbad|]. cbn [String.length] in Hn.
    destruct (three b0 b1 b2) eqn:E2.
    { cbn [validString]. rewrite E0, E1, E2. apply IH. lia. }
    destruct r2 as [|b3 r3]; [exact Hbad|]. cbn [String.length] in Hn.
    destruct (four b0 b1 b2 b3) eqn:E3; [|exact Hbad].
    cbn [validString]. rewrite E0, E1, E2, E3. apply IH. lia.
Qed.

(** Whatever bytes a string holds, what goes over the wire is valid UTF-8. *)
Lemma toValidUTF8_is_valid (s : string) : validString (toValidUTF8 s) = true.
Proof. apply (toValidUTF8_is_valid_bounded (String.length s)). lia. Qed.

Lemma toValidUTF8_idempotent (s : string) : toValidUTF8 (toValidUTF8 s) = toValidUTF8 s.
Proof. apply toValidUTF8_valid, toValidUTF8_is_valid. Qed.

End JsonMore.

(* ===================================================================== *)
(** ** More about request.go *)
(* ===================================================================== *)

Module RequestMore.
Import Json Request JsonFacts RequestFacts.

(** *** Members and fields *)

(** Members that select no field do not count. *)
Lemma decodeObject_known {T} (fs : list (string * Dec T)) (kvs : list (string * JValue)) (t : T) :
  decodeObject fs (List.filter (selectsField fs) kvs) t = decodeObject fs kvs t.
Proof.
  unfold decodeObject. generalize (t, @None UnmarshalTypeError) as acc.
  induction kvs as [|kv kvs IH]; intros acc; [reflexivity|].
  cbn [List.filter fold_left]. unfold selectsField at 1, step at 3.
  destruct (findField fs (fst kv)) as [d|] eqn:E.
  - cbn [fold_left]. unfold step at 2. rewrite E. apply IH.
  - apply IH.
Qed.



Section Variants.
Context {T : Type} `{VariantLaws T}.

(** X1: getTypedRequest returns an error exactly when some member of the
    payload does not fit the field it selects. *)
Theorem getTypedRequest_error_iff (env : RequestEnvelope) (obj : T) :
  (exists e, snd (getTypedRequest env obj) = Some e)
  <-> fits (variantShape T) (Envelope_Request env) = false.
Proof.
  pose proof (getTypedRequest_error env obj) as [He1 He2]. split.
  - intros [e He]. destruct (fits (variantShape T) (Envelope_Request env)); [|reflexivity].
    rewrite (He2 eq_refl) in He. discriminate.
  - intros Hf. destruct (snd (getTypedRequest env obj)) as [e|]; [by eexists|].
    rewrite (He1 eq_refl) in Hf. discriminate.
Qed.

(** X2: a payload is decoded as its members that select a field: members
    with other names are skipped, they raise no error and change nothing. *)
Theorem getTypedRequest_known_members (env : RequestEnvelope) (obj : T)
    (kvs : list (string * JValue)) :
  Envelope_Request env = JObject kvs ->
  getTypedRequest env obj
  = Unmarshal (JObject (List.filter (selectsField (@variantFields T _)) kvs)) env (injected obj).
Proof.
  intros Hr. unfold getTypedRequest, Marshal, Unmarshal, injected. rewrite Hr.
  cbn [decStruct]. by rewrite decodeObject_known.
Qed.

(** X3: a payload without members leaves the target as it was but for the
    two pointers: null and the empty object without error, any other value
    that is not an object with an error that names its kind and the Go type
    of the target. *)
Theorem getTypedRequest_no_members (env : RequestEnvelope) (obj : T) :
  (forall kv kvs, Envelope_Request env <> JObject (kv :: kvs)) ->
  getTypedRequest env obj
  = (env, injected obj,
     match Envelope_Request env with
     | JNull | JObject _ => None
     | payload => Some {| Value := kindName payload; GoType := typeName |}
     end).
Proof.
  intros Hne. unfold getTypedRequest, Marshal, Unmarshal, injected.
  destruct (Envelope_Request env) as [|b|n|s|l|[|kv kvs]]; try reflexivity.
  by destruct (Hne kv kvs).
Qed.


(** X5: the members of the payload named Session, in any letter case, are
    decoded one after the other through the injected pointer into the
    envelope's own Session, as long as none of them is null: the envelope
    the caller gets back holds the outcome, and the target still points at
    it. *)
Theorem wire_session_into_envelope (env : RequestEnvelope) (obj : T)
    (kvs : list (string * JValue)) :
  ownFieldsAvoid T "SESSION" = true ->
  Envelope_Request env = JObject kvs ->
  Forall (fun v => v <> JNull) (membersNamed "SESSION" kvs) ->
  exists env' obj' err,
    getTypedRequest env obj = (env', obj', err)
    /\ Envelope_Session env'
       = fold_left (fun s v => fst (decSession v s)) (membersNamed "SESSION" kvs)
                   (Envelope_Session env)
    /\ CommonRequest_Session (getCommon obj') = Env.
Proof.
  intros Hown Hr Hnn. unfold getTypedRequest, Marshal, Unmarshal. rewrite Hr.
  fold (injected obj). cbn [decStruct]. unfold decodeObject.
  assert (Hptr : CommonRequest_Session
                   (getCommon (snd (fst (env, injected obj, @None UnmarshalTypeError)))) = Env)
    by (cbn [fst snd]; by rewrite injected_common).
  destruct (session_members kvs Hown _ Hptr Hnn) as [Hp Hs].
  destruct (fold_left (step variantFields) kvs _) as [[env' obj'] err].
  cbn [fst snd] in *. exists env', obj', err. auto.
Qed.

(** X7: getTypedRequest takes the timestamp from a member named timestamp
    in any letter case, while verifyTimestamp looks the member up under
    the exact key and panics on every other spelling. *)
Theorem timestamp_key_spelling (now : Time) (env : RequestEnvelope) (obj : T) (key ts : string) :
  foldName key = "TIMESTAMP" ->
  ownFieldsAvoid T "TIMESTAMP" = true ->
  Envelope_Request env = JObject [(key, JString ts)] ->
  (exists obj',
     getTypedRequest env obj = (env, obj', None)
     /\ getCommon obj' = withTimestamp ts (getCommon (injected obj)))
  /\ (key <> "timestamp" -> verifyTimestamp now env = Panics)
  /\ (key = "timestamp" -> exists b log, verifyTimestamp now env = Returns (b, log)).
Proof.
  intros Hkey Hown Hr. split; [|split].
  - unfold getTypedRequest, Marshal, Unmarshal. rewrite Hr.
    fold (injected obj). cbn [decStruct]. unfold decodeObject. cbn [fold_left].
    unfold step. cbn [fst snd]. rewrite (findField_timestamp key Hkey Hown).
    unfold lift. cbn [fst snd decString saveError].
    eexists. split; [reflexivity|]. by rewrite get_with.
  - intros Hne. unfold verifyTimestamp. rewrite Hr. cbn [mapIndex].
    apply String.eqb_neq in Hne. by rewrite Hne.
  - intros ->. unfold verifyTimestamp. rewrite Hr. cbn [mapIndex]. rewrite String.eqb_refl.
    destruct (Parse ts); destruct (Qltb _ _); by eexists _, _.
Qed.
End Variants.

(** X4: whatever the payload holds, getTypedRequest leaves the Version and
    the Request of the envelope as they are; only its Session and Context
    can change. *)
Theorem getTypedRequest_keeps_request {T : Type} `{Variant T}
    (env : RequestEnvelope) (obj : T) :
  Envelope_Version (fst (fst (getTypedRequest env obj))) = Envelope_Version env
  /\ Envelope_Request (fst (fst (getTypedRequest env obj))) = Envelope_Request env.
Proof.
  set (P := fun st : RequestEnvelope * T =>
              Envelope_Version (fst st) = Envelope_Version env
              /\ Envelope_Request (fst st) = Envelope_Request env).
  assert (Hk : Forall (fun f : string * Dec (RequestEnvelope * T) =>
                         forall j st, P st -> P (fst (snd f j st))) variantFields).
  { unfold variantFields. apply List.Forall_app. split.
    - unfold CommonRequest_fields, embed, objField, field. cbn [List.map fst snd].
      repeat (constructor;
              [ intros j [e t] Hst; unfold lift, decRef, P in *; cbn [fst snd] in *;
                first [ match goal with
                        | |- context [decString j ?x] => destruct (decString j x)
                        end; exact Hst
                      | destruct j; try exact Hst;
                        match goal with
                        | |- context [match ?p with Nil => _ | Env => _ | Own _ => _ end] =>
                            destruct p
                        end;
                        match goal with
                        | |- context [let '(_, _) := ?d ?j ?x in _] => destruct (d j x)
                        end; exact Hst ] | ]).
      constructor.
    - unfold embed. apply List.Forall_forall. intros f Hf.
      apply in_map_iff in Hf as (f0 & <- & _). intros j [e t] Hst.
      unfold lift, P in *. cbn [fst snd] in *. destruct (snd f0 j t). exact Hst. }
  assert (G : forall data, P (fst (decStruct typeName variantFields data (env, injected obj)))).
  { intros [|b|n|s|l|kvs]; try (split; reflexivity).
    cbn [decStruct]. apply (decodeObject_inv P); [|split; reflexivity].
    rewrite List.Forall_forall in Hk. apply List.Forall_forall. intros kv _ d Hd st Hst.
    apply findField_In in Hd as (name & Hin & _). exact (Hk _ Hin (snd kv) st Hst). }
  unfold getTypedRequest, Marshal, Unmarshal. fold (injected obj).
  specialize (G (Envelope_Request env)).
  destruct (decStruct typeName variantFields _ _) as [[e t] err]. exact G.
Qed.

(** *** verifyTimestamp *)

(** X9: staleness does not go away: once verifyTimestamp has returned false
    for an envelope, it returns false for it at every later reading of the
    clock, with the same lines logged. *)
Theorem stale_stays_stale (now later : Time) (env : RequestEnvelope) (log : list LogLine) :
  verifyTimestamp now env = Returns (false, log) ->
  (now <= later)%Z ->
  verifyTimestamp later env = Returns (false, log).
Proof.
  intros Hv Hle. unfold verifyTimestamp in Hv.
  destruct (Envelope_Request env) as [|b|n|s|l|m] eqn:Er; try discriminate.
  destruct (mapIndex m "timestamp") as [|b|n|ts|l|o] eqn:Et; try discriminate.
  destruct (Parse ts) as [t|] eqn:Ep.
  - rewrite (verifyTimestamp_parsed later env m ts t Er Et Ep).
    rewrite Seconds_lt_30, Since_lt_30 in Hv.
    destruct (now - t <? 30 * Second)%Z eqn:E; [discriminate|]. injection Hv as <-.
    do 2 f_equal. apply Z.ltb_ge. apply Z.ltb_ge in E. lia.
  - rewrite (verifyTimestamp_unparsed later env m ts Er Et Ep).
    rewrite Seconds_lt_30, Since_lt_30, Z.sub_0_r in Hv.
    destruct (now <? 30 * Second)%Z eqn:E; [discriminate|]. injection Hv as <-.
    do 2 f_equal. apply Z.ltb_ge. apply Z.ltb_ge in E. lia.
Qed.


(** X8: for a timestamp in the form the platform sends, four digits of
    year, two each of month, day, hour, minute and second, that names a
    day of the calendar and a time of day, verifyTimestamp logs nothing and
    returns whether the clock is less than 30 seconds past that instant. *)
Theorem platform_timestamp (now : Time) (env : RequestEnvelope) (m : list (string * JValue))
    (y1 y2 y3 y4 m1 m2 d1 d2 h1 h2 n1 n2 s1 s2 : ascii) :
  Envelope_Request env = JObject m ->
  mapIndex m "timestamp" = JString (timestampOf y1 y2 y3 y4 m1 m2 d1 d2 h1 h2 n1 n2 s1 s2) ->
  forallb isDigit [y1; y2; y3; y4; m1; m2; d1; d2; h1; h2; n1; n2; s1; s2] = true ->
  (1 <= twoDigits m1 m2 <= 12)%Z ->
  (1 <= twoDigits d1 d2 <= daysIn (twoDigits m1 m2) (fourDigits y1 y2 y3 y4))%Z ->
  (twoDigits h1 h2 < 24)%Z -> (twoDigits n1 n2 < 60)%Z -> (twoDigits s1 s2 < 60)%Z ->
  verifyTimestamp now env
  = Returns ((now - Date (fourDigits y1 y2 y3 y4) (twoDigits m1 m2) (twoDigits d1 d2)
                         (twoDigits h1 h2) (twoDigits n1 n2) (twoDigits s1 s2) 0
              <? 30 * Second)%Z, []).
Proof.
  intros Hr Ht Hd Hm Hday Hh Hn Hs.
  apply (verifyTimestamp_parsed now env m _ _ Hr Ht).
  by apply Parse_timestampOf.
Qed.

(** *** Maps in a target that is used again *)

Lemma lastMember_snoc (k : string) (kvs : list (string * JValue)) (kv : string * JValue) :
  lastMember k (kvs ++ [kv])
  = if String.eqb (fst kv) k then Some (snd kv) else lastMember k kvs.
Proof.
  unfold lastMember. rewrite rev_app_distr. cbn [rev app List.find].
  by destruct (String.eqb (fst kv) k).
Qed.

(** A map after an object was decoded into it: under every key the element
    of the last member with that key, decoded from the zero element; the
    old entry where the object has no such member. *)
Lemma decMap_lookup {E} (ty : string) (zero : E) (d : Dec E) (kvs : list (string * JValue))
    (t : gmap string E) (k : string) :
  fst (decMap ty zero d (JObject kvs) t) !! k
  = match lastMember k kvs with
    | Some v => Some (fst (d v zero))
    | None => t !! k
    end.
Proof.
  unfold decMap. induction kvs as [|kv kvs IH] using rev_ind; [reflexivity|].
  rewrite fold_left_app, lastMember_snoc. cbn [fold_left].
  destruct (d (snd kv) zero) as [e err] eqn:Ed. cbn [fst].
  destruct (String.eqb (fst kv) k) eqn:Ek.
  - apply String.eqb_eq in Ek. subst k. rewrite lookup_insert_eq. by rewrite Ed.
  - apply String.eqb_neq in Ek. rewrite lookup_insert_ne by exact Ek. exact IH.
Qed.

(** The fields of an Intent other than slots keep the slots. *)
Lemma Intent_fields_keep (m : gmap string IntentSlot) :
  Forall (fun f => foldName (fst f) = "SLOTS"
                   \/ forall j i, Intent_Slots i = m -> Intent_Slots (fst (snd f j i)) = m)
         Intent_fields.
Proof.
  unfold Intent_fields, field.
  repeat (constructor;
          [first [ left; reflexivity
                 | right; intros j i Hi; unfold lift; cbn [fst snd];
                   destruct (decString j _); exact Hi ] |]).
  constructor.
Qed.

Lemma findField_slots (key : string) :
  foldName key = "SLOTS" ->
  findField Intent_fields key
  = Some (lift Intent_Slots
               (fun v i => {| Intent_Name := Intent_Name i; Intent_Slots := v;
                              Intent_ConfirmationStatus := Intent_ConfirmationStatus i |})
               (decMap "map[string]alexa.IntentSlot" zeroIntentSlot decIntentSlot)).
Proof.
  intros Hkey. unfold Intent_fields, field.
  match goal with
  | |- findField (?e1 :: (?n, ?a) :: ?post) _ = _ => apply (findField_only [e1] post n key a)
  end; [by rewrite Hkey | others Hkey | others Hkey].
Qed.

(** An Intent after an object with one member named slots. *)
Lemma decIntent_slots (before after slots : list (string * JValue)) (key : string)
    (i : Intent) (k : string) :
  foldName key = "SLOTS" ->
  Forall (fun kv => foldName (fst kv) <> "SLOTS") before ->
  Forall (fun kv => foldName (fst kv) <> "SLOTS") after ->
  Intent_Slots (fst (decIntent (JObject (before ++ (key, JObject slots) :: after)) i)) !! k
  = match lastMember k slots with
    | Some v => Some (fst (decIntentSlot v zeroIntentSlot))
    | None => Intent_Slots i !! k
    end.
Proof.
  intros Hkey Hbefore Hafter. unfold decIntent. cbn [decStruct]. unfold decodeObject.
  rewrite fold_left_app. cbn [fold_left].
  pose proof (fold_step_keeps (fun x => Intent_Slots x = Intent_Slots i) "SLOTS" Intent_fields
                before (i, None) (Intent_fields_keep _) Hbefore eq_refl) as Hb.
  destruct (fold_left (step Intent_fields) before (i, None)) as [i1 err1]. cbn [fst] in Hb.
  set (acc := step Intent_fields (i1, err1) (key, JObject slots)).
  rewrite (fold_step_keeps (fun x => Intent_Slots x = Intent_Slots (fst acc)) "SLOTS"
             Intent_fields after acc (Intent_fields_keep _) Hafter eq_refl).
  subst acc. unfold step. cbn [fst snd]. rewrite (findField_slots key Hkey).
  unfold lift at 1.
  pose proof (decMap_lookup "map[string]alexa.IntentSlot" zeroIntentSlot decIntentSlot slots
                (Intent_Slots i1) k) as Hm.
  destruct (decMap _ _ _ (JObject slots) (Intent_Slots i1)) as [m err].
  cbn [fst snd Intent_Slots] in *. by rewrite Hm, Hb.
Qed.

(** The fields of an IntentRequest other than intent keep the intent. *)
Lemma IntentRequest_fields_keep (i : Intent) :
  Forall (fun f : string * Dec (RequestEnvelope * IntentRequest) =>
            foldName (fst f) = "INTENT"
            \/ forall j st, IntentRequest_Intent (snd st) = i
                            -> IntentRequest_Intent (snd (fst (snd f j st))) = i)
         variantFields.
Proof.
  unfold variantFields, CommonRequest_fields, objField, field.
  cbn [ownFields IntentRequest_Variant embed List.map app fst snd].
  unfold field. cbn [fst snd].
  repeat (constructor;
          [first [ left; reflexivity
                 | right; intros j [e t] Hst; unfold lift; cbn [fst snd];
                   first [ match goal with
                           | |- context [decString j ?y] => destruct (decString j y) as [? ?]
                           end
                         | match goal with
                           | |- context [decRef ?z ?g ?s ?d j ?y] =>
                               destruct (decRef z g s d j y) as [[? ?] ?]
                           end ];
                   exact Hst ] |]).
  constructor.
Qed.

Lemma findField_intent (key : string) :
  foldName key = "INTENT" ->
  findField (@variantFields IntentRequest _) key
  = Some (lift snd (fun t st => (fst st, t))
               (lift IntentRequest_Intent
                     (fun v r => {| IntentRequest_CommonRequest := IntentRequest_CommonRequest r;
                                    IntentRequest_Intent := v;
                                    IntentRequest_DialogState := IntentRequest_DialogState r |})
                     decIntent)).
Proof.
  intros Hkey. unfold variantFields, CommonRequest_fields, objField, field.
  cbn [ownFields IntentRequest_Variant embed List.map app fst snd]. unfold field. cbn [fst snd].
  match goal with
  | |- findField (?e1 :: ?e2 :: ?e3 :: ?e4 :: ?e5 :: ?e6 :: (?n, ?a) :: ?post) _ = _ =>
      apply (findField_only [e1; e2; e3; e4; e5; e6] post n key a)
  end; [by rewrite Hkey | others Hkey | others Hkey].
Qed.

(** X6: decoding an IntentRequest into a target that already holds slots
    merges the maps. For a payload with one member named intent (in any
    letter case) that holds an object with one member named slots, the
    target afterwards holds under every key the slot of the last member of
    the slots object with that key, decoded from the zero slot and not on
    top of the slot that was there; under a key the slots object does not
    have, it holds what it held before. *)
Theorem intent_slots_merge (env : RequestEnvelope) (obj : IntentRequest)
    (before after inner_before inner_after slots : list (string * JValue))
    (intentKey slotsKey : string) :
  Envelope_Request env
  = JObject (before
             ++ (intentKey, JObject (inner_before ++ (slotsKey, JObject slots) :: inner_after))
             :: after) ->
  foldName intentKey = "INTENT" ->
  foldName slotsKey = "SLOTS" ->
  Forall (fun kv => foldName (fst kv) <> "INTENT") before ->
  Forall (fun kv => foldName (fst kv) <> "INTENT") after ->
  Forall (fun kv => foldName (fst kv) <> "SLOTS") inner_before ->
  Forall (fun kv => foldName (fst kv) <> "SLOTS") inner_after ->
  forall k,
    Intent_Slots (IntentRequest_Intent (snd (fst (getTypedRequest env obj)))) !! k
    = match lastMember k slots with
      | Some v => Some (fst (decIntentSlot v zeroIntentSlot))
      | None => Intent_Slots (IntentRequest_Intent obj) !! k
      end.
Proof.
  intros Hr Hik Hsk Hb Ha Hib Hia k.
  unfold getTypedRequest, Marshal, Unmarshal. rewrite Hr.
  fold (injected obj). cbn [decStruct]. unfold decodeObject.
  rewrite fold_left_app. cbn [fold_left].
  pose proof (fold_step_keeps
                (fun st : RequestEnvelope * IntentRequest =>
                   IntentRequest_Intent (snd st) = IntentRequest_Intent obj)
                "INTENT" variantFields before (env, injected obj, None)
                (IntentRequest_fields_keep _) Hb eq_refl) as Hbefore.
  destruct (fold_left (step variantFields) before (env, injected obj, None)) as [[e1 t1] err1].
  cbn [fst snd] in Hbefore.
  set (acc := step variantFields (e1, t1, err1) (intentKey, JObject _)).
  pose proof (fold_step_keeps
                (fun st : RequestEnvelope * IntentRequest =>
                   IntentRequest_Intent (snd st) = IntentRequest_Intent (snd (fst acc)))
                "INTENT" variantFields after acc
                (IntentRequest_fields_keep _) Ha eq_refl) as Hafter.
  destruct (fold_left (step variantFields) after acc) as [[e3 t3] err3].
  cbn [fst snd] in *. rewrite Hafter. subst acc.
  unfold step. cbn [fst snd]. rewrite (findField_intent intentKey Hik).
  unfold lift at 1 2. cbn [fst snd].
  pose proof (decIntent_slots inner_before inner_after slots slotsKey (IntentRequest_Intent t1) k
                Hsk Hib Hia) as Hs.
  destruct (decIntent _ (IntentRequest_Intent t1)) as [i' err'].
  cbn [fst snd IntentRequest_Intent] in *. by rewrite Hs, Hbefore.
Qed.
(** *** The theorems at an envelope *)

Lemma getTypedRequest_error_iff_witness :
  let env := sampleEnvelope (JObject [("requestId", JNumber (Int 5))]) in
  (exists e, snd (getTypedRequest env zeroLaunchRequest) = Some e)
  <-> fits (variantShape LaunchRequest) (Envelope_Request env) = false.
Proof.
  intros env. apply (getTypedRequest_error_iff (T := LaunchRequest) env zeroLaunchRequest).
Defined.

Lemma getTypedRequest_known_members_witness :
  let kvs := [("requestId", JString "r1"); ("shouldLinkResultBeReturned", JBool true);
              ("LOCALE", JString "en-US")] in
  let env := sampleEnvelope (JObject kvs) in
  Envelope_Request env = JObject kvs
  /\ getTypedRequest env zeroLaunchRequest
     = Unmarshal (JObject (List.filter (selectsField (@variantFields LaunchRequest _)) kvs)) env
                 (injected zeroLaunchRequest).
Proof.
  intros kvs env. split; [reflexivity|].
  apply (getTypedRequest_known_members (T := LaunchRequest) env zeroLaunchRequest kvs).
  reflexivity.
Defined.

Lemma getTypedRequest_no_members_witness :
  let env := sampleEnvelope (JString "LaunchRequest") in
  (forall kv kvs, Envelope_Request env <> JObject (kv :: kvs))
  /\ getTypedRequest env zeroLaunchRequest
     = (env, injected zeroLaunchRequest,
        Some {| Value := "string"; GoType := "alexa.LaunchRequest" |}).
Proof.
  intros env.
  assert (Hne : forall kv kvs, Envelope_Request env <> JObject (kv :: kvs))
    by (intros kv kvs; discriminate).
  split; [exact Hne|].
  exact (getTypedRequest_no_members (T := LaunchRequest) env zeroLaunchRequest Hne).
Defined.

(** Two members named Session, between members of other names. *)
Lemma wire_session_into_envelope_witness :
  let kvs := [("SESSION", JObject [("sessionId", JString "first")]);
              ("locale", JString "en-US");
              ("session", JObject [("new", JBool true)]);
              ("type", JString "LaunchRequest")] in
  let env := sampleEnvelope (JObject kvs) in
  ownFieldsAvoid LaunchRequest "SESSION" = true
  /\ membersNamed "SESSION" kvs
     = [JObject [("sessionId", JString "first")]; JObject [("new", JBool true)]]
  /\ exists env' obj' err,
       getTypedRequest env zeroLaunchRequest = (env', obj', err)
       /\ Session_SessionID (Envelope_Session env') = "first"
       /\ Session_New (Envelope_Session env') = true
       /\ Envelope_Session env' <> Envelope_Session env
       /\ CommonRequest_Session (getCommon obj') = Env.
Proof.
  intros kvs env.
  assert (Ha : ownFieldsAvoid LaunchRequest "SESSION" = true) by reflexivity.
  assert (Hnn : Forall (fun v => v <> JNull) (membersNamed "SESSION" kvs))
    by (repeat (constructor; [discriminate|]); constructor).
  split; [exact Ha|]. split; [reflexivity|].
  destruct (wire_session_into_envelope (T := LaunchRequest) env zeroLaunchRequest kvs
              Ha eq_refl Hnn) as (env' & obj' & err & Heq & Hs & Hp).
  exists env', obj', err. split; [exact Heq|]. rewrite Hs.
  split; [reflexivity|]. split; [reflexivity|]. split; [discriminate | exact Hp].
Defined.

(** A target that holds two slots, and a payload that names one of them. *)
Lemma intent_slots_merge_witness :
  let city := JObject [("name", JString "city"); ("value", JString "Lisbon")] in
  let payload :=
    JObject [("intent", JObject [("name", JString "Travel"); ("slots", JObject [("city", city)])]);
             ("locale", JString "en-US"); ("type", JString "IntentRequest")] in
  let held :=
    {| IntentSlot_Name := "city"; IntentSlot_Value := "Porto";
       IntentSlot_ConfirmationStatus := "CONFIRMED"; IntentSlot_Resolutions := JNull |} in
  let obj :=
    {| IntentRequest_CommonRequest := zeroCommonRequest;
       IntentRequest_Intent :=
         {| Intent_Name := "Travel";
            Intent_Slots := <["city" := held]> (<["date" := zeroIntentSlot]> ∅);
            Intent_ConfirmationStatus := "" |};
       IntentRequest_DialogState := "" |} in
  let slots := Intent_Slots (IntentRequest_Intent
                               (snd (fst (getTypedRequest (sampleEnvelope payload) obj)))) in
  fst (decIntentSlot city zeroIntentSlot)
  = {| IntentSlot_Name := "city"; IntentSlot_Value := "Lisbon";
       IntentSlot_ConfirmationStatus := ""; IntentSlot_Resolutions := JNull |}
  /\ slots !! "city" = Some (fst (decIntentSlot city zeroIntentSlot))
  /\ slots !! "date" = Intent_Slots (IntentRequest_Intent obj) !! "date".
Proof.
  intros city payload held obj slots.
  assert (Hafter : Forall (fun kv : string * JValue => foldName (fst kv) <> "INTENT")
                          [("locale", JString "en-US"); ("type", JString "IntentRequest")])
    by (repeat (constructor; [vm_compute; discriminate|]); constructor).
  assert (Hinner : Forall (fun kv : string * JValue => foldName (fst kv) <> "SLOTS")
                          [("name", JString "Travel")])
    by (repeat (constructor; [vm_compute; discriminate|]); constructor).
  pose proof (intent_slots_merge (sampleEnvelope payload) obj [] _ [("name", JString "Travel")] []
                [("city", city)] "intent" "slots" eq_refl eq_refl eq_refl
                (List.Forall_nil _) Hafter Hinner (List.Forall_nil _)) as Hm.
  split; [reflexivity|]. split; [exact (Hm "city") | exact (Hm "date")].
Defined.

Lemma timestamp_key_spelling_witness :
  let now := Date 2018 1 1 0 0 30 0 in
  let env := sampleEnvelope (JObject [("TimeStamp", JString "2018-01-01T00:00:01Z")]) in
  foldName "TimeStamp" = "TIMESTAMP"
  /\ ownFieldsAvoid LaunchRequest "TIMESTAMP" = true
  /\ Envelope_Request env = JObject [("TimeStamp", JString "2018-01-01T00:00:01Z")]
  /\ "TimeStamp" <> "timestamp"
  /\ verifyTimestamp now env = Panics.
Proof.
  intros now env.
  assert (Hne : "TimeStamp" <> "timestamp") by discriminate.
  assert (Ha : ownFieldsAvoid LaunchRequest "TIMESTAMP" = true) by reflexivity.
  split; [reflexivity|]. split; [exact Ha|]. split; [reflexivity|]. split; [exact Hne|].
  exact (proj1 (proj2 (timestamp_key_spelling (T := LaunchRequest) now env zeroLaunchRequest
                         "TimeStamp" "2018-01-01T00:00:01Z" eq_refl Ha eq_refl)) Hne).
Defined.

Lemma platform_timestamp_witness :
  let m := [("type", JString "LaunchRequest");
            ("timestamp", JString (timestampOf "2" "0" "2" "0" "0" "2" "2" "9" "2" "3" "5" "9" "5" "9"))] in
  let env := sampleEnvelope (JObject m) in
  let now := Date 2020 3 1 0 0 0 0 in
  timestampOf "2" "0" "2" "0" "0" "2" "2" "9" "2" "3" "5" "9" "5" "9" = "2020-02-29T23:59:59Z"
  /\ (1 <= twoDigits "2" "9" <= daysIn (twoDigits "0" "2") (fourDigits "2" "0" "2" "0"))%Z
  /\ verifyTimestamp now env
     = Returns ((now - Date (fourDigits "2" "0" "2" "0") (twoDigits "0" "2") (twoDigits "2" "9")
                            (twoDigits "2" "3") (twoDigits "5" "9") (twoDigits "5" "9") 0
                 <? 30 * Second)%Z, []).
Proof.
  intros m env now.
  assert (Hday : (1 <= twoDigits "2" "9"
                  <= daysIn (twoDigits "0" "2") (fourDigits "2" "0" "2" "0"))%Z)
    by (vm_compute; split; discriminate).
  assert (Hmonth : (1 <= twoDigits "0" "2" <= 12)%Z) by (vm_compute; split; discriminate).
  split; [reflexivity|]. split; [exact Hday|].
  apply (platform_timestamp now env m "2" "0" "2" "0" "0" "2" "2" "9" "2" "3" "5" "9" "5" "9"
           eq_refl eq_refl eq_refl Hmonth Hday eq_refl eq_refl eq_refl).
Defined.

Lemma stale_stays_stale_witness :
  let env := sampleEnvelope (JObject [("timestamp", JString "2018-01-01T00:00:01Z")]) in
  let now := Date 2018 1 1 0 0 31 0 in
  let later := Date 2018 1 1 0 5 0 0 in
  verifyTimestamp now env = Returns (false, [])
  /\ (now <= later)%Z
  /\ verifyTimestamp later env = Returns (false, []).
Proof.
  intros env now later.
  assert (Hs : verifyTimestamp now env = Returns (false, [])) by (vm_compute; reflexivity).
  assert (Hl : (now <= later)%Z) by (vm_compute; discriminate).
  split; [exact Hs|]. split; [exact Hl|].
  apply (stale_stays_stale now later env [] Hs Hl).
Defined.
End RequestMore.

(* ===================================================================== *)
(** ** More about the builders *)
(* ===================================================================== *)

Module AudioMore.
Import Json Audio JsonFacts.

Lemma alloc_lookup {A} (h : list A) (x : A) : (h ++ [x]) !! length h = Some x.
Proof. rewrite lookup_app_r by lia. by rewrite Nat.sub_diag. Qed.

Lemma update_lookup {A} (h : list A) (l : nat) (x y : A) :
  h !! l = Some x -> <[l := y]> h !! l = Some y.
Proof. intros Hl. apply list_lookup_insert_eq. by eapply lookup_lt_Some. Qed.

Lemma resolves_app {A} (h : list A) (x : A) (p : ptr) :
  resolves h p = true -> resolves (h ++ [x]) p = true.
Proof.
  destruct p as [l|]; [|reflexivity]. unfold resolves. intros Hl%Nat.ltb_lt.
  apply Nat.ltb_lt. rewrite length_app. cbn. lia.
Qed.

Lemma resolves_insert {A} (h : list A) (i : nat) (x : A) (p : ptr) :
  resolves (<[i := x]> h) p = resolves h p.
Proof. destruct p as [l|]; [|reflexivity]. unfold resolves. by rewrite length_insert. Qed.

Lemma resolves_alloc {A} (h : list A) (x : A) : resolves (h ++ [x]) (Some (length h)) = true.
Proof. unfold resolves. apply Nat.ltb_lt. rewrite length_app. cbn. lia. Qed.

Lemma forallb_app_one {A} (f : A -> bool) (l : list A) (x : A) :
  forallb f l = true -> f x = true -> forallb f (l ++ [x]) = true.
Proof. intros Hl Hx. rewrite forallb_app, Hl. cbn. by rewrite Hx. Qed.

Lemma forallb_insert {A} (f : A -> bool) (l : list A) (i : nat) (x : A) :
  forallb f l = true -> f x = true -> forallb f (<[i := x]> l) = true.
Proof.
  revert i. induction l as [|y l IH]; intros i Hl Hx; [exact Hl|].
  cbn in Hl. apply andb_prop in Hl as [Hy Hl].
  destruct i; cbn; [by rewrite Hx, Hl | by rewrite Hy, IH].
Qed.

Lemma forallb_lookup {A} (f : A -> bool) (l : list A) (i : nat) (x : A) :
  forallb f l = true -> l !! i = Some x -> f x = true.
Proof.
  intros Hl Hi. rewrite List.forallb_forall in Hl. apply Hl.
  apply list_elem_of_In. by eapply list_elem_of_lookup_2.
Qed.

Lemma forallb_weaken {A} (f g : A -> bool) (l : list A) :
  (forall x, f x = true -> g x = true) -> forallb f l = true -> forallb g l = true.
Proof.
  intros Hfg. rewrite !List.forallb_forall. intros Hl x Hx. apply Hfg, Hl, Hx.
Qed.

(** The heaps of a store a builder has made. *)
Ltac heaps :=
  cbn [fst snd plays stops clears metadatas images logged withPlays withStops withClears
       withMetadatas withImages Println].

(** X10: no builder and no setter leaves a pointer that refers to nothing:
    when every metadata pointer of a Play directive and every image
    pointer of a metadata object is nil or a location of the store, the
    same holds after each of the seven functions, and the pointer that
    SetAudioItemMetadata, SetArtImage or SetBackgroundImage returns is not
    nil and refers to the object just made. *)
Theorem builders_keep_closed (st : Store) (r : Response) :
  closed st = true ->
  (forall playBehavior,
     closed (fst (fst (AddAudioPlayerPlayDirective st r playBehavior))) = true)
  /\ closed (fst (fst (AddAudioPlayerStopDirective st r))) = true
  /\ (forall clearBehavior,
        closed (fst (fst (AddAudioPlayerClearQueueDirective st r clearBehavior))) = true)
  /\ (forall d url token prev offset st',
        SetAudioItemStream st d url token prev offset = Returns st' -> closed st' = true)
  /\ (forall d title subtitle st' m,
        SetAudioItemMetadata st d title subtitle = Returns (st', m) ->
        closed st' = true
        /\ exists l, m = Some l
                     /\ metadatas st' !! l
                        = Some {| Metadata_Title := title; Metadata_Subtitle := subtitle;
                                  Metadata_Art := None; Metadata_BackgroundImage := None |})
  /\ (forall m contentDescription st' a,
        SetArtImage st m contentDescription = Returns (st', a) ->
        closed st' = true
        /\ exists l, a = Some l
                     /\ images st' !! l
                        = Some {| Image_ContentDescription := contentDescription |})
  /\ (forall m contentDescription st' a,
        SetBackgroundImage st m contentDescription = Returns (st', a) ->
        closed st' = true
        /\ exists l, a = Some l
                     /\ images st' !! l
                        = Some {| Image_ContentDescription := contentDescription |}).
Proof.
  unfold closed. intros Hc. apply andb_prop in Hc as [Hp Hm].
  refine (conj _ (conj _ (conj _ (conj _ (conj _ (conj _ _)))))).
  - intros pb. unfold AddAudioPlayerPlayDirective. heaps.
    rewrite Hm, andb_true_r. by apply forallb_app_one.
  - unfold AddAudioPlayerStopDirective. heaps. by rewrite Hp, Hm.
  - intros cb. unfold AddAudioPlayerClearQueueDirective.
    destruct (negb _ && negb _); heaps; by rewrite Hp, Hm.
  - intros [l|] url token prev offset st'; unfold SetAudioItemStream; [|discriminate].
    destruct (plays st !! l) as [dir|] eqn:El; [|discriminate]. intros [= <-]. heaps.
    rewrite Hm, andb_true_r. apply forallb_insert; [exact Hp|].
    exact (forallb_lookup _ _ _ _ Hp El).
  - intros [l|] title subtitle st' m Hr; unfold SetAudioItemMetadata in Hr; [|discriminate].
    destruct (plays st !! l) as [dir|] eqn:El; [|discriminate]. injection Hr as <- <-.
    heaps. split; [|eexists; split; [reflexivity | apply alloc_lookup]].
    apply andb_true_intro. split.
    + apply forallb_insert; [|apply resolves_alloc].
      eapply forallb_weaken; [|exact Hp]. intros x. apply resolves_app.
    + by apply forallb_app_one.
  - intros [l|] desc st' a Hr; unfold SetArtImage in Hr; [|discriminate]. revert Hr. heaps.
    destruct (metadatas st !! l) as [meta|] eqn:El; [|discriminate]. intros [= <- <-].
    heaps. split; [|eexists; split; [reflexivity | apply alloc_lookup]].
    apply andb_true_intro. split.
    { eapply forallb_weaken; [|exact Hp]. intros x Hx. by rewrite resolves_insert. }
    apply forallb_insert.
    + eapply forallb_weaken; [|exact Hm]. intros x Hx. apply andb_prop in Hx as [H1 H2].
      by rewrite !resolves_app.
    + cbn [Metadata_Art Metadata_BackgroundImage]. rewrite resolves_alloc.
      pose proof (forallb_lookup _ _ _ _ Hm El) as Hx. apply andb_prop in Hx as [H1 H2].
      by rewrite resolves_app.
  - intros [l|] desc st' a Hr; unfold SetBackgroundImage in Hr; [|discriminate].
    revert Hr. heaps.
    destruct (metadatas st !! l) as [meta|] eqn:El; [|discriminate]. intros [= <- <-].
    heaps. split; [|eexists; split; [reflexivity | apply alloc_lookup]].
    apply andb_true_intro. split.
    { eapply forallb_weaken; [|exact Hp]. intros x Hx. by rewrite resolves_insert. }
    apply forallb_insert.
    + eapply forallb_weaken; [|exact Hm]. intros x Hx. apply andb_prop in Hx as [H1 H2].
      by rewrite !resolves_app.
    + cbn [Metadata_Art Metadata_BackgroundImage]. rewrite resolves_alloc, andb_true_r.
      pose proof (forallb_lookup _ _ _ _ Hm El) as Hx. apply andb_prop in Hx as [H1 H2].
      by rewrite resolves_app.
Qed.

(** *** The whole Play directive on the wire *)

Lemma set_alloc_lookup {A} (h : list A) (x y : A) :
  <[length h := y]> (h ++ [x]) !! length h = Some y.
Proof. apply (update_lookup _ _ x), alloc_lookup. Qed.

Lemma set_alloc_lookup_before {A} (h : list A) (a z b z' : A) :
  <[length (<[length h := a]> (h ++ [z])) := b]> (<[length h := a]> (h ++ [z]) ++ [z'])
    !! length h = Some a.
Proof.
  rewrite list_lookup_insert_ne by (rewrite length_insert, length_app; cbn; lia).
  rewrite lookup_app_l by (rewrite length_insert, length_app; cbn; lia).
  apply set_alloc_lookup.
Qed.

Lemma MarshalImagePtr_view (st : Store) (name : string) (p : ptr) l :
  MarshalImagePtr st name p = Some l ->
  (l = [] /\ viewImage st p = Some None)
  \/ exists i, l = [(name, JObject [("contentDescription", marshalString i)])]
               /\ viewImage st p = Some (Some i).
Proof.
  unfold MarshalImagePtr, viewImage. destruct p as [a|]; [|intros [= <-]; by left].
  destruct (images st !! a) as [i|]; [|discriminate]. cbn. intros [= <-]. right; eauto.
Qed.

Ltac decode :=
  repeat progress (cbn -[toValidUTF8]; try unfold decImagePtr; try unfold decPtr; try unfold lift;
                   rewrite ?alloc_lookup).

Lemma decMetadataPtr_view (st : Store) (m : AudioItemMetadata) (j : JValue) (s : Store) :
  MarshalMetadata st m = Some j ->
  exists s' l art bg,
    decMetadataPtr j (s, None) = ((s', Some l), None)
    /\ viewImage st (Metadata_Art m) = Some art
    /\ viewImage st (Metadata_BackgroundImage m) = Some bg
    /\ viewMetadata s' (Some l)
       = Some (Some (coercedMetadata
                       {| View_Title := Metadata_Title m; View_Subtitle := Metadata_Subtitle m;
                          View_Art := art; View_BackgroundImage := bg |})).
Proof.
  unfold MarshalMetadata.
  destruct (MarshalImagePtr st "art" _) as [art|] eqn:Ea; [|discriminate].
  destruct (MarshalImagePtr st "backgroundImage" _) as [bg|] eqn:Eb; [|discriminate].
  cbn [mbind option_bind]. intros [= <-].
  apply MarshalImagePtr_view in Ea as [[-> Ha] | (ia & -> & Ha)];
    apply MarshalImagePtr_view in Eb as [[-> Hb] | (ib & -> & Hb)];
    destruct (omitempty_cases "title" (Metadata_Title m)) as [[Et ->] | ->];
    destruct (omitempty_cases "subtitle" (Metadata_Subtitle m)) as [[Es ->] | ->];
    rewrite Ha, Hb;
    unfold decMetadataPtr, decImagePtr, decPtr, marshalString; decode;
    (eexists _, _, _, _; split; [reflexivity|]; split; [reflexivity|]; split; [reflexivity|]);
    heaps; rewrite set_alloc_lookup; cbn [mbind option_bind]; unfold viewImage; heaps;
    cbn [Metadata_Art Metadata_BackgroundImage Metadata_Title Metadata_Subtitle];
    rewrite ?set_alloc_lookup_before, ?set_alloc_lookup; cbn -[toValidUTF8];
    rewrite ?Et, ?Es; reflexivity.
Qed.

Lemma decAudioItem_view (st : Store) (a : AudioItemStruct) (metadata : list (string * JValue))
    (st' : Store) (mv : option MetadataView) :
  (minInt64 <= Stream_OffsetInMilliseconds (AudioItem_Stream a) <= maxInt64)%Z ->
  (metadata = [] /\ mv = None
   \/ exists m j art bg,
        metadata = [("metadata", j)] /\ MarshalMetadata st m = Some j
        /\ viewImage st (Metadata_Art m) = Some art
        /\ viewImage st (Metadata_BackgroundImage m) = Some bg
        /\ mv = Some {| View_Title := Metadata_Title m; View_Subtitle := Metadata_Subtitle m;
                        View_Art := art; View_BackgroundImage := bg |}) ->
  exists s' p,
    decStruct AudioItem_type AudioItem_fields
              (JObject ([("stream", MarshalStream (AudioItem_Stream a))] ++ metadata))
              (st', zeroAudioItem)
    = ((s', {| AudioItem_Stream := coerced (AudioItem_Stream a); AudioItem_Metadata := p |}), None)
    /\ viewMetadata s' p = Some (coercedMetadata <$> mv).
Proof.
  intros Hr [[-> ->] | (m & j & art & bg & -> & Hj & Ha & Hb & ->)].
  - cbn -[MarshalStream decMetadataPtr toValidUTF8]. unfold lift.
    cbn [fst snd AudioItem_Stream zeroAudioItem].
    rewrite (AudioFacts.decStream_marshalled _ Hr). cbn. eauto.
  - destruct (decMetadataPtr_view st m j st' Hj) as (s' & l & art' & bg' & Hd & Ha' & Hb' & Hv).
    rewrite Ha in Ha'. rewrite Hb in Hb'. injection Ha' as <-. injection Hb' as <-.
    cbn -[MarshalStream decMetadataPtr toValidUTF8]. unfold lift.
    cbn [fst snd AudioItem_Stream zeroAudioItem].
    rewrite (AudioFacts.decStream_marshalled _ Hr). cbn -[decMetadataPtr]. rewrite Hd.
    cbn -[viewMetadata coercedMetadata]. eauto.
Qed.

(** A Play directive written by MarshalPlay decodes without error into a
    directive that reads as the one written, strings coerced. *)
Lemma UnmarshalPlay_view (st : Store) (d : AudioPlayerPlayDirective) (data : JValue)
    (st' : Store) :
  (minInt64 <= Stream_OffsetInMilliseconds (AudioItem_Stream (Play_AudioItem d)) <= maxInt64)%Z ->
  MarshalPlay st d = Some data ->
  exists st2 d2 v,
    UnmarshalPlay data st' = (st2, d2, None)
    /\ viewPlay st d = Some v
    /\ viewPlay st2 d2 = Some (coercedPlay v).
Proof.
  intros Hr. unfold MarshalPlay.
  destruct (match AudioItem_Metadata (Play_AudioItem d) with
            | Some l => _
            | None => _
            end) as [metadata|] eqn:Em; [|discriminate].
  cbn [mbind option_bind]. intros [= <-].
  assert (Hm : exists mv, viewMetadata st (AudioItem_Metadata (Play_AudioItem d)) = Some mv
               /\ (metadata = [] /\ mv = None
                   \/ exists m j art bg,
                        metadata = [("metadata", j)] /\ MarshalMetadata st m = Some j
                        /\ viewImage st (Metadata_Art m) = Some art
                        /\ viewImage st (Metadata_BackgroundImage m) = Some bg
                        /\ mv = Some {| View_Title := Metadata_Title m;
                                        View_Subtitle := Metadata_Subtitle m;
                                        View_Art := art; View_BackgroundImage := bg |})).
  { unfold viewMetadata.
    destruct (AudioItem_Metadata (Play_AudioItem d)) as [l|];
      [|injection Em as <-; exists None; split; [reflexivity | by left]].
    destruct (metadatas st !! l) as [m|]; [|discriminate]. cbn in Em.
    destruct (MarshalMetadata st m) as [j|] eqn:Ej; [|discriminate]. cbn in Em.
    injection Em as <-.
    destruct (decMetadataPtr_view st m j st Ej) as (_ & _ & art & bg & _ & Ha & Hb & _).
    eexists. cbn. rewrite Ha, Hb. cbn. split; [reflexivity|]. right.
    exists m, j, art, bg. auto. }
  destruct Hm as (mv & Hmv & Hm).
  destruct (decAudioItem_view st (Play_AudioItem d) metadata st' mv Hr Hm)
    as (s' & p & Hd & Hv).
  cbn [app] in Hd.
  unfold UnmarshalPlay, marshalString. unfold decStruct at 1.
  cbn -[MarshalStream decStruct toValidUTF8]. unfold lift.
  cbn [fst snd Play_AudioItem zeroPlayDirective]. rewrite Hd.
  cbn -[toValidUTF8 viewPlay coercedPlay].
  eexists _, _, _. split; [reflexivity|]. unfold viewPlay. rewrite Hmv.
  cbn -[toValidUTF8 viewMetadata coercedMetadata coerced]. split; [reflexivity|].
  rewrite Hv. reflexivity.
Qed.

Lemma resolves_lookup {A} (h : list A) (l : nat) :
  resolves h (Some l) = true -> is_Some (h !! l).
Proof. unfold resolves. intros Hl%Nat.ltb_lt. by apply lookup_lt_is_Some. Qed.

Lemma closed_viewPlay (st : Store) (l : nat) (d : AudioPlayerPlayDirective) :
  closed st = true -> plays st !! l = Some d -> is_Some (viewPlay st d).
Proof.
  unfold closed. intros Hc Hl. apply andb_prop in Hc as [Hp Hm].
  pose proof (forallb_lookup _ _ _ _ Hp Hl) as Hd. cbn beta in Hd.
  unfold viewPlay, viewMetadata.
  destruct (AudioItem_Metadata (Play_AudioItem d)) as [ml|]; [|by eexists].
  destruct (resolves_lookup _ _ Hd) as [m Em]. rewrite Em. cbn [mbind option_bind].
  pose proof (forallb_lookup _ _ _ _ Hm Em) as Hi. cbn beta in Hi.
  apply andb_prop in Hi as [Ha Hb]. unfold viewImage.
  destruct (Metadata_Art m) as [a|]; [destruct (resolves_lookup _ _ Ha) as [ia ->]|];
    (destruct (Metadata_BackgroundImage m) as [b|];
     [destruct (resolves_lookup _ _ Hb) as [ib ->]|]); by eexists.
Qed.

Lemma viewPlay_MarshalPlay (st : Store) (d : AudioPlayerPlayDirective) :
  is_Some (viewPlay st d) -> is_Some (MarshalPlay st d).
Proof.
  unfold viewPlay, viewMetadata, MarshalPlay, MarshalMetadata, MarshalImagePtr, viewImage.
  intros [v Hv].
  destruct (AudioItem_Metadata (Play_AudioItem d)) as [ml|]; [|by eexists].
  destruct (metadatas st !! ml) as [m|]; [|discriminate]. cbn [mbind option_bind] in *.
  destruct (Metadata_Art m) as [a|]; [destruct (images st !! a); [|discriminate]|];
    (destruct (Metadata_BackgroundImage m) as [b|];
     [destruct (images st !! b); [|discriminate]|]); by eexists.
Qed.

(** X12: a directive of a closed store can always be serialized, and what is
    parsed back reads as the directive that was written, strings coerced to
    valid UTF-8. *)
Theorem closed_round_trip (st st' : Store) (l : nat) (d : AudioPlayerPlayDirective) :
  closed st = true ->
  plays st !! l = Some d ->
  (minInt64 <= Stream_OffsetInMilliseconds (AudioItem_Stream (Play_AudioItem d)) <= maxInt64)%Z ->
  exists data st2 d2 v,
    MarshalPlay st d = Some data
    /\ UnmarshalPlay data st' = (st2, d2, None)
    /\ viewPlay st d = Some v
    /\ viewPlay st2 d2 = Some (coercedPlay v).
Proof.
  intros Hc Hl Hr.
  destruct (viewPlay_MarshalPlay st d (closed_viewPlay st l d Hc Hl)) as [data Hd].
  destruct (UnmarshalPlay_view st d data st' Hr Hd) as (st2 & d2 & v & Hu & Hv & Hv2).
  exists data, st2, d2, v. auto.
Qed.

Lemma coercedPlay_idempotent (v : PlayView) : coercedPlay (coercedPlay v) = coercedPlay v.
Proof.
  destruct v as [ty pb [url token prev off] [[title subtitle [art|] [bg|]]|]];
    unfold coercedPlay, coercedMetadata, coerced; cbn;
    by rewrite ?JsonMore.toValidUTF8_idempotent.
Qed.

(** X13: a second round trip changes nothing: what was parsed back from the
    wire is written and parsed back as itself, whatever bytes the strings
    of the first directive held. *)
Theorem round_trip_settles (st st' st'' : Store) (l : nat) (d : AudioPlayerPlayDirective) :
  closed st = true ->
  plays st !! l = Some d ->
  (minInt64 <= Stream_OffsetInMilliseconds (AudioItem_Stream (Play_AudioItem d)) <= maxInt64)%Z ->
  exists data st2 d2 v2 data2 st3 d3,
    MarshalPlay st d = Some data
    /\ UnmarshalPlay data st' = (st2, d2, None)
    /\ viewPlay st2 d2 = Some v2
    /\ MarshalPlay st2 d2 = Some data2
    /\ UnmarshalPlay data2 st'' = (st3, d3, None)
    /\ viewPlay st3 d3 = Some v2.
Proof.
  intros Hc Hl Hr.
  destruct (viewPlay_MarshalPlay st d (closed_viewPlay st l d Hc Hl)) as [data Hd].
  destruct (UnmarshalPlay_view st d data st' Hr Hd) as (st2 & d2 & v & Hu & Hv & Hv2).
  assert (Hs : AudioItem_Stream (Play_AudioItem d2) = coerced (AudioItem_Stream (Play_AudioItem d))).
  { unfold viewPlay in Hv, Hv2.
    destruct (viewMetadata st2 _); [|discriminate]. destruct (viewMetadata st _); [|discriminate].
    cbn in Hv, Hv2. injection Hv as <-. by injection Hv2 as _ _ -> _. }
  assert (Hr2 : (minInt64 <= Stream_OffsetInMilliseconds (AudioItem_Stream (Play_AudioItem d2))
                 <= maxInt64)%Z) by (rewrite Hs; exact Hr).
  destruct (viewPlay_MarshalPlay st2 d2 (ex_intro _ _ Hv2)) as [data2 Hd2].
  destruct (UnmarshalPlay_view st2 d2 data2 st'' Hr2 Hd2) as (st3 & d3 & v2 & Hu3 & Hv3 & Hv4).
  rewrite Hv2 in Hv3. injection Hv3 as <-. rewrite coercedPlay_idempotent in Hv4.
  exists data, st2, d2, (coercedPlay v), data2, st3, d3. auto 10.
Qed.

(** *** How the setters compose *)

(** X14: SetArtImage and SetBackgroundImage on one metadata object do not
    disturb each other, in either order: afterwards the object has both
    images, each with its content description, and its title and subtitle
    are as before. *)
Theorem art_and_background (st : Store) (m : nat) (meta : AudioItemMetadata)
    (art background : string) :
  metadatas st !! m = Some meta ->
  (exists st1 a st2 b meta',
     SetArtImage st (Some m) art = Returns (st1, Some a)
     /\ SetBackgroundImage st1 (Some m) background = Returns (st2, Some b)
     /\ metadatas st2 !! m = Some meta'
     /\ Metadata_Title meta' = Metadata_Title meta
     /\ Metadata_Subtitle meta' = Metadata_Subtitle meta
     /\ metadataArt st2 meta' = Some {| Image_ContentDescription := art |}
     /\ metadataBackgroundImage st2 meta' = Some {| Image_ContentDescription := background |})
  /\ (exists st1 b st2 a meta',
        SetBackgroundImage st (Some m) background = Returns (st1, Some b)
        /\ SetArtImage st1 (Some m) art = Returns (st2, Some a)
        /\ metadatas st2 !! m = Some meta'
        /\ Metadata_Title meta' = Metadata_Title meta
        /\ Metadata_Subtitle meta' = Metadata_Subtitle meta
        /\ metadataArt st2 meta' = Some {| Image_ContentDescription := art |}
        /\ metadataBackgroundImage st2 meta' = Some {| Image_ContentDescription := background |}).
Proof.
  intros Hm. split.
  - unfold SetArtImage. heaps. rewrite Hm.
    eexists _, _, _, _, _. split; [reflexivity|].
    unfold SetBackgroundImage. heaps. rewrite (update_lookup _ _ _ _ Hm).
    split; [reflexivity|]. heaps.
    rewrite list_insert_insert_eq. split; [exact (update_lookup _ _ _ _ Hm)|].
    unfold metadataArt, metadataBackgroundImage. heaps.
    cbn [Metadata_Art Metadata_BackgroundImage Metadata_Title Metadata_Subtitle mbind option_bind].
    repeat split;
      first [ apply alloc_lookup
            | rewrite lookup_app_l by (rewrite length_app; cbn; lia); apply alloc_lookup ].
  - unfold SetBackgroundImage. heaps. rewrite Hm.
    eexists _, _, _, _, _. split; [reflexivity|].
    unfold SetArtImage. heaps. rewrite (update_lookup _ _ _ _ Hm).
    split; [reflexivity|]. heaps.
    rewrite list_insert_insert_eq. split; [exact (update_lookup _ _ _ _ Hm)|].
    unfold metadataArt, metadataBackgroundImage. heaps.
    cbn [Metadata_Art Metadata_BackgroundImage Metadata_Title Metadata_Subtitle mbind option_bind].
    repeat split;
      first [ apply alloc_lookup
            | rewrite lookup_app_l by (rewrite length_app; cbn; lia); apply alloc_lookup ].
Qed.

Lemma SetAudioItemMetadata_returns (st : Store) (l : nat) (dir : AudioPlayerPlayDirective)
    (title subtitle : string) :
  plays st !! l = Some dir ->
  exists st',
    SetAudioItemMetadata st (Some l) title subtitle = Returns (st', Some (length (metadatas st)))
    /\ plays st' = <[l := withMetadata (Some (length (metadatas st))) dir]> (plays st)
    /\ metadatas st'
       = metadatas st ++ [{| Metadata_Title := title; Metadata_Subtitle := subtitle;
                             Metadata_Art := None; Metadata_BackgroundImage := None |}]
    /\ images st' = images st.
Proof. intros Hl. unfold SetAudioItemMetadata. rewrite Hl. eexists. repeat split. Qed.

Lemma SetArtImage_returns (st : Store) (m : nat) (meta : AudioItemMetadata)
    (contentDescription : string) :
  metadatas st !! m = Some meta ->
  exists st',
    SetArtImage st (Some m) contentDescription = Returns (st', Some (length (images st)))
    /\ plays st' = plays st
    /\ metadatas st'
       = <[m := {| Metadata_Title := Metadata_Title meta;
                   Metadata_Subtitle := Metadata_Subtitle meta;
                   Metadata_Art := Some (length (images st));
                   Metadata_BackgroundImage := Metadata_BackgroundImage meta |}]> (metadatas st)
    /\ images st' = images st ++ [{| Image_ContentDescription := contentDescription |}].
Proof.
  intros Hm. unfold SetArtImage. heaps. rewrite Hm. eexists. repeat split.
Qed.

(** X15: SetAudioItemMetadata always makes a new metadata object. Called a
    second time it replaces the first object in the directive: the art
    image set on the first one is gone from the directive, and an image set
    later through the first pointer does not reach the directive. *)
Theorem metadata_replaced (st : Store) (l : nat) (dir : AudioPlayerPlayDirective)
    (title1 subtitle1 art title2 subtitle2 later : string) :
  plays st !! l = Some dir ->
  exists st1 m1 st2 a st3 m2 st4 a',
    SetAudioItemMetadata st (Some l) title1 subtitle1 = Returns (st1, Some m1)
    /\ SetArtImage st1 (Some m1) art = Returns (st2, Some a)
    /\ SetAudioItemMetadata st2 (Some l) title2 subtitle2 = Returns (st3, Some m2)
    /\ m1 <> m2
    /\ playMetadata st3 l
       = Some {| Metadata_Title := title2; Metadata_Subtitle := subtitle2;
                 Metadata_Art := None; Metadata_BackgroundImage := None |}
    /\ SetArtImage st3 (Some m1) later = Returns (st4, Some a')
    /\ playMetadata st4 l
       = Some {| Metadata_Title := title2; Metadata_Subtitle := subtitle2;
                 Metadata_Art := None; Metadata_BackgroundImage := None |}.
Proof.
  intros Hl.
  destruct (SetAudioItemMetadata_returns st l dir title1 subtitle1 Hl)
    as (st1 & H1 & Hp1 & Hm1 & Hi1).
  assert (Hl1 : plays st1 !! l = Some (withMetadata (Some (length (metadatas st))) dir))
    by (rewrite Hp1; exact (update_lookup _ _ _ _ Hl)).
  assert (Hx1 : metadatas st1 !! length (metadatas st)
                = Some {| Metadata_Title := title1; Metadata_Subtitle := subtitle1;
                          Metadata_Art := None; Metadata_BackgroundImage := None |})
    by (rewrite Hm1; apply alloc_lookup).
  destruct (SetArtImage_returns st1 _ _ art Hx1) as (st2 & H2 & Hp2 & Hm2 & Hi2).
  assert (Hl2 : plays st2 !! l = Some (withMetadata (Some (length (metadatas st))) dir))
    by (rewrite Hp2; exact Hl1).
  destruct (SetAudioItemMetadata_returns st2 l _ title2 subtitle2 Hl2)
    as (st3 & H3 & Hp3 & Hm3 & Hi3).
  assert (Hlen2 : length (metadatas st2) = S (length (metadatas st)))
    by (rewrite Hm2, length_insert, Hm1, length_app; cbn; lia).
  assert (Hx3 : metadatas st3 !! length (metadatas st)
                = Some {| Metadata_Title := title1; Metadata_Subtitle := subtitle1;
                          Metadata_Art := Some (length (images st1));
                          Metadata_BackgroundImage := None |}).
  { rewrite Hm3, lookup_app_l by lia. rewrite Hm2. exact (update_lookup _ _ _ _ Hx1). }
  destruct (SetArtImage_returns st3 _ _ later Hx3) as (st4 & H4 & Hp4 & Hm4 & Hi4).
  exists st1, (length (metadatas st)), st2, (length (images st1)), st3, (length (metadatas st2)),
    st4, (length (images st3)).
  split; [exact H1|]. split; [exact H2|]. split; [exact H3|]. split; [lia|].
  assert (Hl3 : plays st3 !! l
                = Some (withMetadata (Some (length (metadatas st2)))
                          (withMetadata (Some (length (metadatas st))) dir)))
    by (rewrite Hp3; exact (update_lookup _ _ _ _ Hl2)).
  split; [|split; [exact H4|]].
  - unfold playMetadata. rewrite Hl3. cbn [mbind option_bind withMetadata Play_AudioItem AudioItem_Metadata].
    rewrite Hm3. apply alloc_lookup.
  - unfold playMetadata. rewrite Hp4, Hl3.
    cbn [mbind option_bind withMetadata Play_AudioItem AudioItem_Metadata].
    rewrite Hm4, list_lookup_insert_ne by lia. rewrite Hm3. apply alloc_lookup.
Qed.

Lemma withStream_withMetadata (s : StreamStruct) (m : ptr) (d : AudioPlayerPlayDirective) :
  withMetadata m (withStream s d) = withStream s (withMetadata m d).
Proof. reflexivity. Qed.

(** X16: the stream and the metadata of a directive are set independently:
    SetAudioItemStream and SetAudioItemMetadata in either order end in the
    same store and return the same metadata pointer; the directive keeps
    its Type and playBehavior and has the stream and the metadata given. *)
Theorem stream_and_metadata_commute (st : Store) (l : nat) (dir : AudioPlayerPlayDirective)
    (url token expectedPreviousToken : string) (offsetInMilliseconds : Z)
    (title subtitle : string) :
  plays st !! l = Some dir ->
  exists st1 st2 m st1' dir2,
    SetAudioItemStream st (Some l) url token expectedPreviousToken offsetInMilliseconds
    = Returns st1
    /\ SetAudioItemMetadata st1 (Some l) title subtitle = Returns (st2, Some m)
    /\ SetAudioItemMetadata st (Some l) title subtitle = Returns (st1', Some m)
    /\ SetAudioItemStream st1' (Some l) url token expectedPreviousToken offsetInMilliseconds
       = Returns st2
    /\ plays st2 !! l = Some dir2
    /\ Play_Type dir2 = Play_Type dir
    /\ Play_PlayBehavior dir2 = Play_PlayBehavior dir
    /\ AudioItem_Stream (Play_AudioItem dir2)
       = {| Stream_URL := url; Stream_Token := token;
            Stream_ExpectedPreviousToken := expectedPreviousToken;
            Stream_OffsetInMilliseconds := offsetInMilliseconds |}
    /\ playMetadata st2 l
       = Some {| Metadata_Title := title; Metadata_Subtitle := subtitle;
                 Metadata_Art := None; Metadata_BackgroundImage := None |}.
Proof.
  intros Hl. unfold SetAudioItemStream at 1. rewrite Hl.
  eexists _, _, _, _, _. split; [reflexivity|].
  unfold SetAudioItemMetadata at 1. heaps. rewrite (update_lookup _ _ _ _ Hl).
  split; [reflexivity|].
  unfold SetAudioItemMetadata. rewrite Hl. split; [reflexivity|].
  unfold SetAudioItemStream. heaps. rewrite (update_lookup _ _ _ _ Hl).
  rewrite !list_insert_insert_eq. split; [reflexivity|].
  heaps. split; [exact (update_lookup _ _ _ _ Hl)|].
  repeat (split; [reflexivity|]).
  unfold playMetadata. heaps. rewrite (update_lookup _ _ _ _ Hl).
  cbn [mbind option_bind withMetadata withStream Play_AudioItem AudioItem_Metadata].
  apply alloc_lookup.
Qed.

(** *** Directives the response holds *)

Lemma type_after_update (h : list AudioPlayerPlayDirective) (l l' : nat)
    (x y : AudioPlayerPlayDirective) :
  h !! l = Some x -> Play_Type y = Play_Type x ->
  Play_Type <$> <[l := y]> h !! l' = Play_Type <$> h !! l'.
Proof.
  intros Hl Hy. destruct (decide (l = l')) as [<-|Hne].
  - rewrite (update_lookup _ _ _ _ Hl), Hl. cbn. by rewrite Hy.
  - by rewrite list_lookup_insert_ne.
Qed.

Lemma held_grows (st st' : Store) (r : Response) (d : Directive) :
  (forall d' ty, directiveType st d' = Some ty -> directiveType st' d' = Some ty) ->
  is_Some (directiveType st' d) ->
  held st r = true -> held st' (AddDirective r d) = true.
Proof.
  intros Hty [ty Hd] Hh. unfold held, AddDirective in *. cbn [Response_Directives].
  apply forallb_app_one; [|by rewrite Hd].
  eapply forallb_weaken; [|exact Hh]. intros d' Hd'. cbn beta in *.
  destruct (directiveType st d') as [ty'|] eqn:E; [|discriminate].
  by rewrite (Hty d' ty' E).
Qed.

Lemma held_same_types (st st' : Store) (r : Response) :
  (forall d, directiveType st' d = directiveType st d) -> held st' r = held st r.
Proof.
  intros Hty. unfold held. induction (Response_Directives r) as [|d ds IH]; [reflexivity|].
  cbn [forallb]. by rewrite Hty, IH.
Qed.

(** X11: every directive a response holds stays an object of the store, with
    the Type it was built with, whatever is built or set afterwards. *)
Theorem builders_keep_held (st : Store) (r : Response) :
  held st r = true ->
  (forall playBehavior,
     held (fst (fst (AddAudioPlayerPlayDirective st r playBehavior)))
          (snd (fst (AddAudioPlayerPlayDirective st r playBehavior))) = true)
  /\ held (fst (fst (AddAudioPlayerStopDirective st r)))
          (snd (fst (AddAudioPlayerStopDirective st r))) = true
  /\ (forall clearBehavior,
        held (fst (fst (AddAudioPlayerClearQueueDirective st r clearBehavior)))
             (snd (fst (AddAudioPlayerClearQueueDirective st r clearBehavior))) = true)
  /\ (forall d url token prev offset st',
        SetAudioItemStream st d url token prev offset = Returns st' ->
        held st' r = true /\ forall x, directiveType st' x = directiveType st x)
  /\ (forall d title subtitle st' m,
        SetAudioItemMetadata st d title subtitle = Returns (st', m) ->
        held st' r = true /\ forall x, directiveType st' x = directiveType st x)
  /\ (forall m contentDescription st' a,
        SetArtImage st m contentDescription = Returns (st', a) ->
        held st' r = true /\ forall x, directiveType st' x = directiveType st x)
  /\ (forall m contentDescription st' a,
        SetBackgroundImage st m contentDescription = Returns (st', a) ->
        held st' r = true /\ forall x, directiveType st' x = directiveType st x).
Proof.
  intros Hh.
  assert (Hsame : forall st', (forall x, directiveType st' x = directiveType st x) ->
                              held st' r = true
                              /\ forall x, directiveType st' x = directiveType st x).
  { intros st' Hty. split; [|exact Hty]. by rewrite (held_same_types st st' r Hty). }
  refine (conj _ (conj _ (conj _ (conj _ (conj _ (conj _ _)))))).
  - intros pb. unfold AddAudioPlayerPlayDirective. cbn [fst snd]. apply (held_grows st); auto.
    + intros [x|x|x] ty; unfold directiveType; heaps; auto.
      intros Hx. destruct (plays st !! x) as [p|] eqn:E; [|discriminate].
      by rewrite (lookup_app_l_Some _ _ _ _ E).
    + unfold directiveType. heaps. rewrite alloc_lookup. by eexists.
  - unfold AddAudioPlayerStopDirective. cbn [fst snd]. apply (held_grows st); auto.
    + intros [x|x|x] ty; unfold directiveType; heaps; auto.
      intros Hx. destruct (stops st !! x) as [p|] eqn:E; [|discriminate].
      by rewrite (lookup_app_l_Some _ _ _ _ E).
    + unfold directiveType. heaps. rewrite alloc_lookup. by eexists.
  - intros cb. unfold AddAudioPlayerClearQueueDirective.
    destruct (negb _ && negb _); cbn [fst snd]; (apply (held_grows st); auto;
      [ intros [x|x|x] ty; unfold directiveType; heaps; auto;
        intros Hx; destruct (clears st !! x) as [p|] eqn:E; [|discriminate];
        by rewrite (lookup_app_l_Some _ _ _ _ E)
      | unfold directiveType; heaps; rewrite alloc_lookup; by eexists ]).
  - intros [l|] url token prev offset st'; unfold SetAudioItemStream; [|discriminate].
    destruct (plays st !! l) as [dir|] eqn:El; [|discriminate]. intros [= <-].
    apply Hsame. intros [x|x|x]; unfold directiveType; heaps; auto.
    by apply (type_after_update _ _ _ dir).
  - intros [l|] title subtitle st' m; unfold SetAudioItemMetadata; [|discriminate].
    destruct (plays st !! l) as [dir|] eqn:El; [|discriminate]. intros [= <- <-].
    apply Hsame. intros [x|x|x]; unfold directiveType; heaps; auto.
    by apply (type_after_update _ _ _ dir).
  - intros [l|] desc st' a; unfold SetArtImage; [|discriminate].
    destruct (metadatas st !! l) as [meta|] eqn:El; [|discriminate]. intros [= <- <-].
    apply Hsame. intros [x|x|x]; reflexivity.
  - intros [l|] desc st' a; unfold SetBackgroundImage; [|discriminate].
    destruct (metadatas st !! l) as [meta|] eqn:El; [|discriminate]. intros [= <- <-].
    apply Hsame. intros [x|x|x]; reflexivity.
Qed.
(** *** The theorems at a store *)

(** At a directive with metadata: the art image set through the pointer
    SetAudioItemMetadata returned. *)
Lemma builders_keep_closed_witness :
  let st := fst (fst (AddAudioPlayerPlayDirective emptyStore emptyResponse "REPLACE_ALL")) in
  closed st = true
  /\ exists st1 m st2 a,
       SetAudioItemMetadata st (Some 0%nat) "T" "S" = Returns (st1, Some m)
       /\ closed st1 = true
       /\ metadatas st1 !! m
          = Some {| Metadata_Title := "T"; Metadata_Subtitle := "S";
                    Metadata_Art := None; Metadata_BackgroundImage := None |}
       /\ SetArtImage st1 (Some m) "cover" = Returns (st2, Some a)
       /\ closed st2 = true
       /\ images st2 !! a = Some {| Image_ContentDescription := "cover" |}
       /\ playMetadata st2 0
          = Some {| Metadata_Title := "T"; Metadata_Subtitle := "S";
                    Metadata_Art := Some a; Metadata_BackgroundImage := None |}.
Proof.
  intros st.
  assert (Hc : closed st = true) by reflexivity.
  split; [exact Hc|].
  destruct (SetAudioItemMetadata st (Some 0%nat) "T" "S") as [[st1 m]|] eqn:E1;
    [|discriminate E1].
  destruct (proj1 (proj2 (proj2 (proj2 (proj2 (builders_keep_closed st emptyResponse Hc)))))
              (Some 0%nat) "T" "S" st1 m E1) as (Hc1 & l & -> & Hl).
  destruct (SetArtImage st1 (Some l) "cover") as [[st2 a]|] eqn:E2;
    [|injection E1 as <- <-; discriminate E2].
  destruct (proj1 (proj2 (proj2 (proj2 (proj2 (proj2
              (builders_keep_closed st1 emptyResponse Hc1))))))
              (Some l) "cover" st2 a E2) as (Hc2 & i & -> & Hi).
  exists st1, l, st2, i.
  split; [reflexivity|]. split; [exact Hc1|]. split; [exact Hl|].
  split; [exact E2|]. split; [exact Hc2|]. split; [exact Hi|].
  injection E1 as <- <-. injection E2 as <- <-. reflexivity.
Defined.

Lemma builders_keep_held_witness :
  let st := fst (fst (AddAudioPlayerPlayDirective emptyStore emptyResponse "REPLACE_ALL")) in
  let r := snd (fst (AddAudioPlayerPlayDirective emptyStore emptyResponse "REPLACE_ALL")) in
  held st r = true
  /\ held (fst (fst (AddAudioPlayerStopDirective st r)))
          (snd (fst (AddAudioPlayerStopDirective st r))) = true.
Proof.
  intros st r.
  assert (Hh : held st r = true) by reflexivity.
  split; [exact Hh|].
  exact (proj1 (proj2 (builders_keep_held st r Hh))).
Defined.

(** A directive with a title that is not valid UTF-8, metadata and both
    images. *)
Lemma closed_round_trip_witness :
  let d := {| Play_Type := "AudioPlayer.Play"; Play_PlayBehavior := "REPLACE_ALL";
              Play_AudioItem :=
                {| AudioItem_Stream :=
                     {| Stream_URL := String (byte 255) "a.mp3"; Stream_Token := "tok1";
                        Stream_ExpectedPreviousToken := ""; Stream_OffsetInMilliseconds := 1500 |};
                   AudioItem_Metadata := Some 0%nat |} |} in
  let st := withImages [ {| Image_ContentDescription := "cover" |};
                         {| Image_ContentDescription := String (byte 192) "stage" |} ]
              (withMetadatas [ {| Metadata_Title := String (byte 237) "T";
                                  Metadata_Subtitle := "";
                                  Metadata_Art := Some 0%nat;
                                  Metadata_BackgroundImage := Some 1%nat |} ]
                 (withPlays [d] emptyStore)) in
  let v := {| View_Type := "AudioPlayer.Play"; View_PlayBehavior := "REPLACE_ALL";
              View_Stream := AudioItem_Stream (Play_AudioItem d);
              View_Metadata :=
                Some {| View_Title := String (byte 237) "T"; View_Subtitle := "";
                        View_Art := Some "cover";
                        View_BackgroundImage := Some (String (byte 192) "stage") |} |} in
  closed st = true
  /\ plays st !! 0%nat = Some d
  /\ viewPlay st d = Some v
  /\ coercedPlay v
     = {| View_Type := "AudioPlayer.Play"; View_PlayBehavior := "REPLACE_ALL";
          View_Stream :=
            {| Stream_URL := runeError "a.mp3"; Stream_Token := "tok1";
               Stream_ExpectedPreviousToken := ""; Stream_OffsetInMilliseconds := 1500 |};
          View_Metadata :=
            Some {| View_Title := runeError "T"; View_Subtitle := "";
                    View_Art := Some "cover";
                    View_BackgroundImage := Some (runeError "stage") |} |}
  /\ exists data st2 d2,
       MarshalPlay st d = Some data
       /\ UnmarshalPlay data emptyStore = (st2, d2, None)
       /\ viewPlay st2 d2 = Some (coercedPlay v).
Proof.
  intros d st v.
  assert (Hc : closed st = true) by reflexivity.
  assert (Hl : plays st !! 0%nat = Some d) by reflexivity.
  assert (Hv : viewPlay st d = Some v) by reflexivity.
  assert (Hr : (minInt64 <= Stream_OffsetInMilliseconds (AudioItem_Stream (Play_AudioItem d))
                <= maxInt64)%Z) by (vm_compute; split; discriminate).
  split; [exact Hc|]. split; [exact Hl|]. split; [exact Hv|]. split; [reflexivity|].
  destruct (closed_round_trip st emptyStore 0%nat d Hc Hl Hr)
    as (data & st2 & d2 & v' & Hd & Hu & Hv' & Hv2).
  rewrite Hv in Hv'. injection Hv' as <-.
  exists data, st2, d2. split; [exact Hd|]. split; [exact Hu | exact Hv2].
Defined.

(** A directive whose token, subtitle and art description are not valid
    UTF-8. *)
Lemma round_trip_settles_witness :
  let d := {| Play_Type := "AudioPlayer.Play"; Play_PlayBehavior := "ENQUEUE";
              Play_AudioItem :=
                {| AudioItem_Stream :=
                     {| Stream_URL := "https://x/a.mp3"; Stream_Token := String (byte 128) "tok";
                        Stream_ExpectedPreviousToken := String (byte 255) "";
                        Stream_OffsetInMilliseconds := 0 |};
                   AudioItem_Metadata := Some 0%nat |} |} in
  let st := withImages [ {| Image_ContentDescription := String (byte 254) "cover" |} ]
              (withMetadatas [ {| Metadata_Title := "T";
                                  Metadata_Subtitle := String (byte 224) "S";
                                  Metadata_Art := Some 0%nat;
                                  Metadata_BackgroundImage := None |} ]
                 (withPlays [d] emptyStore)) in
  closed st = true
  /\ plays st !! 0%nat = Some d
  /\ validString (Stream_Token (AudioItem_Stream (Play_AudioItem d))) = false
  /\ (exists meta img,
        playMetadata st 0 = Some meta /\ validString (Metadata_Subtitle meta) = false
        /\ metadataArt st meta = Some img
        /\ validString (Image_ContentDescription img) = false)
  /\ exists data st2 d2 v2 data2 st3 d3,
       MarshalPlay st d = Some data
       /\ UnmarshalPlay data emptyStore = (st2, d2, None)
       /\ viewPlay st2 d2 = Some v2
       /\ MarshalPlay st2 d2 = Some data2
       /\ UnmarshalPlay data2 emptyStore = (st3, d3, None)
       /\ viewPlay st3 d3 = Some v2.
Proof.
  intros d st.
  assert (Hc : closed st = true) by reflexivity.
  assert (Hl : plays st !! 0%nat = Some d) by reflexivity.
  assert (Hr : (minInt64 <= Stream_OffsetInMilliseconds (AudioItem_Stream (Play_AudioItem d))
                <= maxInt64)%Z) by (vm_compute; split; discriminate).
  split; [exact Hc|]. split; [exact Hl|]. split; [reflexivity|].
  split; [eexists _, _; repeat split; reflexivity|].
  exact (round_trip_settles st emptyStore emptyStore 0%nat d Hc Hl Hr).
Defined.

Lemma art_and_background_witness :
  let st := withMetadatas [{| Metadata_Title := "T"; Metadata_Subtitle := "S";
                              Metadata_Art := None; Metadata_BackgroundImage := None |}]
                          emptyStore in
  metadatas st !! 0%nat
  = Some {| Metadata_Title := "T"; Metadata_Subtitle := "S";
            Metadata_Art := None; Metadata_BackgroundImage := None |}
  /\ exists st1 a st2 b meta',
       SetArtImage st (Some 0%nat) "cover" = Returns (st1, Some a)
       /\ SetBackgroundImage st1 (Some 0%nat) "stage" = Returns (st2, Some b)
       /\ metadatas st2 !! 0%nat = Some meta'
       /\ Metadata_Title meta' = "T"
       /\ Metadata_Subtitle meta' = "S"
       /\ metadataArt st2 meta' = Some {| Image_ContentDescription := "cover" |}
       /\ metadataBackgroundImage st2 meta' = Some {| Image_ContentDescription := "stage" |}.
Proof.
  intros st. split; [reflexivity|].
  exact (proj1 (art_and_background st 0%nat _ "cover" "stage" eq_refl)).
Defined.

Lemma metadata_replaced_witness :
  let st := fst (fst (AddAudioPlayerPlayDirective emptyStore emptyResponse "REPLACE_ALL")) in
  let d := {| Play_Type := "AudioPlayer.Play"; Play_PlayBehavior := "REPLACE_ALL";
              Play_AudioItem := zeroAudioItem |} in
  plays st !! 0%nat = Some d
  /\ exists st1 m1 st2 a st3 m2 st4 a',
       SetAudioItemMetadata st (Some 0%nat) "T1" "S1" = Returns (st1, Some m1)
       /\ SetArtImage st1 (Some m1) "cover" = Returns (st2, Some a)
       /\ SetAudioItemMetadata st2 (Some 0%nat) "T2" "S2" = Returns (st3, Some m2)
       /\ m1 <> m2
       /\ playMetadata st3 0
          = Some {| Metadata_Title := "T2"; Metadata_Subtitle := "S2";
                    Metadata_Art := None; Metadata_BackgroundImage := None |}
       /\ SetArtImage st3 (Some m1) "late" = Returns (st4, Some a')
       /\ playMetadata st4 0
          = Some {| Metadata_Title := "T2"; Metadata_Subtitle := "S2";
                    Metadata_Art := None; Metadata_BackgroundImage := None |}.
Proof.
  intros st d. split; [reflexivity|].
  exact (metadata_replaced st 0%nat d "T1" "S1" "cover" "T2" "S2" "late" eq_refl).
Defined.

Lemma stream_and_metadata_commute_witness :
  let st := fst (fst (AddAudioPlayerPlayDirective emptyStore emptyResponse "REPLACE_ALL")) in
  let d := {| Play_Type := "AudioPlayer.Play"; Play_PlayBehavior := "REPLACE_ALL";
              Play_AudioItem := zeroAudioItem |} in
  plays st !! 0%nat = Some d
  /\ exists st1 st2 m st1',
       SetAudioItemStream st (Some 0%nat) "https://x/a.mp3" "tok1" "" 0 = Returns st1
       /\ SetAudioItemMetadata st1 (Some 0%nat) "T" "S" = Returns (st2, Some m)
       /\ SetAudioItemMetadata st (Some 0%nat) "T" "S" = Returns (st1', Some m)
       /\ SetAudioItemStream st1' (Some 0%nat) "https://x/a.mp3" "tok1" "" 0 = Returns st2.
Proof.
  intros st d. split; [reflexivity|].
  destruct (stream_and_metadata_commute st 0%nat d "https://x/a.mp3" "tok1" "" 0 "T" "S" eq_refl)
    as (st1 & st2 & m & st1' & dir2 & H1 & H2 & H3 & H4 & _).
  exists st1, st2, m, st1'. auto.
Defined.
End AudioMore.
